(** * LeafLens research pipeline: dataset resolution and multi-label metrics

    A shallow embedding of [research/dataset.py] and of [calculate_metrics]
    from [research/utils.py], with the properties the design document states
    about them.

    Conventions of the embedding.
    - A Python [str] is a Rocq [string]: one byte per character, which is
      CPython's own representation of a string whose code points are all
      below 256.
    - A NumPy float is an exact rational ([Q]) or [nan]; a mean is the exact
      quotient, not its rounding.
    - A raised exception is the [Raise] result of the [except] monad.  A
      function whose text Python cannot compile raises [SyntaxError] for
      every argument.
    - scikit-learn is an external collaborator: the functions the code
      imports from it are section variables, and a statement that depends on
      what they compute carries their documented contract as a hypothesis. *)

From Stdlib Require Import ZArith QArith Qreduction Qround Lia Ascii String List Sorted.
From stdpp Require Import base option list gmap strings.

Local Open Scope Z_scope.

(** ** The Python runtime the code relies on *)

Module Py.

(** Exceptions the modelled code can raise or catch. *)
Inductive exn :=
| KeyError
| IndexError
| ValueError
| NameError
| RuntimeError
| OSError
| SyntaxError.

(** A computation that returns or raises. *)
Inductive except (A : Type) :=
| Return (a : A)
| Raise (e : exn).
Arguments Return {A} a.
Arguments Raise {A} e.

Definition bind {A B : Type} (m : except A) (k : A -> except B) : except B :=
  match m with
  | Return a => k a
  | Raise e => Raise e
  end.

Definition except_map {A B : Type} (g : A -> B) (m : except A) : except B :=
  match m with
  | Return a => Return (g a)
  | Raise e => Raise e
  end.

#[global] Instance except_ret : MRet except := fun A a => Return a.
#[global] Instance except_bind : MBind except := fun A B k m => bind m k.

(** [xs[i]] on a sequence of length [n]: a negative index counts from the
    end, anything outside [-n, n) raises [IndexError]. *)
Definition norm_index (n : nat) (i : Z) : option nat :=
  if (0 <=? i) && (i <? Z.of_nat n) then Some (Z.to_nat i)
  else if (- Z.of_nat n <=? i) && (i <? 0) then Some (Z.to_nat (Z.of_nat n + i))
  else None.

(** *** [str] methods *)

Definition code (c : ascii) : Z := Z.of_N (N_of_ascii c).

(** [str.lower] on one character below 256: the ASCII capitals and the
    Latin-1 capitals (U+00C0..U+00DE without the multiplication sign) move up
    by 32, everything else is fixed. *)
Definition lower_char (c : ascii) : ascii :=
  let n := code c in
  if ((65 <=? n) && (n <=? 90))
     || ((192 <=? n) && (n <=? 222) && negb (n =? 215))
  then ascii_of_N (Z.to_N (n + 32))
  else c.

Fixpoint lower (s : string) : string :=
  match s with
  | EmptyString => EmptyString
  | String c s' => String (lower_char c) (lower s')
  end.

Fixpoint startswith (p s : string) : bool :=
  match p, s with
  | EmptyString, _ => true
  | String a p', String b s' => if Ascii.eqb a b then startswith p' s' else false
  | String _ _, EmptyString => false
  end.

(** [sub in s]: [sub] occurs in [s] as a contiguous substring. *)
Fixpoint contains (sub s : string) : bool :=
  startswith sub s
  || match s with
     | EmptyString => false
     | String _ s' => contains sub s'
     end.

(** [s.endswith(suf)]. *)
Definition endswith (suf s : string) : bool :=
  let n := String.length s in
  let k := String.length suf in
  (k <=? n)%nat && String.eqb (String.substring (n - k) k s) suf.

(** *** The built-in [hash] of a [str]

    CPython (3.11 and later) hashes the bytes of a string with SipHash-1-3
    under a 128-bit key that is drawn when the interpreter starts: at random
    by default, from [PYTHONHASHSEED] when that variable is set.  The key is
    therefore part of the state of one interpreter process. *)

Record hash_secret := { k0 : Z; k1 : Z }.

Definition mask64 : Z := Z.ones 64.
Definition wrap64 (x : Z) : Z := Z.land x mask64.
Definition add64 (a b : Z) : Z := wrap64 (a + b).
Definition rotl64 (x : Z) (s : Z) : Z :=
  wrap64 (Z.lor (Z.shiftl x s) (Z.shiftr x (64 - s))).

Definition sipstate : Type := Z * Z * Z * Z.

(** The macro [HALF_ROUND(a,b,c,d,s,t)]. *)
Definition half_round (a b c d s t : Z) : sipstate :=
  let a := add64 a b in
  let c := add64 c d in
  let b := Z.lxor (rotl64 b s) a in
  let d := Z.lxor (rotl64 d t) c in
  let a := rotl64 a 32 in
  (a, b, c, d).

(** The macro [SINGLE_ROUND(v0,v1,v2,v3)]. *)
Definition single_round (v : sipstate) : sipstate :=
  let '(v0, v1, v2, v3) := v in
  let '(v0, v1, v2, v3) := half_round v0 v1 v2 v3 13 16 in
  let '(v2, v1, v0, v3) := half_round v2 v1 v0 v3 17 21 in
  (v0, v1, v2, v3).

(** Little-endian value of a block of bytes. *)
Fixpoint le64 (bs : list Z) : Z :=
  match bs with
  | [] => 0
  | b :: bs' => Z.lor b (Z.shiftl (le64 bs') 8)
  end.

Definition absorb (v : sipstate) (m : Z) : sipstate :=
  let '(v0, v1, v2, v3) := v in
  let '(v0, v1, v2, v3) := single_round (v0, v1, v2, Z.lxor v3 m) in
  (Z.lxor v0 m, v1, v2, v3).

(** The compression loop over whole 8-byte words; what is left (fewer than
    eight bytes) is returned with the state.  [fuel] bounds the number of
    words. *)
Fixpoint sip_blocks (fuel : nat) (v : sipstate) (bs : list Z) : sipstate * list Z :=
  match fuel with
  | O => (v, bs)
  | S fuel' =>
      if (8 <=? length bs)%nat
      then sip_blocks fuel' (absorb v (le64 (take 8 bs))) (drop 8 bs)
      else (v, bs)
  end.

Definition siphash13 (key : hash_secret) (bs : list Z) : Z :=
  let b := wrap64 (Z.shiftl (Z.of_nat (length bs)) 56) in
  let v0 := Z.lxor (k0 key) 0x736f6d6570736575 in
  let v1 := Z.lxor (k1 key) 0x646f72616e646f6d in
  let v2 := Z.lxor (k0 key) 0x6c7967656e657261 in
  let v3 := Z.lxor (k1 key) 0x7465646279746573 in
  let '(v, tail) := sip_blocks (length bs) (v0, v1, v2, v3) bs in
  let b := Z.lor b (le64 tail) in
  let '(v0, v1, v2, v3) := absorb v b in
  let v2 := Z.lxor v2 0xff in
  let '(v0, v1, v2, v3) :=
    single_round (single_round (single_round (v0, v1, v2, v3))) in
  Z.lxor (Z.lxor v0 v1) (Z.lxor v2 v3).

Fixpoint bytes_of (s : string) : list Z :=
  match s with
  | EmptyString => []
  | String c s' => code c :: bytes_of s'
  end.

(** [hash(s)]: the empty string hashes to 0, the 64-bit digest is read as a
    signed integer, and -1 (the error value of the C API) is moved to -2. *)
Definition hash (key : hash_secret) (s : string) : Z :=
  match s with
  | EmptyString => 0
  | _ =>
      let u := siphash13 key (bytes_of s) in
      let x := if u <? 2 ^ 63 then u else u - 2 ^ 64 in
      if x =? -1 then -2 else x
  end.

(** The key CPython derives from [PYTHONHASHSEED=seed]: all zero for seed 0,
    otherwise the first sixteen bytes of a linear congruential sequence. *)
Fixpoint lcg_urandom (n : nat) (x : Z) : list Z :=
  match n with
  | O => []
  | S n' =>
      let x := Z.land (x * 214013 + 2531011) (Z.ones 32) in
      Z.land (Z.shiftr x 16) 255 :: lcg_urandom n' x
  end.

Definition secret_of_seed (seed : Z) : hash_secret :=
  if seed =? 0 then {| k0 := 0; k1 := 0 |}
  else
    let bs := lcg_urandom 16 seed in
    {| k0 := le64 (take 8 bs); k1 := le64 (drop 8 bs) |}.

End Py.

Import Py.
Local Open Scope string_scope.
Local Open Scope list_scope.
Local Open Scope Z_scope.

(** ** [research/dataset.py] *)

Module Dataset.

(** A [pathlib.Path] below the dataset root, as its components. *)
Abbreviation Path := (list string) (only parsing).

Definition name (p : Path) : string := List.last p "".

(** [str(p.relative_to(data_dir))]: the components joined with a slash. *)
Fixpoint str_path (p : Path) : string :=
  match p with
  | [] => "."
  | [c] => c
  | c :: p' => String.append c (String.append "/" (str_path p'))
  end.

(** A directory tree as [iterdir] and [glob] see it: entries in the order the
    operating system lists them.  A file records whether its content decodes
    as an image. *)
#[warnings="-register-all"]
Inductive node :=
| File (is_image : bool)
| Dir (children : list (string * node)).

Definition is_dir (n : node) : bool :=
  match n with
  | Dir _ => true
  | File _ => false
  end.

Definition children_of (n : node) : list (string * node) :=
  match n with
  | Dir ch => ch
  | File _ => []
  end.

(** The entry [data_dir / fname], if it exists. *)
Definition find_in (root : list (string * node)) (fname : string) : option node :=
  snd <$> List.find (fun e => String.eqb (fst e) fname) root.

(** [d.glob('*.jpg')]: every entry of [d], of any kind, whose name ends in
    [.jpg]; pathlib's [*] also matches a leading dot. *)
Definition glob_jpg (ch : list (string * node)) : list string :=
  map fst (filter (fun e => Is_true (endswith ".jpg" (fst e))) ch).

(** One row of the metadata table. *)
Record SampleRecord := {
  image_path : string;
  class_name : string;
  split : string
}.

(** A [pandas.DataFrame]: its column labels and its rows. *)
Record DataFrame := {
  columns : list string;
  rows : list SampleRecord
}.

(** [pd.DataFrame(data)] for a list of dicts: the columns are the keys of
    the dicts, so an empty list gives a frame without columns. *)
Definition DataFrame_of (data : list SampleRecord) : DataFrame :=
  {| columns := match data with
                | [] => []
                | _ => ["image_path"; "class_name"; "split"]
                end;
     rows := data |}.

(** [df[col]]: a missing column label raises [KeyError]. *)
Definition getcol (df : DataFrame) (col : string) (f : SampleRecord -> string)
  : except (list string) :=
  if existsb (String.eqb col) (columns df)
  then Return (map f (rows df))
  else Raise KeyError.

(** [Series.unique()]: distinct values in order of first appearance. *)
Fixpoint unique_from (seen l : list string) : list string :=
  match l with
  | [] => []
  | x :: l' =>
      if existsb (String.eqb x) seen then unique_from seen l'
      else x :: unique_from (x :: seen) l'
  end.

Definition unique (l : list string) : list string := unique_from [] l.

(** [sorted] on strings: ascending by code point, stable. *)
Fixpoint insert_sorted (x : string) (l : list string) : list string :=
  match l with
  | [] => [x]
  | y :: l' => if String.ltb x y then x :: l else y :: insert_sorted x l'
  end.

Definition sorted (l : list string) : list string :=
  fold_right insert_sorted [] (rev l).

(** [enumerate]. *)
Fixpoint enumerate_from {A : Type} (i : Z) (l : list A) : list (Z * A) :=
  match l with
  | [] => []
  | x :: l' => (i, x) :: enumerate_from (i + 1) l'
  end.

Definition enumerate {A : Type} (l : list A) : list (Z * A) := enumerate_from 0 l.

(** The class registry ([class_info]). *)
Record ClassInfo := {
  classes : list string;
  class_to_idx : gmap string Z;
  num_classes : Z;
  disease_categories : option (gmap string (list string))
}.

(** The dataset object once [__init__] has run. *)
Record PlantDiseaseDataset := {
  data_dir : list (string * node);
  self_split : string;
  metadata : DataFrame;
  class_info : ClassInfo;
  data : DataFrame
}.

Abbreviation image := (list (list (Z * Z * Z))) (only parsing).
Abbreviation tensor := (list Q) (only parsing).

Section Resolver.

(** The key of the interpreter the code runs in. *)
Variable key : hash_secret.

(** The readers the code calls on files of the data set. *)
Variable read_csv : node -> except DataFrame.
Variable json_load : node -> except ClassInfo.
Variable Image_open : string -> except image.
Variable transform : option (image -> except tensor).

Definition _assign_split (img_file : Path) : string :=
  let hash_val := hash key (name img_file) mod 100 in
  if hash_val <? 70 then "train"
  else if hash_val <? 85 then "val"
  else "test".

(** The row built for entry [f] of class directory [d]. *)
Definition row_of (d f : string) : SampleRecord :=
  {| image_path := str_path [d; f];
     class_name := d;
     split := _assign_split [d; f] |}.

(** The rows one entry of the root contributes. *)
Definition rows_of_entry (class_dir : string * node) : list SampleRecord :=
  if is_dir (snd class_dir) && negb (startswith "." (fst class_dir))
  then map (row_of (fst class_dir)) (glob_jpg (children_of (snd class_dir)))
  else [].

Definition _create_metadata_from_structure (root : list (string * node))
  : DataFrame :=
  DataFrame_of
    (flat_map
       (fun class_dir : string * node =>
          if is_dir (snd class_dir) && negb (startswith "." (fst class_dir))
          then
            let class_name := fst class_dir in
            map (fun img_file : string =>
                   {| image_path := str_path [class_name; img_file];
                      class_name := class_name;
                      split := _assign_split [class_name; img_file] |})
                (glob_jpg (children_of (snd class_dir)))
          else [])
       root).

Definition _load_metadata (root : list (string * node)) : except DataFrame :=
  match find_in root "metadata.csv" with
  | Some f => read_csv f
  | None => Return (_create_metadata_from_structure root)
  end.

(** [{cls: idx for idx, cls in enumerate(unique_classes)}]: a later pair
    overwrites an earlier one on the same key. *)
Definition dict_of_enumerate (l : list string) : gmap string Z :=
  fold_left (fun (m : gmap string Z) (p : Z * string) => <[snd p := fst p]> m)
            (enumerate l) ∅.

Definition _create_class_info (metadata : DataFrame) : except ClassInfo :=
  col ← getcol metadata "class_name" class_name;
  let unique_classes := sorted (unique col) in
  let class_to_idx := dict_of_enumerate unique_classes in
  Return {| classes := unique_classes;
            class_to_idx := class_to_idx;
            num_classes := Z.of_nat (length unique_classes);
            disease_categories := None |}.

Definition _load_class_info (root : list (string * node)) (metadata : DataFrame)
  : except ClassInfo :=
  match find_in root "class_info.json" with
  | Some f => json_load f
  | None => _create_class_info metadata
  end.

Definition _filter_split_data (metadata : DataFrame) (split_ : string)
  : except DataFrame :=
  col ← getcol metadata "split" split;
  Return {| columns := columns metadata;
            rows := filter (fun r => Is_true (String.eqb (split r) split_))
                           (rows metadata) |}.

Definition __init__ (root : list (string * node)) (split_ : string)
  : except PlantDiseaseDataset :=
  metadata ← _load_metadata root;
  class_info ← _load_class_info root metadata;
  data ← _filter_split_data metadata split_;
  Return {| data_dir := root; self_split := split_; metadata := metadata;
            class_info := class_info; data := data |}.

Definition __len__ (self : PlantDiseaseDataset) : nat := length (rows (data self)).

(** [df.iloc[idx]] for an integer position. *)
Definition iloc (df : DataFrame) (idx : Z) : except SampleRecord :=
  match norm_index (length (rows df)) idx with
  | Some i =>
      match rows df !! i with
      | Some row => Return row
      | None => Raise IndexError
      end
  | None => Raise IndexError
  end.

(** [torch.zeros(n)]. *)
Definition torch_zeros (n : Z) : except tensor :=
  if n <? 0 then Raise RuntimeError else Return (replicate (Z.to_nat n) 0%Q).

(** [t[i] = v] on a one-dimensional tensor. *)
Definition tensor_setitem (t : tensor) (i : Z) (v : Q) : except tensor :=
  match norm_index (length t) i with
  | Some k => Return (<[k := v]> t)
  | None => Raise IndexError
  end.

Definition _create_label (class_info : ClassInfo) (class_name : string)
  : except tensor :=
  class_idx ← match class_to_idx class_info !! class_name with
              | Some i => Return i
              | None => Raise KeyError
              end;
  label ← torch_zeros (num_classes class_info);
  tensor_setitem label class_idx 1%Q.

(** [np.array(image)]: the module never binds the name [np] (it imports
    neither numpy nor a name [np]), so evaluating it raises [NameError]. *)
Definition np_array (img : image) : except image := Raise NameError.

(** [torch.from_numpy(image).permute(2, 0, 1).float() / 255.0], flattened. *)
Definition to_tensor (img : image) : tensor :=
  let chan (f : Z * Z * Z -> Z) :=
    flat_map (map (fun px => (f px # 255)%Q)) img in
  chan (fun px => fst (fst px)) ++ chan (fun px => snd (fst px)) ++ chan snd.

Definition __getitem__ (self : PlantDiseaseDataset) (idx : Z)
  : except (tensor * tensor) :=
  row ← iloc (data self) idx;
  img ← Image_open (image_path row);
  img ← np_array img;
  img ← match transform with
        | Some t => t img
        | None => Return (to_tensor img)
        end;
  label ← _create_label (class_info self) (class_name row);
  Return (img, label).

End Resolver.

(** *** [PlantVillageDataset] *)

(** Python's reserved words ([keyword.kwlist]).  The compiler refuses each of
    them wherever a name is expected. *)
Definition kwlist : list string :=
  ["False"; "None"; "True"; "and"; "as"; "assert"; "async"; "await"; "break";
   "class"; "continue"; "def"; "del"; "elif"; "else"; "except"; "finally";
   "for"; "from"; "global"; "if"; "import"; "in"; "is"; "lambda"; "nonlocal";
   "not"; "or"; "pass"; "raise"; "return"; "try"; "while"; "with"; "yield"].

Definition iskeyword (s : string) : bool := existsb (String.eqb s) kwlist.

(** A function body that binds the names [bound] in its generator
    expressions: when one of them is a reserved word the text is not
    compiled, Python reports a [SyntaxError], and nothing of the body runs
    for any argument. *)
Definition compiled {A : Type} (bound : list string) (body : A) : except A :=
  if existsb iskeyword bound then Raise SyntaxError else Return body.

(** [any(x in s for x in keywords)], in a body that compiles. *)
Definition any_in (keywords : list string) (s : string) : bool :=
  existsb (fun kw => contains kw s) keywords.

(** The [if]/[elif] chain of the loop of [_categorize_diseases], as a body
    that compiles evaluates it: the key of the list the class is appended
    to.  Whether the body compiles is decided by the names it binds, in
    [_categorize_diseases_as] below. *)
Definition category_of (cls : string) : string :=
  let cls_lower := lower cls in
  if contains "healthy" cls_lower then "healthy"
  else if any_in ["blight"; "spot"; "mildew"; "rust"; "wilt"] cls_lower then "disease"
  else if any_in ["aphid"; "mite"; "bug"; "beetle"] cls_lower then "pest"
  else if any_in ["deficiency"; "nutrient"; "chlorosis"] cls_lower then "deficiency"
  else "environmental".

(** The keys of the [categories] dict. *)
Definition category_names : list string :=
  ["healthy"; "disease"; "pest"; "deficiency"; "environmental"].

Definition empty_categories : gmap string (list string) :=
  <["healthy" := []]> (<["disease" := []]> (<["pest" := []]>
    (<["deficiency" := []]> (<["environmental" := []]> ∅)))).

(** [categories[k].append(cls)]. *)
Definition append_to (categories : gmap string (list string)) (k cls : string)
  : gmap string (list string) :=
  alter (fun l => l ++ [cls]) k categories.

(** [_categorize_diseases] with [x1], [x2] and [x3] for the variables its
    three generator expressions bind (lines 186, 188 and 190). *)
Definition _categorize_diseases_as (x1 x2 x3 : string) (classes : list string)
  : except (gmap string (list string)) :=
  compiled [x1; x2; x3]
    (fold_left (fun categories cls => append_to categories (category_of cls) cls)
               classes empty_categories).

(** The function as the file has it: line 186 binds [disease], line 188
    binds [pest], and line 190 reads
    [any(def in cls_lower for def in ['deficiency', 'nutrient', 'chlorosis'])]. *)
Definition _categorize_diseases (classes : list string)
  : except (gmap string (list string)) :=
  _categorize_diseases_as "disease" "pest" "def" classes.

Definition PlantVillage_create_class_info (metadata : DataFrame) : except ClassInfo :=
  col ← getcol metadata "class_name" class_name;
  let unique_classes := sorted (unique col) in
  let class_to_idx := dict_of_enumerate unique_classes in
  disease_categories ← _categorize_diseases unique_classes;
  Return {| classes := unique_classes;
            class_to_idx := class_to_idx;
            num_classes := Z.of_nat (length unique_classes);
            disease_categories := Some disease_categories |}.

End Dataset.

(** ** [calculate_metrics] of [research/utils.py] *)

Module Metrics.

(** A NumPy float. *)
Inductive npfloat :=
| nan
| fin (q : Q).

(** A two-dimensional array of shape [(length tolist, shape1)]. *)
Record ndarray (A : Type) := {
  shape1 : nat;
  tolist : list (list A)
}.
Arguments shape1 {A} _.
Arguments tolist {A} _.

Definition shape0 {A : Type} (a : ndarray A) : nat := length (tolist a).

Definition well_shaped {A : Type} (a : ndarray A) : bool :=
  forallb (fun r => (length r =? shape1 a)%nat) (tolist a).

(** Both arguments have the shape [(n_samples, n_classes)] of the docstring. *)
Definition same_shape {A B : Type} (a : ndarray A) (b : ndarray B) : bool :=
  well_shaped a && well_shaped b
  && (shape1 a =? shape1 b)%nat && (shape0 a =? shape0 b)%nat.

Definition array_map {A B : Type} (f : A -> B) (a : ndarray A) : ndarray B :=
  {| shape1 := shape1 a; tolist := map (map f) (tolist a) |}.

(** [a[:, i]] for a column the array has ([i < shape1 a]).  NumPy raises
    [IndexError] for any other [i] ([Utils.column_checked] below); the
    statements about [calculate_metrics] take arrays of one shape
    ([same_shape]), in which every column the function reads exists. *)
Definition column {A : Type} (d : A) (a : ndarray A) (i : nat) : list A :=
  map (fun r => nth i r d) (tolist a).

Definition of_bool (b : bool) : npfloat := fin (if b then 1 else 0)%Q.

Fixpoint np_sum (l : list npfloat) : npfloat :=
  match l with
  | [] => fin 0%Q
  | x :: l' =>
      match x, np_sum l' with
      | fin a, fin b => fin (a + b)%Q
      | _, _ => nan
      end
  end.

(** [np.mean]: [nan] on an empty array. *)
Definition np_mean (l : list npfloat) : npfloat :=
  match l with
  | [] => nan
  | _ =>
      match np_sum l with
      | fin s => fin (Qred (s / inject_Z (Z.of_nat (length l))))
      | nan => nan
      end
  end.

(** [np.unique]: the distinct values. *)
Fixpoint np_unique (l : list Q) : list Q :=
  match l with
  | [] => []
  | x :: l' =>
      if existsb (Qeq_bool x) l' then np_unique l' else x :: np_unique l'
  end.

(** [(y_pred > 0.5).astype(int)] on one score. *)
Definition binarize (p : Q) : Z := if Qle_bool p (1 # 2) then 0 else 1.

(** [t == b] and [t != b] for a float label and an integer prediction. *)
Definition label_eq (t : Q) (b : Z) : bool := Qeq_bool t (inject_Z b).

(** Elementwise comparison of two arrays of one shape. *)
Definition rows_eq (y_true : ndarray Q) (y_pred_binary : ndarray Z) : list (list bool) :=
  zip_with (zip_with label_eq) (tolist y_true) (tolist y_pred_binary).

Inductive average := macro | micro.

Record MetricsReport := {
  precision : npfloat;
  recall : npfloat;
  f1 : npfloat;
  precision_micro : npfloat;
  recall_micro : npfloat;
  f1_micro : npfloat;
  accuracy : npfloat;
  subset_accuracy : npfloat;
  hamming_loss : npfloat;
  auc : npfloat
}.

(** [try: body except ValueError: handler]. *)
Definition except_ValueError {A : Type} (body : except A) (handler : A) : except A :=
  match body with
  | Raise ValueError => Return handler
  | _ => body
  end.

Section CalculateMetrics.

(** The three functions imported from [sklearn.metrics]; the first is
    called with [zero_division=0] and its fourth result is dropped. *)
Variable precision_recall_fscore_support :
  ndarray Q -> ndarray Z -> average -> except (npfloat * npfloat * npfloat).
Variable accuracy_score : ndarray Q -> ndarray Z -> except npfloat.
Variable roc_auc_score : list Q -> list Q -> except npfloat.

(** [len(np.unique(y_true[:, i])) > 1]. *)
Definition two_valued (y_true : ndarray Q) (i : nat) : bool :=
  (1 <? length (np_unique (column 0%Q y_true i)))%nat.

(** The [for i in range(y_true.shape[1])] loop, [auc_scores] threaded. *)
Fixpoint auc_loop (y_true y_pred : ndarray Q) (cols : list nat)
         (auc_scores : list npfloat) : except (list npfloat) :=
  match cols with
  | [] => Return auc_scores
  | i :: cols' =>
      if two_valued y_true i
      then
        auc ← roc_auc_score (column 0%Q y_true i) (column 0%Q y_pred i);
        auc_loop y_true y_pred cols' (auc_scores ++ [auc])
      else auc_loop y_true y_pred cols' auc_scores
  end.

Definition mean_auc (y_true y_pred : ndarray Q) : except npfloat :=
  except_ValueError
    (auc_scores ← auc_loop y_true y_pred (seq 0 (shape1 y_true)) [];
     Return (match auc_scores with
             | [] => fin 0%Q
             | _ => np_mean auc_scores
             end))
    (fin 0%Q).

Definition calculate_metrics (y_true y_pred : ndarray Q) : except MetricsReport :=
  let y_pred_binary := array_map binarize y_pred in
  '(precision, recall, f1) ←
    precision_recall_fscore_support y_true y_pred_binary macro;
  '(precision_micro, recall_micro, f1_micro) ←
    precision_recall_fscore_support y_true y_pred_binary micro;
  sample_accuracy ← accuracy_score y_true y_pred_binary;
  let subset_accuracy :=
    np_mean (map (fun r => of_bool (forallb id r)) (rows_eq y_true y_pred_binary)) in
  let hamming_loss :=
    np_mean (map (fun b => of_bool (negb b)) (concat (rows_eq y_true y_pred_binary))) in
  mean_auc ← mean_auc y_true y_pred;
  Return {| precision := precision;
            recall := recall;
            f1 := f1;
            precision_micro := precision_micro;
            recall_micro := recall_micro;
            f1_micro := f1_micro;
            accuracy := sample_accuracy;
            subset_accuracy := subset_accuracy;
            hamming_loss := hamming_loss;
            auc := mean_auc |}.

End CalculateMetrics.

(** *** Counting, for the statements *)

(** [k] out of [n], as a float: [nan] when [n] is 0. *)
Definition ratio (k n : nat) : npfloat :=
  match n with
  | O => nan
  | S _ => fin (Qred (Z.of_nat k # Pos.of_nat n))
  end.

Definition count_true (l : list bool) : nat := length (filter (fun b => Is_true b) l).

(** Rows of the prediction that equal the ground-truth row in every label. *)
Definition matching_rows (y_true : ndarray Q) (y_pred_binary : ndarray Z) : nat :=
  count_true (map (forallb id) (rows_eq y_true y_pred_binary)).


Definition differing_bits (y_true : ndarray Q) (y_pred_binary : ndarray Z) : nat :=
  count_true (map negb (concat (rows_eq y_true y_pred_binary))).







(** The scores with every 0.5 replaced by [q]. *)
Definition replace_half (q : Q) (y_pred : ndarray Q) : ndarray Q :=
  array_map (fun p => if Qeq_bool p (1 # 2) then q else p) y_pred.

(** The metrics computed from the binarized prediction. *)
Definition thresholded (rep : MetricsReport)
  : npfloat * npfloat * npfloat * npfloat * npfloat * npfloat
    * npfloat * npfloat * npfloat :=
  (precision rep, recall rep, f1 rep,
   precision_micro rep, recall_micro rep, f1_micro rep,
   accuracy rep, subset_accuracy rep, hamming_loss rep).

End Metrics.

(** ** scikit-learn, as documented

    Reference definitions of the three imported functions on two-dimensional
    arrays, in exact arithmetic, and the parts of their documentation the
    statements below rely on. *)

Module Sklearn.
Import Metrics.

Inductive target_type :=
| binary
| multiclass
| multilabel_indicator
| continuous
| continuous_multioutput
| multiclass_multioutput
| unknown.

Definition integral (q : Q) : bool := Qeq_bool q (inject_Z (Qfloor q)).

(** [type_of_target] on a two-dimensional array. *)
Definition type_of_target (y : ndarray Q) : target_type :=
  let vals := concat (tolist y) in
  if (1 <? shape1 y)%nat then
    if (length (np_unique vals) <? 3)%nat && forallb integral vals
    then multilabel_indicator
    else if forallb integral vals then multiclass_multioutput
    else continuous_multioutput
  else if (shape1 y =? 0)%nat || (shape0 y =? 0)%nat then unknown
  else if negb (forallb integral vals) then continuous
  else if (2 <? length (np_unique vals))%nat then multiclass
  else binary.

Definition target_type_eqb (a b : target_type) : bool :=
  match a, b with
  | binary, binary | multiclass, multiclass
  | multilabel_indicator, multilabel_indicator
  | continuous, continuous | continuous_multioutput, continuous_multioutput
  | multiclass_multioutput, multiclass_multioutput | unknown, unknown => true
  | _, _ => false
  end.

(** [_check_targets]: the common target type, or [ValueError] on a mix of
    types, on an unsupported type, on different numbers of samples or, for
    label indicators, on different numbers of labels. *)
Definition check_targets (y_true : ndarray Q) (y_pred : ndarray Z) : except target_type :=
  if negb (shape0 y_true =? shape0 y_pred)%nat then Raise ValueError
  else
    let single t := target_type_eqb t binary || target_type_eqb t multiclass in
    let t1 := type_of_target y_true in
    let t2 := type_of_target (array_map inject_Z y_pred) in
    if single t1 && single t2 then
      if target_type_eqb t1 binary && target_type_eqb t2 binary
         && (length (np_unique (concat (tolist y_true)
                                 ++ concat (tolist (array_map inject_Z y_pred)))) <? 3)%nat
      then Return binary
      else Return multiclass
    else if target_type_eqb t1 multilabel_indicator
            && target_type_eqb t2 multilabel_indicator
            && (shape1 y_true =? shape1 y_pred)%nat
    then Return multilabel_indicator
    else Raise ValueError.

(** [accuracy_score]: exact-match ratio over the samples; on multilabel
    indicators a sample matches when its whole row does. *)
Definition accuracy_score (y_true : ndarray Q) (y_pred : ndarray Z) : except npfloat :=
  _ ← check_targets y_true y_pred;
  Return (np_mean (map (fun r => of_bool (forallb id r)) (rows_eq y_true y_pred))).

(** [_prf_divide] with [zero_division=0]. *)
Definition prf_divide (num den : nat) : Q :=
  match den with
  | O => 0%Q
  | S _ => Qred (Z.of_nat num # Pos.of_nat den)
  end.

Definition count_if {A : Type} (f : A -> bool) (l : list A) : nat :=
  length (filter (fun x => Is_true (f x)) l).

(** Per label: true positives, predicted positives, actual positives. *)
Definition label_counts (y_true : ndarray Q) (y_pred : ndarray Z) (t : target_type)
  : list (nat * nat * nat) :=
  match t with
  | multilabel_indicator =>
      map (fun j =>
             let ts := column 0%Q y_true j in
             let ps := column 0 y_pred j in
             (count_if (fun tp => negb (Qeq_bool (fst tp) 0) && negb (snd tp =? 0))
                       (zip ts ps),
              count_if (fun p => negb (p =? 0)) ps,
              count_if (fun t => negb (Qeq_bool t 0)) ts))
          (seq 0 (shape1 y_true))
  | _ =>
      let ts := column 0%Q y_true 0 in
      let ps := map inject_Z (column 0 y_pred 0) in
      map (fun l =>
             (count_if (fun tp => Qeq_bool (fst tp) l && Qeq_bool (snd tp) l) (zip ts ps),
              count_if (fun p => Qeq_bool p l) ps,
              count_if (fun t => Qeq_bool t l) ts))
          (np_unique (ts ++ ps))
  end.

Definition prf_of (c : nat * nat * nat) : npfloat * npfloat * npfloat :=
  let '(tp_sum, pred_sum, true_sum) := c in
  (fin (prf_divide tp_sum pred_sum), fin (prf_divide tp_sum true_sum),
   fin (prf_divide (2 * tp_sum) (true_sum + pred_sum))).

Definition sum_counts (cs : list (nat * nat * nat)) : nat * nat * nat :=
  fold_right (fun c acc =>
                let '(a, b, d) := c in
                let '(a', b', d') := acc in
                ((a + a')%nat, (b + b')%nat, (d + d')%nat))
             (O, O, O) cs.

(** [precision_recall_fscore_support(..., zero_division=0)] without the
    support. *)
Definition precision_recall_fscore_support
           (y_true : ndarray Q) (y_pred : ndarray Z) (avg : average)
  : except (npfloat * npfloat * npfloat) :=
  t ← check_targets y_true y_pred;
  let cs := label_counts y_true y_pred t in
  match avg with
  | micro => Return (prf_of (sum_counts cs))
  | macro =>
      let prfs := map prf_of cs in
      Return (np_mean (map (fun x => fst (fst x)) prfs),
              np_mean (map (fun x => snd (fst x)) prfs),
              np_mean (map snd prfs))
  end.

(** Area under the ROC curve of a binary target: the share of
    (positive, negative) pairs the scores order correctly, a tie counting
    one half.  A target with one value, or with more than two, is a
    [ValueError]. *)
Definition roc_auc_score (y_true y_score : list Q) : except npfloat :=
  match np_unique y_true with
  | [a; b] =>
      let hi := if Qle_bool a b then b else a in
      let pts := zip y_true y_score in
      let pos := map snd (filter (fun p => Is_true (Qeq_bool (fst p) hi)) pts) in
      let neg := map snd (filter (fun p => Is_true (negb (Qeq_bool (fst p) hi))) pts) in
      let u := fold_right Qplus 0%Q
                 (flat_map (fun sp =>
                              map (fun sn =>
                                     if Qeq_bool sp sn then (1 # 2)%Q
                                     else if Qle_bool sp sn then 0%Q else 1%Q)
                                  neg)
                           pos) in
      Return (fin (Qred (u / inject_Z (Z.of_nat (length pos * length neg)))))
  | _ => Raise ValueError
  end.


(** [roc_auc_score] reports a target it cannot score with a [ValueError]. *)
Definition raises_only_ValueError
           (roc_auc_score : list Q -> list Q -> except npfloat) : Prop :=
  forall (y_true y_score : list Q) (e : exn),
    roc_auc_score y_true y_score = Raise e -> e = ValueError.

End Sklearn.

(** ** The other functions of [research/utils.py] *)

Module Utils.
Import Dataset Metrics.

(** The dict [create_class_info_json] dumps to [output_path]: the names as
    given, neither sorted nor deduplicated. *)
Definition create_class_info_json (class_names : list string) : ClassInfo :=
  {| classes := class_names;
     class_to_idx := dict_of_enumerate class_names;
     num_classes := Z.of_nat (length class_names);
     disease_categories := None |}.

(** *** Checkpoints *)

Section Checkpoints.

(** A state dict, and the metrics dict stored with it. *)
Context {state_dict metrics : Type}.

Record Checkpoint := {
  ck_epoch : Z;
  ck_model_state_dict : state_dict;
  ck_optimizer_state_dict : state_dict;
  ck_scheduler_state_dict : state_dict;
  ck_metrics : metrics
}.

(** The objects the two functions read and update: the files written by
    [torch.save], and the state held by the model, the optimizer and the
    scheduler. *)
Record World := {
  files : gmap string Checkpoint;
  model_state : state_dict;
  optimizer_state : state_dict;
  scheduler_state : state_dict
}.

Definition save_model_checkpoint (w : World) (epoch : Z) (m : metrics)
           (filepath : string) : World :=
  let checkpoint :=
    {| ck_epoch := epoch;
       ck_model_state_dict := model_state w;
       ck_optimizer_state_dict := optimizer_state w;
       ck_scheduler_state_dict := scheduler_state w;
       ck_metrics := m |} in
  {| files := <[filepath := checkpoint]> (files w);
     model_state := model_state w;
     optimizer_state := optimizer_state w;
     scheduler_state := scheduler_state w |}.

(** [optimizer] and [scheduler] say whether the optional arguments are
    given ([is not None]). *)
Definition load_model_checkpoint (w : World) (filepath : string)
           (optimizer scheduler : bool) : except (World * (Z * metrics)) :=
  checkpoint ← match files w !! filepath with
               | Some c => Return c
               | None => Raise OSError
               end;
  let w := {| files := files w;
              model_state := ck_model_state_dict checkpoint;
              optimizer_state := optimizer_state w;
              scheduler_state := scheduler_state w |} in
  let w := if optimizer
           then {| files := files w;
                   model_state := model_state w;
                   optimizer_state := ck_optimizer_state_dict checkpoint;
                   scheduler_state := scheduler_state w |}
           else w in
  let w := if scheduler
           then {| files := files w;
                   model_state := model_state w;
                   optimizer_state := optimizer_state w;
                   scheduler_state := ck_scheduler_state_dict checkpoint |}
           else w in
  Return (w, (ck_epoch checkpoint, ck_metrics checkpoint)).

End Checkpoints.

Arguments Checkpoint : clear implicits.
Arguments World : clear implicits.

(** *** [plot_confusion_matrix] *)

(** One subplot: the matrix drawn on it, its title, and whether it shows. *)
Record Axes := {
  heatmap : option (list (list Z));
  title : option string;
  visible : bool
}.

(** [a[:, i]] on an array with [shape1 a] columns. *)
Definition column_checked {A : Type} (d : A) (a : ndarray A) (i : nat)
  : except (list A) :=
  if (i <? shape1 a)%nat then Return (column d a i) else Raise IndexError.

Section Plot.

(** [sklearn.metrics.confusion_matrix]. *)
Variable confusion_matrix : list Q -> list Z -> except (list (list Z)).

(** The first loop: one matrix per class, for the first four classes. *)
Fixpoint draw_classes (y_true : ndarray Q) (y_pred_binary : ndarray Z)
         (class_names : list string) (indices : list nat) (axes : list Axes)
  : except (list Axes) :=
  match indices with
  | [] => Return axes
  | i :: indices' =>
      t ← column_checked 0%Q y_true i;
      p ← column_checked 0 y_pred_binary i;
      cm ← confusion_matrix t p;
      name ← match class_names !! i with
             | Some c => Return c
             | None => Raise IndexError
             end;
      draw_classes y_true y_pred_binary class_names indices'
                   (<[i := {| heatmap := Some cm;
                              title := Some (String.append "Confusion Matrix - " name);
                              visible := true |}]> axes)
  end.

(** [axes[i].set_visible(False)] for the indices of the second loop. *)
Definition hide (indices : list nat) (axes : list Axes) : list Axes :=
  fold_left (fun axes i =>
               match axes !! i with
               | Some a => <[i := {| heatmap := heatmap a;
                                     title := title a;
                                     visible := false |}]> axes
               | None => axes
               end)
            indices axes.

(** The figure that is saved: [plt.subplots(2, 2)] gives four subplots. *)
Definition plot_confusion_matrix (y_true y_pred : ndarray Q) (class_names : list string)
  : except (list Axes) :=
  let y_pred_binary := array_map binarize y_pred in
  let n_classes := length class_names in
  let axes := replicate 4 {| heatmap := None; title := None; visible := true |} in
  axes ← draw_classes y_true y_pred_binary class_names
                      (seq 0 (Nat.min 4 n_classes)) axes;
  Return (hide (seq 4 (length axes - 4)) axes).

End Plot.

End Utils.

(** ** [research/train_classifier.py] *)

Module Train.
Import Dataset Metrics.

(** What a function of the driver raises: what its callees raise, or a
    division by zero. *)
Inductive error :=
| PyError (e : exn)
| ZeroDivisionError.

Inductive outcome (A : Type) :=
| Done (a : A)
| Failed (e : error).
Arguments Done {A} a.
Arguments Failed {A} e.

Definition lift {A : Type} (m : except A) : outcome A :=
  match m with
  | Return a => Done a
  | Raise e => Failed (PyError e)
  end.

Definition and_then {A B : Type} (m : outcome A) (k : A -> outcome B) : outcome B :=
  match m with
  | Done a => k a
  | Failed e => Failed e
  end.

(** [np.vstack]: an empty sequence and arrays of different widths are a
    [ValueError]. *)
Definition np_vstack {A : Type} (arrays : list (ndarray A)) : except (ndarray A) :=
  match arrays with
  | [] => Raise ValueError
  | a :: rest =>
      if forallb (fun b => (shape1 b =? shape1 a)%nat) rest
      then Return {| shape1 := shape1 a; tolist := concat (map tolist arrays) |}
      else Raise ValueError
  end.

(** The metrics dict of an epoch: what [calculate_metrics] returned and the
    key [loss] set afterwards. *)
Record EpochMetrics := {
  report : MetricsReport;
  loss : Q
}.

(** [(torch.sigmoid(outputs) > 0.5).float()], given the probabilities. *)
Definition predictions_of (probabilities : ndarray Q) : ndarray Q :=
  array_map (fun p => inject_Z (binarize p)) probabilities.

Section Epochs.

Context {Images Parameters : Type}.

Variable precision_recall_fscore_support :
  ndarray Q -> ndarray Z -> average -> except (npfloat * npfloat * npfloat).
Variable accuracy_score : ndarray Q -> ndarray Z -> except npfloat.
Variable roc_auc_score : list Q -> list Q -> except npfloat.

(** [Parameters] is the state a batch is run in: the weights, the state of
    the optimizer and that of the random generator.  The three functions
    are [torch.sigmoid(model(images))] in the mode the epoch has set,
    [criterion(outputs, targets).item()], and the state after
    [loss.backward(); optimizer.step()]. *)
Variable probabilities : Parameters -> Images -> ndarray Q.
Variable criterion : Parameters -> Images -> ndarray Q -> Q.
Variable optimizer_step : Parameters -> Images -> ndarray Q -> Parameters.

(** After the loop over the batches: stack, score, average the loss. *)
Definition epoch_metrics (n_batches : nat) (total_loss : Q)
           (all_predictions all_targets : list (ndarray Q)) : outcome EpochMetrics :=
  and_then (lift (np_vstack all_predictions)) (fun all_predictions =>
  and_then (lift (np_vstack all_targets)) (fun all_targets =>
  and_then (lift (calculate_metrics precision_recall_fscore_support accuracy_score
                                    roc_auc_score all_targets all_predictions))
           (fun metrics =>
  match n_batches with
  | O => Failed ZeroDivisionError
  | S _ => Done {| report := metrics;
                   loss := (total_loss / inject_Z (Z.of_nat n_batches))%Q |}
  end))).

Fixpoint validate_batches (theta : Parameters) (loader : list (Images * ndarray Q))
         (total_loss : Q) (all_predictions all_targets : list (ndarray Q))
  : Q * list (ndarray Q) * list (ndarray Q) :=
  match loader with
  | [] => (total_loss, all_predictions, all_targets)
  | (images, targets) :: loader' =>
      validate_batches theta loader'
        (total_loss + criterion theta images targets)%Q
        (all_predictions ++ [predictions_of (probabilities theta images)])
        (all_targets ++ [targets])
  end.

Definition validate_epoch (theta : Parameters) (val_loader : list (Images * ndarray Q))
  : outcome EpochMetrics :=
  let '(total_loss, all_predictions, all_targets) :=
    validate_batches theta val_loader 0%Q [] [] in
  epoch_metrics (length val_loader) total_loss all_predictions all_targets.

Fixpoint train_batches (theta : Parameters) (loader : list (Images * ndarray Q))
         (total_loss : Q) (all_predictions all_targets : list (ndarray Q))
  : Parameters * Q * list (ndarray Q) * list (ndarray Q) :=
  match loader with
  | [] => (theta, total_loss, all_predictions, all_targets)
  | (images, targets) :: loader' =>
      train_batches (optimizer_step theta images targets) loader'
        (total_loss + criterion theta images targets)%Q
        (all_predictions ++ [predictions_of (probabilities theta images)])
        (all_targets ++ [targets])
  end.

Definition train_epoch (theta : Parameters) (train_loader : list (Images * ndarray Q))
  : outcome (Parameters * EpochMetrics) :=
  let '(theta', total_loss, all_predictions, all_targets) :=
    train_batches theta train_loader 0%Q [] [] in
  and_then (epoch_metrics (length train_loader) total_loss all_predictions all_targets)
           (fun metrics => Done (theta', metrics)).

(** The parameters each batch of [train_loader] is run with: those left by
    the optimizer steps on the batches before it. *)
Fixpoint parameters_at (theta : Parameters) (loader : list (Images * ndarray Q))
  : list Parameters :=
  match loader with
  | [] => []
  | (images, targets) :: loader' =>
      theta :: parameters_at (optimizer_step theta images targets) loader'
  end.

(** The parameters after the steps on all batches. *)
Definition parameters_after (theta : Parameters) (loader : list (Images * ndarray Q))
  : Parameters :=
  fold_left (fun theta b => optimizer_step theta (fst b) (snd b)) loader theta.

End Epochs.

(** *** The epoch loop of [main] *)

(** [a > b] on floats: false when either is [nan]. *)
Definition float_gt (a b : npfloat) : bool :=
  match a, b with
  | fin x, fin y => negb (Qle_bool x y)
  | _, _ => false
  end.

(** The four keys of a history dict. *)
Record History := {
  h_loss : list npfloat;
  h_f1 : list npfloat;
  h_precision : list npfloat;
  h_recall : list npfloat
}.

Definition history_append (h : History) (m : EpochMetrics) : History :=
  {| h_loss := h_loss h ++ [fin (loss m)];
     h_f1 := h_f1 h ++ [f1 (report m)];
     h_precision := h_precision h ++ [precision (report m)];
     h_recall := h_recall h ++ [recall (report m)] |}.

(** The files the loop writes under the output directory. *)
Inductive checkpoint_file :=
| best_model
| checkpoint_epoch (n : Z).

(** One call of [save_model_checkpoint]: the file, the epoch and the metrics
    stored in it. *)
Record Saved := {
  saved_file : checkpoint_file;
  saved_epoch : Z;
  saved_metrics : EpochMetrics
}.

Record LoopState := {
  best_val_f1 : npfloat;
  train_history : History;
  val_history : History;
  saves : list Saved
}.

Definition initial_state : LoopState :=
  {| best_val_f1 := fin 0;
     train_history := {| h_loss := []; h_f1 := []; h_precision := []; h_recall := [] |};
     val_history := {| h_loss := []; h_f1 := []; h_precision := []; h_recall := [] |};
     saves := [] |}.

(** The body of the loop after the two epoch functions have returned. *)
Definition epoch_body (save_interval : Z) (st : LoopState) (epoch : Z)
           (train_metrics val_metrics : EpochMetrics) : outcome LoopState :=
  let train_history := history_append (train_history st) train_metrics in
  let val_history := history_append (val_history st) val_metrics in
  let '(best, saves1) :=
    if float_gt (f1 (report val_metrics)) (best_val_f1 st)
    then (f1 (report val_metrics),
          saves st ++ [{| saved_file := best_model;
                          saved_epoch := epoch;
                          saved_metrics := val_metrics |}])
    else (best_val_f1 st, saves st) in
  if save_interval =? 0 then Failed ZeroDivisionError
  else
    let saves2 :=
      if (epoch + 1) mod save_interval =? 0
      then saves1 ++ [{| saved_file := checkpoint_epoch (epoch + 1);
                         saved_epoch := epoch;
                         saved_metrics := val_metrics |}]
      else saves1 in
    Done {| best_val_f1 := best;
            train_history := train_history;
            val_history := val_history;
            saves := saves2 |}.

Definition checkpoint_file_eqb (f g : checkpoint_file) : bool :=
  match f, g with
  | best_model, best_model => true
  | checkpoint_epoch n, checkpoint_epoch m => n =? m
  | _, _ => false
  end.

(** What a file holds after the calls of [save_model_checkpoint]: what the
    last call that names it stored, nothing when no call names it. *)
Definition written (f : checkpoint_file) (saves : list Saved) : option Saved :=
  fold_left (fun content s =>
               if checkpoint_file_eqb (saved_file s) f then Some s else content)
            saves None.

(** The loop over [range(epochs)], given what the epochs return. *)
Fixpoint training_loop (save_interval : Z) (st : LoopState) (epoch : Z)
         (results : list (EpochMetrics * EpochMetrics)) : outcome LoopState :=
  match results with
  | [] => Done st
  | (train_metrics, val_metrics) :: results' =>
      and_then (epoch_body save_interval st epoch train_metrics val_metrics)
               (fun st' => training_loop save_interval st' (epoch + 1) results')
  end.

(** The columns of a history after the given epochs. *)
Definition history_of (ms : list EpochMetrics) : History :=
  {| h_loss := map (fun m => fin (loss m)) ms;
     h_f1 := map (fun m => f1 (report m)) ms;
     h_precision := map (fun m => precision (report m)) ms;
     h_recall := map (fun m => recall (report m)) ms |}.

(** Invariants of the loop after the epochs [done], for the proofs.  The
    first: [best_val_f1] is a number [b >= 0] that bounds every validation
    F1 so far, and [best_model.pth] holds the first epoch that reached it,
    or does not exist while [b] is 0. *)
Definition best_tracked (done : list (EpochMetrics * EpochMetrics)) (st : LoopState)
  : Prop :=
  exists b : Q,
    best_val_f1 st = fin b
    /\ (0 <= b)%Q
    /\ (forall (i : nat) (tr v : EpochMetrics) (q : Q),
           done !! i = Some (tr, v) -> f1 (report v) = fin q -> (q <= b)%Q)
    /\ match written best_model (saves st) with
       | None => b = 0%Q
       | Some s =>
           exists (e : nat) (tr : EpochMetrics),
             saved_epoch s = Z.of_nat e
             /\ done !! e = Some (tr, saved_metrics s)
             /\ f1 (report (saved_metrics s)) = fin b
             /\ (0 < b)%Q
             /\ forall (j : nat) (tr' v : EpochMetrics) (q : Q),
                 (j < e)%nat -> done !! j = Some (tr', v) ->
                 f1 (report v) = fin q -> (q < b)%Q
       end.

(** The second: the histories hold one entry per epoch, and
    [checkpoint_epoch_n.pth] exists exactly for the multiples [n] of
    [save_interval] among 1, ..., [len(done)], holding epoch [n - 1]. *)
Definition periodic_saved (save_interval : Z)
           (done : list (EpochMetrics * EpochMetrics)) (st : LoopState) : Prop :=
  train_history st = history_of (map fst done)
  /\ val_history st = history_of (map snd done)
  /\ forall n : Z,
      match written (checkpoint_epoch n) (saves st) with
      | None => ~ (1 <= n <= Z.of_nat (length done) /\ n mod save_interval = 0)
      | Some s =>
          1 <= n <= Z.of_nat (length done) /\ n mod save_interval = 0
          /\ saved_epoch s = n - 1
          /\ exists tr : EpochMetrics,
              done !! Z.to_nat (n - 1) = Some (tr, saved_metrics s)
      end.

End Train.

(** ** [research/model.py] *)

Module Model.

(** The layers the heads are built from, by the widths they map. *)
Inductive layer :=
| Dropout (p : Q)
| Linear (in_features out_features : nat)
| ReLU
| Sigmoid.

(** The width a layer gives on rows of width [w]; a linear layer refuses
    any width but its own. *)
Definition layer_forward (l : layer) (w : nat) : except nat :=
  match l with
  | Linear i o => if (w =? i)%nat then Return o else Raise RuntimeError
  | _ => Return w
  end.

(** [nn.Sequential]. *)
Fixpoint sequential (ls : list layer) (w : nat) : except nat :=
  match ls with
  | [] => Return w
  | l :: ls' => w' ← layer_forward l w; sequential ls' w'
  end.

(** [nn.Dropout(p)]: a probability outside [0, 1] is a [ValueError]. *)
Definition nn_Dropout (p : Q) : except layer :=
  if Qle_bool 0 p && Qle_bool p 1 then Return (Dropout p) else Raise ValueError.

(** The classification head of the first two classifiers. *)
Definition head (dropout_rate : Q) (feature_dim num_classes : nat)
  : except (list layer) :=
  dropout1 ← nn_Dropout dropout_rate;
  dropout2 ← nn_Dropout dropout_rate;
  dropout3 ← nn_Dropout dropout_rate;
  Return [dropout1; Linear feature_dim 512; ReLU;
          dropout2; Linear 512 256; ReLU;
          dropout3; Linear 256 num_classes].

(** A model, by what its [forward] uses: the width of the features of each
    backbone (its classifier replaced by the identity) and the layers after
    it. *)
Inductive model :=
| PlantDiseaseClassifier (num_classes : nat) (model_name : string)
                         (feature_dim : nat) (classifier : list layer)
| PlantDiseaseClassifierWithAttention (num_classes : nat) (feature_dim : nat)
                                      (attention classifier : list layer)
| MultiScalePlantClassifier (num_classes : nat) (scales : list nat)
                            (backbones : list nat)
                            (feature_fusion : list layer) (classifier : layer).

Definition PlantDiseaseClassifier_init (num_classes : nat) (model_name : string)
           (dropout_rate : Q) : except model :=
  feature_dim ←
    (if String.eqb model_name "efficientnet_b0" then Return 1280%nat
     else if String.eqb model_name "efficientnet_b1" then Return 1280%nat
     else if String.eqb model_name "efficientnet_b2" then Return 1408%nat
     else Raise ValueError);
  classifier ← head dropout_rate feature_dim num_classes;
  Return (PlantDiseaseClassifier num_classes model_name feature_dim classifier).

Definition PlantDiseaseClassifierWithAttention_init (num_classes : nat)
           (model_name : string) (dropout_rate : Q) : except model :=
  feature_dim ←
    (if String.eqb model_name "efficientnet_b0" then Return 1280%nat
     else Raise ValueError);
  let attention := [Linear feature_dim (feature_dim / 4); ReLU;
                    Linear (feature_dim / 4) feature_dim; Sigmoid] in
  classifier ← head dropout_rate feature_dim num_classes;
  Return (PlantDiseaseClassifierWithAttention
            num_classes feature_dim attention classifier).

(** The loop over [scales]: the backbones built so far, and [feature_dim],
    which is bound only once the body has run. *)
Fixpoint multiscale_backbones (model_name : string) (scales : list nat)
         (backbones : list nat) (feature_dim : option nat)
  : except (list nat * option nat) :=
  match scales with
  | [] => Return (backbones, feature_dim)
  | _ :: scales' =>
      if String.eqb model_name "efficientnet_b0"
      then multiscale_backbones model_name scales' (backbones ++ [1280%nat])
                                (Some 1280%nat)
      else Raise ValueError
  end.

Definition MultiScalePlantClassifier_init (num_classes : nat) (model_name : string)
           (scales : list nat) : except model :=
  '(backbones, feature_dim) ← multiscale_backbones model_name scales [] None;
  feature_dim ← match feature_dim with
                | Some d => Return d
                | None => Raise NameError
                end;
  dropout1 ← nn_Dropout 0.3;
  dropout2 ← nn_Dropout 0.3;
  Return (MultiScalePlantClassifier
            num_classes scales backbones
            [Linear (feature_dim * length scales) 1024; ReLU; dropout1;
             Linear 1024 512; ReLU; dropout2]
            (Linear 512 num_classes)).

(** The width of the logits [forward] returns for a batch of images. *)
Definition forward (m : model) : except nat :=
  match m with
  | PlantDiseaseClassifier _ _ feature_dim classifier =>
      sequential classifier feature_dim
  | PlantDiseaseClassifierWithAttention _ feature_dim attention classifier =>
      attention_weights ← sequential attention feature_dim;
      if (attention_weights =? feature_dim)%nat
      then sequential classifier feature_dim
      else Raise RuntimeError
  | MultiScalePlantClassifier _ scales backbones feature_fusion classifier =>
      let fused := fold_left Nat.add backbones 0%nat in
      fused ← sequential feature_fusion fused;
      layer_forward classifier fused
  end.

(** The keys [create_model] reads from the configuration, absent or
    present. *)
Record ModelConfig := {
  cfg_type : option string;
  cfg_num_classes : option nat;
  cfg_backbone : option string;
  cfg_dropout_rate : option Q;
  cfg_scales : option (list nat)
}.

Definition create_model (config : ModelConfig) : except model :=
  let model_type := default "efficientnet" (cfg_type config) in
  num_classes ← match cfg_num_classes config with
                | Some n => Return n
                | None => Raise KeyError
                end;
  let model_name := default "efficientnet_b0" (cfg_backbone config) in
  if String.eqb model_type "efficientnet" then
    PlantDiseaseClassifier_init num_classes model_name
                                (default 0.3%Q (cfg_dropout_rate config))
  else if String.eqb model_type "efficientnet_attention" then
    PlantDiseaseClassifierWithAttention_init num_classes model_name
                                             (default 0.3%Q (cfg_dropout_rate config))
  else if String.eqb model_type "multiscale" then
    MultiScalePlantClassifier_init num_classes model_name
                                   (default [224; 256; 288]%nat (cfg_scales config))
  else Raise ValueError.


End Model.

(** ** The set-up of [main] in [train_classifier.py] *)

Module Main.
Import Dataset.

Section Setup.

Variable key : hash_secret.
Variable read_csv : node -> except DataFrame.
Variable json_load : node -> except ClassInfo.

(** [create_data_loaders], as far as it builds the three data sets. *)
Definition create_datasets (root : list (string * node))
  : except (PlantDiseaseDataset * PlantDiseaseDataset * PlantDiseaseDataset) :=
  train_dataset ← __init__ key read_csv json_load root "train";
  val_dataset ← __init__ key read_csv json_load root "val";
  test_dataset ← __init__ key read_csv json_load root "test";
  Return (train_dataset, val_dataset, test_dataset).

(** [with open(os.path.join(args.data_dir, 'class_info.json'), 'r') as f:
    class_info = json.load(f)]. *)
Definition open_class_info (root : list (string * node)) : except ClassInfo :=
  match find_in root "class_info.json" with
  | Some f => json_load f
  | None => Raise OSError
  end.

(** What [main] holds when the training loop starts. *)
Record Setup := {
  train_dataset : PlantDiseaseDataset;
  val_dataset : PlantDiseaseDataset;
  test_dataset : PlantDiseaseDataset;
  class_names : list string;
  model : Model.model
}.

(** [main] from the data loaders to the model, for a configuration that
    holds the keys it reads; [model_name] is [config['model_name']]. *)
Definition setup (root : list (string * node)) (model_name : string) : except Setup :=
  '(train_dataset, val_dataset, test_dataset) ← create_datasets root;
  class_info ← open_class_info root;
  let num_classes := length (classes class_info) in
  let class_names := classes class_info in
  model ← Model.PlantDiseaseClassifier_init num_classes model_name 0.3%Q;
  Return {| train_dataset := train_dataset;
            val_dataset := val_dataset;
            test_dataset := test_dataset;
            class_names := class_names;
            model := model |}.

End Setup.

End Main.

(** ** [IP102Dataset] *)

Module IP102.
Import Dataset.

(** One value of [annotations.json], by the keys the loader reads. *)
Record Annotation := {
  ann_image_path : option string;
  ann_class_name : option string;
  ann_split : option string;
  ann_bbox : option (list Z)
}.

(** [ann[k]]. *)
Definition getitem (v : option string) : except string :=
  match v with
  | Some x => Return x
  | None => Raise KeyError
  end.

(** The loop over [annotations.items()]; the [bbox] is read with [get] and
    no later code looks at it. *)
Fixpoint rows_of_annotations (annotations : list (string * Annotation))
  : except (list SampleRecord) :=
  match annotations with
  | [] => Return []
  | (img_id, ann) :: annotations' =>
      image_path ← getitem (ann_image_path ann);
      class_name ← getitem (ann_class_name ann);
      split ← getitem (ann_split ann);
      data ← rows_of_annotations annotations';
      Return ({| image_path := image_path;
                 class_name := class_name;
                 split := split |} :: data)
  end.

(** [pd.DataFrame(data)] for the dicts of this loader. *)
Definition DataFrame_of (data : list SampleRecord) : DataFrame :=
  {| columns := match data with
                | [] => []
                | _ => ["image_path"; "class_name"; "split"; "bbox"]
                end;
     rows := data |}.

Section Loader.

Variable key : hash_secret.
Variable read_csv : node -> except DataFrame.
Variable json_load : node -> except ClassInfo.

(** [json.load] on [annotations.json]: the items of the dict, in order. *)
Variable load_annotations : node -> except (list (string * Annotation)).

Definition _load_metadata (root : list (string * node)) : except DataFrame :=
  match find_in root "annotations.json" with
  | Some f =>
      annotations ← load_annotations f;
      data ← rows_of_annotations annotations;
      Return (DataFrame_of data)
  | None => Dataset._load_metadata key read_csv root
  end.

(** The inherited [__init__], with the loader above. *)
Definition __init__ (root : list (string * node)) (split_ : string)
  : except PlantDiseaseDataset :=
  metadata ← _load_metadata root;
  class_info ← _load_class_info json_load root metadata;
  data ← _filter_split_data metadata split_;
  Return {| data_dir := root; self_split := split_; metadata := metadata;
            class_info := class_info; data := data |}.

End Loader.

(** An annotation that holds the three keys the loader indexes. *)
Definition complete (ann : Annotation) : Prop :=
  is_Some (ann_image_path ann) /\ is_Some (ann_class_name ann)
  /\ is_Some (ann_split ann).

End IP102.

(** ** Sample data sets and batches *)

Module Examples.
Import Dataset Metrics.

(** A class directory holding a JPEG and a PNG image, and a hidden
    directory. *)
Definition mixed_root : list (string * node) :=
  [("Tomato", Dir [("a.jpg", File true); ("leaf.png", File true)]);
   (".cache", Dir [("x.jpg", File true)])].

(** A data set of one image. *)
Definition one_image_root : list (string * node) :=
  [("Tomato_healthy", Dir [("a.jpg", File true)])].

Definition no_file {A : Type} (n : node) : except A := Raise OSError.

Definition blank_image (path : string) : except image := Return [[(0, 0, 0)]].

Definition one_sample : SampleRecord :=
  {| image_path := "Tomato_healthy/a.jpg";
     class_name := "Tomato_healthy";
     split := "train" |}.

(** The data set [__init__] builds over [one_image_root] for the split
    [train], in an interpreter started with [PYTHONHASHSEED=0]. *)
Definition one_sample_dataset : PlantDiseaseDataset :=
  {| data_dir := one_image_root;
     self_split := "train";
     metadata := DataFrame_of [one_sample];
     class_info := {| classes := ["Tomato_healthy"];
                      class_to_idx := dict_of_enumerate ["Tomato_healthy"];
                      num_classes := 1;
                      disease_categories := None |};
     data := DataFrame_of [one_sample] |}.

(** A metadata table over two classes. *)
Definition two_rows : DataFrame :=
  DataFrame_of
    [ {| image_path := "Tomato_healthy/a.jpg"; class_name := "Tomato_healthy"; split := "train" |};
      {| image_path := "Apple_rust/b.jpg"; class_name := "Apple_rust"; split := "val" |} ].

Definition y_true_2x2 : ndarray Q :=
  {| shape1 := 2; tolist := [[1; 0]; [0; 1]]%Q |}.

(** Scores that binarize to [[0,0],[0,1]]. *)
Definition y_pred_2x2 : ndarray Q :=
  {| shape1 := 2; tolist := [[0.2; 0.1]; [0.3; 0.9]]%Q |}.

(** The same ranking, with a score of exactly 0.5 for the first label. *)
Definition y_pred_half : ndarray Q :=
  {| shape1 := 2; tolist := [[0.5; 0.1]; [0.3; 0.9]]%Q |}.



End Examples.

(** ** More sample data *)

Module MoreExamples.
Import Dataset Metrics.

(** A ground truth whose second class carries the labels 0, 1 and 2. *)
Definition y_true_three_valued : ndarray Q :=
  {| shape1 := 2; tolist := [[1; 0]; [0; 1]; [1; 2]]%Q |}.

Definition y_pred_three_rows : ndarray Q :=
  {| shape1 := 2; tolist := [[0.9; 0.1]; [0.2; 0.8]; [0.7; 0.6]]%Q |}.

(** A world without files: a model, an optimizer and a scheduler with the
    states 11, 22 and 33. *)
Definition checkpoint_world : Utils.World nat nat :=
  {| Utils.files := ∅;
     Utils.model_state := 11%nat;
     Utils.optimizer_state := 22%nat;
     Utils.scheduler_state := 33%nat |}.

(** The counts [confusion_matrix] returns for two columns that hold the
    labels 0 and 1: rows by the true label, columns by the predicted one. *)
Definition counts_2x2 (t : list Q) (p : list Z) : except (list (list Z)) :=
  let n (a b : Z) :=
    Z.of_nat (count_true (zip_with (fun x y => label_eq x a && (y =? b)) t p)) in
  Return [[n 0 0; n 0 1]; [n 1 0; n 1 1]].

(** The metrics of an epoch with the given F1 and loss. *)
Definition epoch_with_f1 (f l : Q) : Train.EpochMetrics :=
  {| Train.report := {| precision := fin f; recall := fin f; f1 := fin f;
                        precision_micro := fin f; recall_micro := fin f;
                        f1_micro := fin f; accuracy := fin f;
                        subset_accuracy := fin f; hamming_loss := fin (1 - f);
                        auc := fin 0 |};
     Train.loss := l |}.

(** Three epochs, by their training and validation metrics: the validation
    F1 is 0.5, 0.5 and 0.3. *)
Definition three_epochs : list (Train.EpochMetrics * Train.EpochMetrics) :=
  [(epoch_with_f1 0.2 0.9, epoch_with_f1 0.5 0.8);
   (epoch_with_f1 0.4 0.7, epoch_with_f1 0.5 0.6);
   (epoch_with_f1 0.6 0.5, epoch_with_f1 0.3 0.7)]%Q.

(** A data set of one image that ships its registry, and the reader of
    that registry. *)
Definition registry_root : list (string * node) :=
  [("Tomato_healthy", Dir [("a.jpg", File true)]);
   ("class_info.json", File false)].

Definition read_registry (f : node) : except ClassInfo :=
  Return (Utils.create_class_info_json ["Tomato_healthy"]).

(** An IP102 directory, and its two annotations; the second has no
    [bbox]. *)
Definition ip102_root : list (string * node) :=
  [("annotations.json", File false); ("images", Dir [("1.jpg", File true)])].

Definition ip102_annotations (f : node) : except (list (string * IP102.Annotation)) :=
  Return [("1", {| IP102.ann_image_path := Some "images/1.jpg";
                   IP102.ann_class_name := Some "aphid";
                   IP102.ann_split := Some "train";
                   IP102.ann_bbox := Some [1; 2; 3; 4] |});
          ("2", {| IP102.ann_image_path := Some "images/2.jpg";
                   IP102.ann_class_name := Some "mite";
                   IP102.ann_split := Some "val";
                   IP102.ann_bbox := None |})].


End MoreExamples.

Import Dataset Metrics Examples MoreExamples.

(** * Properties of the dataset pipeline *)

Section SplitAssignment.

Variable key : hash_secret.

Lemma bucket_range (img_file : Path) :
  0 <= hash key (name img_file) mod 100 < 100.
Proof. apply Z.mod_pos_bound. lia. Qed.

Lemma assign_split_cases (img_file : Path) :
  let r := hash key (name img_file) mod 100 in
  (r < 70 /\ _assign_split key img_file = "train")
  \/ (70 <= r < 85 /\ _assign_split key img_file = "val")
  \/ (85 <= r /\ _assign_split key img_file = "test").
Proof.
  unfold _assign_split. cbv zeta.
  destruct (Z.ltb_spec (hash key (name img_file) mod 100) 70) as [H70 | H70].
  - left. split; [lia | reflexivity].
  - destruct (Z.ltb_spec (hash key (name img_file) mod 100) 85) as [H85 | H85].
    + right. left. split; [lia | reflexivity].
    + right. right. split; [lia | reflexivity].
Qed.

Lemma assign_split_name (p q : Path) :
  name p = name q -> _assign_split key p = _assign_split key q.
Proof. unfold _assign_split. intros ->. reflexivity. Qed.

(** Every row the synthesis path builds belongs to a class directory [d]
    and an entry [f] of it, and carries the split of the name [f]. *)
Lemma synthesized_row (root : list (string * node)) (rec : SampleRecord) :
  In rec (rows (_create_metadata_from_structure key root)) ->
  exists d f,
    image_path rec = str_path [d; f] /\ class_name rec = d
    /\ split rec = _assign_split key [d; f].
Proof.
  unfold _create_metadata_from_structure, DataFrame_of. cbn [rows].
  rewrite in_flat_map. intros [[d n] [_ Hin]]. cbn [fst snd] in Hin.
  destruct (is_dir n && negb (startswith "." d)); [| destruct Hin].
  apply in_map_iff in Hin as [f [<- _]].
  exists d, f. cbn [image_path class_name split]. auto.
Qed.

End SplitAssignment.

(** C5. The split of an image file is decided by [hash(name) % 100]: the
    residue [r] lies in [0, 100) and the split is [train] exactly when [r] is
    in [0, 70), [val] exactly when it is in [70, 85), [test] exactly when it
    is in [85, 100).  So every split is one of these three values, two paths
    with one file name get one split, and every row of the synthesized
    metadata carries the split of its file name.  The key of the running
    interpreter, which [hash] reads, is fixed throughout. *)
Theorem assign_split_by_bucket (key : hash_secret) (img_file : Path) :
  let r := hash key (name img_file) mod 100 in
  0 <= r < 100
  /\ (_assign_split key img_file = "train" <-> 0 <= r < 70)
  /\ (_assign_split key img_file = "val" <-> 70 <= r < 85)
  /\ (_assign_split key img_file = "test" <-> 85 <= r < 100)
  /\ In (_assign_split key img_file) ["train"; "val"; "test"]
  /\ (forall other : Path,
         name other = name img_file ->
         _assign_split key other = _assign_split key img_file)
  /\ (forall (root : list (string * node)) (rec : SampleRecord),
         In rec (rows (_create_metadata_from_structure key root)) ->
         In (split rec) ["train"; "val"; "test"]
         /\ exists d f,
              image_path rec = str_path [d; f]
              /\ split rec = _assign_split key [f]).
Proof.
  cbv zeta.
  pose proof (bucket_range key img_file) as Hr.
  pose proof (assign_split_cases key img_file) as Hc. cbv zeta in Hc.
  split; [lia |].
  split; [| split; [| split]].
  1-3: destruct Hc as [[? E] | [[? E] | [? E]]]; rewrite E;
    (split; intros HE; first [reflexivity | congruence | lia]).
  split.
  { destruct Hc as [[_ E] | [[_ E] | [_ E]]]; rewrite E; cbn; auto. }
  split.
  { intros other Hn. apply assign_split_name. exact Hn. }
  intros root rec Hrec.
  destruct (synthesized_row key root rec Hrec) as (d & f & Hp & _ & Hs).
  split.
  - rewrite Hs.
    destruct (assign_split_cases key [d; f]) as [[_ E] | [[_ E] | [_ E]]];
      rewrite E; cbn; auto.
  - exists d, f. split; [exact Hp |].
    rewrite Hs. apply assign_split_name. reflexivity.
Qed.

Lemma assign_split_by_bucket_witness :
  _assign_split (secret_of_seed 0) ["Tomato"; "a.jpg"] = "train"
  /\ In (split {| image_path := "Tomato/a.jpg"; class_name := "Tomato"; split := "train" |})
        ["train"; "val"; "test"].
Proof.
  pose proof (assign_split_by_bucket (secret_of_seed 0) ["Tomato"; "a.jpg"]) as H.
  cbv zeta in H.
  destruct H as (_ & Htrain & _ & _ & _ & _ & Hrows).
  split.
  - apply Htrain.
    split; [apply Z.leb_le | apply Z.ltb_lt]; vm_compute; reflexivity.
  - apply (Hrows [("Tomato", Dir [("a.jpg", File true)])]).
    vm_compute. left. reflexivity.
Defined.

(** C2 (the code departs from it).  [hash] of a [str] is keyed by the
    interpreter process, so two runs that share no state (two keys) need not
    agree: under the keys of [PYTHONHASHSEED] 0, 1 and 2 the file name
    [a.jpg] falls into [train], [val] and [test]. *)
Theorem assign_split_differs_between_runs :
  _assign_split (secret_of_seed 0) ["Tomato"; "a.jpg"] = "train"
  /\ _assign_split (secret_of_seed 1) ["Tomato"; "a.jpg"] = "val"
  /\ _assign_split (secret_of_seed 2) ["Tomato"; "a.jpg"] = "test"
  /\ ~ (forall (run1 run2 : hash_secret) (names : list string) (n : string),
           In n names -> _assign_split run1 [n] = _assign_split run2 [n]).
Proof.
  split; [vm_compute; reflexivity |].
  split; [vm_compute; reflexivity |].
  split; [vm_compute; reflexivity |].
  intros H.
  specialize (H (secret_of_seed 0) (secret_of_seed 1) ["a.jpg"] "a.jpg" (or_introl eq_refl)).
  vm_compute in H. discriminate H.
Qed.

(** ** Keyword categories *)

Section Strings.

Lemma append_cons (c : ascii) (a b : string) :
  String.append (String c a) b = String c (String.append a b).
Proof. reflexivity. Qed.

Lemma startswith_prefix (p s : string) :
  startswith p s = true <-> exists t, s = String.append p t.
Proof.
  revert s. induction p as [| a p IH]; intros s; cbn [startswith].
  - split; [intros _; exists s; reflexivity | reflexivity].
  - destruct s as [| b s].
    + split; [discriminate | intros [t Ht]; rewrite append_cons in Ht; discriminate Ht].
    + destruct (Ascii.eqb_spec a b) as [-> | Hab].
      * rewrite IH. split; intros [t Ht]; exists t.
        -- rewrite append_cons, Ht. reflexivity.
        -- rewrite append_cons in Ht. congruence.
      * split; [discriminate | intros [t Ht]; rewrite append_cons in Ht; congruence].
Qed.

Lemma contains_infix (sub s : string) :
  contains sub s = true
  <-> exists pre post, s = String.append pre (String.append sub post).
Proof.
  induction s as [| c s IH].
  - cbn [contains]. rewrite orb_false_r, startswith_prefix. split.
    + intros [t Ht]. exists "", t. exact Ht.
    + intros (pre & post & H). destruct pre; [| rewrite append_cons in H; discriminate H].
      exists post. exact H.
  - cbn [contains]. rewrite orb_true_iff, startswith_prefix, IH. split.
    + intros [[t Ht] | (pre & post & H)].
      * exists "", t. exact Ht.
      * exists (String c pre), post. rewrite append_cons, H. reflexivity.
    + intros (pre & post & H). destruct pre as [| a pre].
      * left. exists post. exact H.
      * right. rewrite append_cons in H. injection H as _ H. exists pre, post. exact H.
Qed.

Lemma lower_append (a b : string) :
  lower (String.append a b) = String.append (lower a) (lower b).
Proof.
  induction a as [| c a IH]; [reflexivity |].
  rewrite !append_cons. cbn [lower]. rewrite append_cons, IH. reflexivity.
Qed.

(** A substring stays one when both strings are lowered. *)
Lemma contains_lower (sub s : string) :
  contains sub s = true -> contains (lower sub) (lower s) = true.
Proof.
  rewrite !contains_infix. intros (pre & post & ->).
  exists (lower pre), (lower post). rewrite !lower_append. reflexivity.
Qed.

End Strings.

Section Categories.

Lemma category_of_name (cls : string) : In (category_of cls) category_names.
Proof.
  unfold category_of, category_names. cbv zeta.
  repeat match goal with
         | |- context [if ?b then _ else _] => destruct b
         end; cbn; auto 6.
Qed.

Lemma empty_categories_lookup (k : string) :
  In k category_names -> empty_categories !! k = Some [].
Proof.
  unfold category_names. cbn [In].
  intros [<- | [<- | [<- | [<- | [<- | []]]]]]; vm_compute; reflexivity.
Qed.

Lemma categorize_fold (classes : list string) (m : gmap string (list string)) (k : string) :
  fold_left (fun categories cls => append_to categories (category_of cls) cls) classes m !! k
  = (fun l => l ++ filter (fun c => category_of c = k) classes) <$> m !! k.
Proof.
  revert m. induction classes as [| c classes IH]; intros m; cbn [fold_left].
  - rewrite filter_nil. destruct (m !! k); cbn; [rewrite app_nil_r |]; reflexivity.
  - rewrite IH. unfold append_to. rewrite lookup_alter.
    destruct (decide (category_of c = k)) as [E | E].
    + rewrite filter_cons_True by exact E. rewrite E.
      destruct (m !! k) as [l |]; cbn; [rewrite <- app_assoc |]; reflexivity.
    + rewrite filter_cons_False by exact E. reflexivity.
Qed.

(** What the chain decides, in terms of the substrings of the lowered
    name. *)
Lemma category_of_table (cls : string) :
  let s := lower cls in
  let named (ks : list string) := exists kw, In kw ks /\ contains kw s = true in
  let healthy := contains "healthy" s = true in
  let disease := named ["blight"; "spot"; "mildew"; "rust"; "wilt"] in
  let pest := named ["aphid"; "mite"; "bug"; "beetle"] in
  let deficiency := named ["deficiency"; "nutrient"; "chlorosis"] in
  (category_of cls = "healthy" <-> healthy)
  /\ (category_of cls = "disease" <-> ~ healthy /\ disease)
  /\ (category_of cls = "pest" <-> ~ healthy /\ ~ disease /\ pest)
  /\ (category_of cls = "deficiency" <-> ~ healthy /\ ~ disease /\ ~ pest /\ deficiency)
  /\ (category_of cls = "environmental"
      <-> ~ healthy /\ ~ disease /\ ~ pest /\ ~ deficiency).
Proof.
  cbv zeta. unfold category_of. cbv zeta.
  assert (Hany : forall ks, any_in ks (lower cls) = true
                            <-> exists kw, In kw ks /\ contains kw (lower cls) = true).
  { intros ks. unfold any_in. apply existsb_exists. }
  rewrite <- !Hany.
  destruct (contains "healthy" (lower cls));
    destruct (any_in ["blight"; "spot"; "mildew"; "rust"; "wilt"] (lower cls));
    destruct (any_in ["aphid"; "mite"; "bug"; "beetle"] (lower cls));
    destruct (any_in ["deficiency"; "nutrient"; "chlorosis"] (lower cls));
    repeat split; intros; try discriminate; try tauto; try easy;
    repeat match goal with
           | H : _ /\ _ |- _ => destruct H
           end; congruence.
Qed.

(** With names the compiler accepts the function returns the five lists. *)
Lemma categorize_as_lookup (x1 x2 x3 : string) (classes : list string) :
  iskeyword x1 = false -> iskeyword x2 = false -> iskeyword x3 = false ->
  exists categories : gmap string (list string),
    _categorize_diseases_as x1 x2 x3 classes = Return categories
    /\ forall k : string,
        categories !! k
        = if decide (In k category_names)
          then Some (filter (fun c => category_of c = k) classes)
          else None.
Proof.
  intros H1 H2 H3. unfold _categorize_diseases_as, compiled.
  cbn [existsb]. rewrite H1, H2, H3. cbn [orb].
  eexists. split; [reflexivity |]. intros k. rewrite categorize_fold.
  destruct (decide (In k category_names)) as [Hk | Hk].
  - rewrite (empty_categories_lookup k Hk). reflexivity.
  - assert (E : empty_categories !! k = None).
    { unfold empty_categories.
      repeat (rewrite lookup_insert; case_decide;
              [exfalso; apply Hk; subst k; cbn; tauto |]).
      rewrite lookup_empty. reflexivity. }
    rewrite E. reflexivity.
Qed.

End Categories.

(** C9.  The categorization is written but cannot run.  Line 190 binds the
    reserved word [def] as the variable of its generator expression, where
    lines 186 and 188 bind [disease] and [pest]: Python refuses the text
    with a [SyntaxError], so [_categorize_diseases] files no class name
    under any category, whatever the list of classes.  With any name in that
    place that is not a reserved word the function does what the rule says:
    it returns the five lists, every class is in exactly one of them, and the
    list is decided on the lowered name by the keyword rules in their order,
    the first that matches winning; a name that contains both [healthy] and
    [blight] is filed under [healthy]. *)
Theorem categorize_diseases_does_not_compile :
  iskeyword "def" = true
  /\ (forall classes : list string, _categorize_diseases classes = Raise SyntaxError)
  /\ (forall (x3 : string) (classes : list string),
         iskeyword x3 = false ->
         exists categories : gmap string (list string),
           _categorize_diseases_as "disease" "pest" x3 classes = Return categories
           /\ (forall k : string, is_Some (categories !! k) <-> In k category_names)
           /\ (forall (cls k : string) (l : list string),
                  categories !! k = Some l ->
                  let s := lower cls in
                  let named (ks : list string) :=
                    exists kw, In kw ks /\ contains kw s = true in
                  let healthy := contains "healthy" s = true in
                  let disease := named ["blight"; "spot"; "mildew"; "rust"; "wilt"] in
                  let pest := named ["aphid"; "mite"; "bug"; "beetle"] in
                  let deficiency := named ["deficiency"; "nutrient"; "chlorosis"] in
                  In cls l
                  <-> In cls classes
                      /\ ((k = "healthy" /\ healthy)
                          \/ (k = "disease" /\ ~ healthy /\ disease)
                          \/ (k = "pest" /\ ~ healthy /\ ~ disease /\ pest)
                          \/ (k = "deficiency"
                              /\ ~ healthy /\ ~ disease /\ ~ pest /\ deficiency)
                          \/ (k = "environmental"
                              /\ ~ healthy /\ ~ disease /\ ~ pest /\ ~ deficiency)))
           /\ (forall cls : string,
                  In cls classes ->
                  exists (k : string) (l : list string),
                    categories !! k = Some l /\ In cls l
                    /\ forall (k' : string) (l' : list string),
                        categories !! k' = Some l' -> In cls l' -> k' = k)
           /\ (forall (cls : string) (l : list string),
                  In cls classes ->
                  contains "healthy" cls = true ->
                  contains "blight" cls = true ->
                  categories !! "healthy" = Some l ->
                  In cls l)).
Proof.
  split; [reflexivity |].
  split; [reflexivity |].
  intros x3 classes Hx3.
  destruct (categorize_as_lookup "disease" "pest" x3 classes eq_refl eq_refl Hx3)
    as (categories & Hret & Hlook).
  assert (Hmem : forall (cls k : string) (l : list string),
             categories !! k = Some l ->
             In k category_names
             /\ (In cls l <-> In cls classes /\ category_of cls = k)).
  { intros cls k l Hl. rewrite Hlook in Hl.
    destruct (decide (In k category_names)) as [Hk | Hk]; [| discriminate Hl].
    injection Hl as <-. split; [exact Hk |].
    rewrite <- !list_elem_of_In, list_elem_of_filter. tauto. }
  exists categories. split; [exact Hret |].
  split; [| split; [| split]].
  - intros k. rewrite Hlook.
    destruct (decide (In k category_names)) as [Hk | Hk].
    + split; [intros _; exact Hk | intros _; eexists; reflexivity].
    + split; [intros [l Hl]; discriminate Hl | intros Hk'; contradiction].
  - intros cls k l Hl. cbv zeta.
    destruct (Hmem cls k l Hl) as [Hk ->].
    pose proof (category_of_table cls) as Ht. cbv zeta in Ht.
    destruct Ht as (T1 & T2 & T3 & T4 & T5).
    split.
    + intros [Hin Hcat]. split; [exact Hin |].
      unfold category_names in Hk. cbn [In] in Hk.
      destruct Hk as [<- | [<- | [<- | [<- | [<- | []]]]]].
      * left. split; [reflexivity | apply T1; exact Hcat].
      * right; left. split; [reflexivity | apply T2; exact Hcat].
      * right; right; left. split; [reflexivity | apply T3; exact Hcat].
      * right; right; right; left. split; [reflexivity | apply T4; exact Hcat].
      * right; right; right; right. split; [reflexivity | apply T5; exact Hcat].
    + intros [Hin Hrule]. split; [exact Hin |].
      destruct Hrule as [[-> H] | [[-> H] | [[-> H] | [[-> H] | [-> H]]]]].
      * apply T1; exact H.
      * apply T2; exact H.
      * apply T3; exact H.
      * apply T4; exact H.
      * apply T5; exact H.
  - intros cls Hin. exists (category_of cls).
    pose proof (Hlook (category_of cls)) as Hl.
    destruct (decide (In (category_of cls) category_names)) as [_ | Hn];
      [| exfalso; apply Hn, category_of_name].
    eexists. split; [exact Hl |]. split.
    + rewrite <- list_elem_of_In, list_elem_of_filter, list_elem_of_In. tauto.
    + intros k' l' Hl' Hin'. destruct (Hmem cls k' l' Hl') as [_ Hiff].
      apply Hiff in Hin' as [_ E]. symmetry. exact E.
  - intros cls l Hin Hh _ Hl. destruct (Hmem cls "healthy" l Hl) as [_ Hiff].
    apply Hiff. split; [exact Hin |].
    apply (proj1 (category_of_table cls)). apply contains_lower in Hh.
    change (lower "healthy") with "healthy" in Hh. exact Hh.
Qed.

Lemma categorize_diseases_does_not_compile_witness :
  _categorize_diseases ["Tomato_healthy"] = Raise SyntaxError
  /\ exists categories : gmap string (list string),
      _categorize_diseases_as "disease" "pest" "keyword"
        ["Tomato_Healthy_Early_BLIGHT"; "Apple_rust"; "Corn_aphid"; "Soy_chlorosis";
         "Frost_damage"]
      = Return categories
      /\ (forall l, categories !! "healthy" = Some l ->
                    In "Tomato_Healthy_Early_BLIGHT" l)
      /\ (forall l, categories !! "deficiency" = Some l -> In "Soy_chlorosis" l).
Proof.
  destruct categorize_diseases_does_not_compile as (_ & Hraise & Hlegal).
  split; [apply Hraise |].
  destruct (Hlegal "keyword"
              ["Tomato_Healthy_Early_BLIGHT"; "Apple_rust"; "Corn_aphid"; "Soy_chlorosis";
               "Frost_damage"] eq_refl)
    as (categories & Hret & _ & Htable & _ & Hhealthy).
  exists categories. split; [exact Hret |]. split.
  - intros l Hl. apply (Htable "Tomato_Healthy_Early_BLIGHT" "healthy" l Hl).
    split; [cbn; tauto |]. left. split; [reflexivity | vm_compute; reflexivity].
  - intros l Hl. apply (Htable "Soy_chlorosis" "deficiency" l Hl).
    split; [cbn; tauto |]. right; right; right; left.
    split; [reflexivity |]. split; [vm_compute; discriminate |].
    split; [| split].
    + intros (kw & Hin & Hc). cbn [In] in Hin.
      repeat (destruct Hin as [<- | Hin]; [vm_compute in Hc; discriminate Hc |]).
      exact Hin.
    + intros (kw & Hin & Hc). cbn [In] in Hin.
      repeat (destruct Hin as [<- | Hin]; [vm_compute in Hc; discriminate Hc |]).
      exact Hin.
    + exists "chlorosis". split; [cbn; tauto | vm_compute; reflexivity].
Defined.

(** ** Label vectors *)

Section Labels.

Lemma norm_index_Some (n : nat) (i : Z) (k : nat) :
  norm_index n i = Some k ->
  (k < n)%nat
  /\ ((0 <= i < Z.of_nat n /\ k = Z.to_nat i)
      \/ (- Z.of_nat n <= i < 0 /\ k = Z.to_nat (Z.of_nat n + i))).
Proof.
  unfold norm_index.
  destruct (Z.leb_spec 0 i), (Z.ltb_spec i (Z.of_nat n)); cbn [andb].
  1: intros [= <-]; split; [lia | left; split; [lia | reflexivity]].
  all: destruct (Z.leb_spec (- Z.of_nat n) i), (Z.ltb_spec i 0); cbn [andb];
    try discriminate; try lia.
  all: intros [= <-]; split; [lia | right; split; [lia | reflexivity]].
Qed.

Lemma norm_index_None (n : nat) (i : Z) :
  norm_index n i = None <-> i < - Z.of_nat n \/ Z.of_nat n <= i.
Proof.
  unfold norm_index.
  destruct (Z.leb_spec 0 i), (Z.ltb_spec i (Z.of_nat n)); cbn [andb];
    try (split; [discriminate | lia]).
  all: destruct (Z.leb_spec (- Z.of_nat n) i), (Z.ltb_spec i 0); cbn [andb];
    try (split; [discriminate | lia]); try (split; [lia | reflexivity]).
  all: split; intros; try reflexivity; lia.
Qed.

Lemma norm_index_nonneg (n : nat) (i : Z) :
  0 <= i < Z.of_nat n -> norm_index n i = Some (Z.to_nat i).
Proof.
  intros H. unfold norm_index.
  destruct (Z.leb_spec 0 i), (Z.ltb_spec i (Z.of_nat n)); try lia. reflexivity.
Qed.

Lemma norm_index_negative (n : nat) (i : Z) :
  - Z.of_nat n <= i < 0 -> norm_index n i = norm_index n (Z.of_nat n + i).
Proof.
  intros H. rewrite (norm_index_nonneg n (Z.of_nat n + i)) by lia.
  unfold norm_index.
  destruct (Z.leb_spec 0 i), (Z.ltb_spec i (Z.of_nat n)); try lia; cbn [andb].
  destruct (Z.leb_spec (- Z.of_nat n) i), (Z.ltb_spec i 0); try lia. reflexivity.
Qed.

(** Where the dict comprehension over [enumerate] leaves a key: at the
    position of (the last occurrence of) the key in the list. *)
Lemma enumerate_fold (l : list string) (s : Z) (m : gmap string Z) (c : string) (i : Z) :
  fold_left (fun (m : gmap string Z) (p : Z * string) => <[snd p := fst p]> m)
            (enumerate_from s l) m !! c = Some i ->
  m !! c = Some i
  \/ (s <= i < s + Z.of_nat (length l) /\ l !! Z.to_nat (i - s) = Some c).
Proof.
  revert s m. induction l as [| x l IH]; intros s m; cbn [enumerate_from fold_left].
  - auto.
  - intros H. apply IH in H. cbn [fst snd] in H. destruct H as [H | [Hr Hl]].
    + rewrite lookup_insert in H. case_decide as Hx.
      * injection H as <-. subst c. right. split; [cbn [length]; lia |].
        rewrite Z.sub_diag. reflexivity.
      * left. exact H.
    + right. split; [cbn [length]; lia |].
      replace (Z.to_nat (i - s)) with (S (Z.to_nat (i - (s + 1)))) by lia.
      exact Hl.
Qed.

Lemma dict_of_enumerate_lookup (l : list string) (c : string) (i : Z) :
  dict_of_enumerate l !! c = Some i ->
  0 <= i < Z.of_nat (length l) /\ l !! Z.to_nat i = Some c.
Proof.
  unfold dict_of_enumerate, enumerate. intros H.
  apply enumerate_fold in H. destruct H as [H | [Hr Hl]].
  - rewrite lookup_empty in H. discriminate H.
  - rewrite Z.sub_0_r in Hl. split; [lia | exact Hl].
Qed.

(** What the label of a class whose index is in range looks like. *)
Lemma create_label_in_range (ci : ClassInfo) (cls : string) (i : Z) :
  class_to_idx ci !! cls = Some i ->
  0 <= i < num_classes ci ->
  exists v : tensor,
    _create_label ci cls = Return v
    /\ Z.of_nat (length v) = num_classes ci
    /\ v !! Z.to_nat i = Some 1%Q
    /\ (forall j : nat, j <> Z.to_nat i -> (j < length v)%nat -> v !! j = Some 0%Q).
Proof.
  intros Hk Hi. unfold _create_label. rewrite Hk.
  unfold torch_zeros. destruct (Z.ltb_spec (num_classes ci) 0) as [? | _]; [lia |].
  cbn [mbind except_bind bind mret except_ret].
  unfold tensor_setitem. rewrite length_replicate.
  rewrite norm_index_nonneg by lia.
  eexists. split; [reflexivity |].
  rewrite length_insert, length_replicate.
  split; [lia |]. split.
  - apply list_lookup_insert_eq. rewrite length_replicate. lia.
  - intros j Hj Hlt. rewrite list_lookup_insert_ne by auto.
    apply lookup_replicate_2. exact Hlt.
Qed.

Lemma created_class_info (metadata : DataFrame) (ci : ClassInfo) :
  _create_class_info metadata = Return ci
  \/ PlantVillage_create_class_info metadata = Return ci ->
  exists l : list string,
    classes ci = l /\ class_to_idx ci = dict_of_enumerate l
    /\ num_classes ci = Z.of_nat (length l).
Proof.
  unfold _create_class_info, PlantVillage_create_class_info.
  destruct (getcol metadata "class_name" class_name) as [col | e];
    cbn [mbind except_bind bind]; intros [H | H]; try discriminate H.
  all: injection H as <-; eexists; cbn; auto.
Qed.

End Labels.

(** C7. The label of a class that is a key of the registry is a one-hot
    vector: its length is [num_classes], its entry at the registry index of
    the class is 1.0 and every other entry is 0.0.  This holds for the
    registry that [_create_class_info] derives from the metadata (of the
    generic and of the PlantVillage data set alike), and for any registry
    whose index for the class lies in [0, num_classes). *)
Theorem create_label_one_hot :
  (forall (metadata : DataFrame) (ci : ClassInfo) (cls : string),
      _create_class_info metadata = Return ci
      \/ PlantVillage_create_class_info metadata = Return ci ->
      is_Some (class_to_idx ci !! cls) ->
      exists (i : Z) (v : tensor),
        class_to_idx ci !! cls = Some i
        /\ classes ci !! Z.to_nat i = Some cls
        /\ _create_label ci cls = Return v
        /\ Z.of_nat (length v) = num_classes ci
        /\ v !! Z.to_nat i = Some 1%Q
        /\ (forall j : nat, j <> Z.to_nat i -> (j < length v)%nat -> v !! j = Some 0%Q))
  /\ (forall (ci : ClassInfo) (cls : string) (i : Z),
         class_to_idx ci !! cls = Some i ->
         0 <= i < num_classes ci ->
         exists v : tensor,
           _create_label ci cls = Return v
           /\ Z.of_nat (length v) = num_classes ci
           /\ v !! Z.to_nat i = Some 1%Q
           /\ (forall j : nat, j <> Z.to_nat i -> (j < length v)%nat -> v !! j = Some 0%Q)).
Proof.
  split; [| exact create_label_in_range].
  intros metadata ci cls Hci [i Hi].
  destruct (created_class_info metadata ci Hci) as (l & Hl & Hm & Hn).
  pose proof Hi as Hi'. rewrite Hm in Hi'.
  apply dict_of_enumerate_lookup in Hi' as [Hr Hpos].
  destruct (create_label_in_range ci cls i Hi) as (v & Hv); [lia |].
  exists i, v. split; [exact Hi |]. split; [rewrite Hl; exact Hpos | exact Hv].
Qed.

Lemma create_label_one_hot_witness :
  exists ci : ClassInfo,
    _create_class_info two_rows = Return ci
    /\ exists v : tensor,
         _create_label ci "Tomato_healthy" = Return v
         /\ Z.of_nat (length v) = num_classes ci
         /\ v !! 1%nat = Some 1%Q.
Proof.
  destruct (_create_class_info two_rows) as [ci | e] eqn:E; [| vm_compute in E; discriminate E].
  exists ci. split; [reflexivity |].
  destruct create_label_one_hot as [Hderived _].
  destruct (Hderived two_rows ci "Tomato_healthy" (or_introl E)) as (i & v & Hi & _ & Hv & Hlen & H1 & _).
  - injection E as <-. vm_compute. eexists. reflexivity.
  - exists v. split; [exact Hv |]. split; [exact Hlen |].
    injection E as <-. vm_compute in Hi. injection Hi as <-. exact H1.
Defined.

(** ** Indexing the samples of a split *)

Section Indexing.

Lemma iloc_IndexError (df : DataFrame) (idx : Z) :
  iloc df idx = Raise IndexError
  <-> idx < - Z.of_nat (length (rows df)) \/ Z.of_nat (length (rows df)) <= idx.
Proof.
  unfold iloc. rewrite <- norm_index_None.
  destruct (norm_index (length (rows df)) idx) as [k |] eqn:E.
  - apply norm_index_Some in E as [Hk _].
    destruct (lookup_lt_is_Some_2 (rows df) k Hk) as [row ->].
    split; discriminate.
  - split; reflexivity.
Qed.

Lemma iloc_negative (df : DataFrame) (idx : Z) :
  - Z.of_nat (length (rows df)) <= idx < 0 ->
  iloc df idx = iloc df (Z.of_nat (length (rows df)) + idx).
Proof. intros H. unfold iloc. rewrite (norm_index_negative _ _ H). reflexivity. Qed.

Lemma iloc_row (df : DataFrame) (idx : Z) :
  - Z.of_nat (length (rows df)) <= idx < Z.of_nat (length (rows df)) ->
  exists row,
    iloc df idx = Return row
    /\ rows df !! Z.to_nat (idx mod Z.of_nat (length (rows df))) = Some row.
Proof.
  intros H. unfold iloc.
  destruct (norm_index (length (rows df)) idx) as [k |] eqn:E.
  - apply norm_index_Some in E as [Hk Hcase].
    destruct (lookup_lt_is_Some_2 (rows df) k Hk) as [row Hrow].
    exists row. rewrite Hrow. split; [reflexivity |].
    destruct Hcase as [[Hr ->] | [Hr ->]].
    + rewrite Z.mod_small by lia. exact Hrow.
    + rewrite <- (Z.mod_add idx 1) by lia. rewrite Z.mod_small by lia.
      rewrite <- Hrow. f_equal. lia.
  - apply norm_index_None in E. lia.
Qed.

End Indexing.

(** C8, as the code has it.  [__getitem__] looks the row up with
    [self.data.iloc[idx]], which follows Python's indexing: on a split of
    length [L] the call raises [IndexError] for every index below [-L] or
    from [L] on, and the row lookup raises it for no other index; an index
    in [-L, 0) counts from the end, so the call does what it does for
    [L + idx]; an index in [-L, L) selects row [idx mod L]. *)
Theorem getitem_index_error
        (Image_open : string -> except image)
        (transform : option (image -> except tensor))
        (self : PlantDiseaseDataset) (idx : Z) :
  let L := Z.of_nat (__len__ self) in
  (idx < - L \/ L <= idx ->
   __getitem__ Image_open transform self idx = Raise IndexError)
  /\ (- L <= idx < 0 ->
      __getitem__ Image_open transform self idx
      = __getitem__ Image_open transform self (L + idx))
  /\ (iloc (data self) idx = Raise IndexError <-> idx < - L \/ L <= idx)
  /\ (- L <= idx < L ->
      exists row,
        iloc (data self) idx = Return row
        /\ rows (data self) !! Z.to_nat (idx mod L) = Some row).
Proof.
  cbv zeta. unfold __len__. split; [| split; [| split]].
  - intros H. apply iloc_IndexError in H. unfold __getitem__. rewrite H. reflexivity.
  - intros H. unfold __getitem__. rewrite (iloc_negative _ _ H). reflexivity.
  - apply iloc_IndexError.
  - apply iloc_row.
Qed.

Lemma init_one_image_root :
  __init__ (secret_of_seed 0) no_file no_file one_image_root "train"
  = Return one_sample_dataset.
Proof. vm_compute. reflexivity. Qed.

Lemma getitem_index_error_witness :
  __getitem__ blank_image None one_sample_dataset 1 = Raise IndexError
  /\ __getitem__ blank_image None one_sample_dataset (-1)
     = __getitem__ blank_image None one_sample_dataset 0.
Proof.
  split.
  - destruct (getitem_index_error blank_image None one_sample_dataset 1) as (Hout & _).
    apply Hout. right. change (Z.of_nat (__len__ one_sample_dataset)) with 1. lia.
  - destruct (getitem_index_error blank_image None one_sample_dataset (-1))
      as (_ & Hneg & _).
    apply Hneg. change (Z.of_nat (__len__ one_sample_dataset)) with 1. lia.
Defined.

(** C8 as stated fails at index -1: on a split holding one sample, which is
    outside [0, 1), the row lookup returns that sample, as it does for index
    0, and the call does not raise [IndexError]. *)
Lemma getitem_accepts_negative_index :
  __init__ (secret_of_seed 0) no_file no_file one_image_root "train"
  = Return one_sample_dataset
  /\ __len__ one_sample_dataset = 1%nat
  /\ ~ (0 <= -1 < Z.of_nat (__len__ one_sample_dataset))
  /\ iloc (data one_sample_dataset) (-1) = Return one_sample
  /\ iloc (data one_sample_dataset) (-1) = iloc (data one_sample_dataset) 0
  /\ __getitem__ blank_image None one_sample_dataset (-1) <> Raise IndexError
  /\ ~ (forall (Image_open : string -> except image)
               (transform : option (image -> except tensor))
               (self : PlantDiseaseDataset) (idx : Z),
           ~ (0 <= idx < Z.of_nat (__len__ self)) ->
           __getitem__ Image_open transform self idx = Raise IndexError).
Proof.
  split; [exact init_one_image_root |].
  split; [reflexivity |].
  split; [change (Z.of_nat (__len__ one_sample_dataset)) with 1; lia |].
  split; [vm_compute; reflexivity |].
  split; [vm_compute; reflexivity |].
  assert (Hne : __getitem__ blank_image None one_sample_dataset (-1) <> Raise IndexError).
  { vm_compute. discriminate. }
  split; [exact Hne |].
  intros H. apply Hne. apply H.
  change (Z.of_nat (__len__ one_sample_dataset)) with 1. lia.
Qed.

(** ** Synthesis of the metadata from the directory layout *)

Section Synthesis.

Variable key : hash_secret.

Lemma row_of_inj (d f f' : string) : row_of key d f = row_of key d f' -> f = f'.
Proof.
  unfold row_of. intros [= H _]. 
  assert (Happ : forall a b c : string, String.append a b = String.append a c -> b = c).
  { induction a as [| x a IH]; intros b c E; [exact E |].
    rewrite !append_cons in E. injection E as E. auto. }
  apply Happ in H. apply Happ in H. exact H.
Qed.

Lemma glob_jpg_elem (ch : list (string * node)) (f : string) :
  f ∈ glob_jpg ch <-> (exists nd, (f, nd) ∈ ch) /\ endswith ".jpg" f = true.
Proof.
  unfold glob_jpg. change (map fst ?l) with (fst <$> l).
  rewrite list_elem_of_fmap. split.
  - intros [[f' nd] [-> H]]. apply list_elem_of_filter in H as [He Hin].
    cbn [fst] in *. split; [exists nd; exact Hin | apply Is_true_true_1; exact He].
  - intros [[nd Hin] He]. exists (f, nd). split; [reflexivity |].
    apply list_elem_of_filter. split; [cbn; rewrite He; exact I | exact Hin].
Qed.

Lemma glob_jpg_NoDup (ch : list (string * node)) :
  NoDup (map fst ch) -> NoDup (glob_jpg ch).
Proof.
  unfold glob_jpg. induction ch as [| [f nd] ch IH]; cbn [map fst].
  - intros _. rewrite filter_nil. constructor.
  - intros H. apply NoDup_cons in H as [Hf Hch].
    rewrite filter_cons. destruct (decide _) as [He | He]; cbn [map fst]; [| auto].
    apply NoDup_cons. split; [| auto].
    intros Hin. apply Hf.
    change (map fst ?l) with (fst <$> l) in *.
    apply list_elem_of_fmap in Hin as [[f' nd'] [-> Hin]].
    apply list_elem_of_filter in Hin as [_ Hin].
    apply list_elem_of_fmap. exists (f', nd'). auto.
Qed.

Lemma synthesized_rows (root : list (string * node)) :
  rows (_create_metadata_from_structure key root) = flat_map (rows_of_entry key) root.
Proof. reflexivity. Qed.

Lemma rows_of_entry_class (e : string * node) (rec : SampleRecord) :
  rec ∈ rows_of_entry key e -> class_name rec = fst e.
Proof.
  unfold rows_of_entry. destruct (_ && _); [| intros H; inversion H].
  change (map ?f ?l) with (f <$> l). rewrite list_elem_of_fmap.
  intros [f [-> _]]. reflexivity.
Qed.

Lemma rows_of_entry_NoDup (e : string * node) :
  NoDup (map fst (children_of (snd e))) -> NoDup (rows_of_entry key e).
Proof.
  intros H. unfold rows_of_entry. destruct (_ && _); [| constructor].
  change (map ?f ?l) with (f <$> l).
  apply NoDup_fmap_2_strong; [| apply glob_jpg_NoDup; exact H].
  intros f f' _ _ E. apply (row_of_inj _ _ _ E).
Qed.

Lemma flat_map_elem (root : list (string * node)) (rec : SampleRecord) :
  rec ∈ flat_map (rows_of_entry key) root <-> exists e, e ∈ root /\ rec ∈ rows_of_entry key e.
Proof.
  rewrite list_elem_of_In, in_flat_map.
  split; intros [e [H1 H2]]; exists e;
    rewrite ?list_elem_of_In in *; rewrite <- ?list_elem_of_In in *; auto.
Qed.

Lemma synthesized_NoDup (root : list (string * node)) :
  NoDup (map fst root) ->
  (forall e, e ∈ root -> NoDup (map fst (children_of (snd e)))) ->
  NoDup (flat_map (rows_of_entry key) root).
Proof.
  induction root as [| e root IH]; cbn [flat_map map]; [constructor |].
  intros Hn Hch. apply NoDup_cons in Hn as [He Hn].
  apply NoDup_app. split; [| split].
  - apply rows_of_entry_NoDup. apply Hch. left.
  - intros rec H1 H2. apply rows_of_entry_class in H1.
    apply flat_map_elem in H2 as [e' [He' H2]]. apply rows_of_entry_class in H2.
    apply He. change (map fst root) with (fst <$> root).
    apply list_elem_of_fmap. exists e'. split; [congruence | exact He'].
  - apply IH; [exact Hn |]. intros e' He'. apply Hch. right. exact He'.
Qed.

Lemma synthesized_elem (root : list (string * node)) (rec : SampleRecord) :
  rec ∈ flat_map (rows_of_entry key) root
  <-> exists d n f nd,
        (d, n) ∈ root /\ is_dir n = true /\ startswith "." d = false
        /\ (f, nd) ∈ children_of n /\ endswith ".jpg" f = true
        /\ rec = row_of key d f.
Proof.
  rewrite flat_map_elem. split.
  - intros [[d n] [He H]]. unfold rows_of_entry in H. cbn [fst snd] in H.
    destruct (is_dir n) eqn:Ed; [| inversion H].
    destruct (startswith "." d) eqn:Es; [inversion H |]. cbn [andb negb] in H.
    change (map ?f ?l) with (f <$> l) in H.
    apply list_elem_of_fmap in H as [f [-> Hf]].
    apply glob_jpg_elem in Hf as [[nd Hnd] Hj].
    exists d, n, f, nd. auto 10.
  - intros (d & n & f & nd & He & Ed & Es & Hnd & Hj & ->).
    exists (d, n). split; [exact He |].
    unfold rows_of_entry. cbn [fst snd]. rewrite Ed, Es. cbn [andb negb].
    change (map ?f ?l) with (f <$> l). apply list_elem_of_fmap.
    exists f. split; [reflexivity |]. apply glob_jpg_elem. eauto.
Qed.

End Synthesis.

(** C6, as the code has it.  Without a [metadata.csv] at the root the
    resolver returns the synthesized table.  Its rows are exactly the rows of
    the entries named [*.jpg] inside the immediate subdirectories of the root
    whose name does not start with a dot: each such entry, whatever it is,
    gives the row with the directory name as class name and the path
    [directory/entry], and (names within a directory being distinct) gives
    it once; nothing else gives a row. *)
Theorem synthesis_one_row_per_jpg
        (key : hash_secret) (read_csv : node -> except DataFrame)
        (root : list (string * node)) :
  find_in root "metadata.csv" = None ->
  NoDup (map fst root) ->
  (forall e, e ∈ root -> NoDup (map fst (children_of (snd e)))) ->
  exists df : DataFrame,
    _load_metadata key read_csv root = Return df
    /\ NoDup (rows df)
    /\ (forall rec : SampleRecord,
           rec ∈ rows df
           <-> exists d n f nd,
                 (d, n) ∈ root /\ is_dir n = true /\ startswith "." d = false
                 /\ (f, nd) ∈ children_of n /\ endswith ".jpg" f = true
                 /\ rec = {| image_path := str_path [d; f];
                             class_name := d;
                             split := _assign_split key [d; f] |}).
Proof.
  intros Hmeta Hroot Hch. unfold _load_metadata. rewrite Hmeta.
  eexists. split; [reflexivity |].
  rewrite (synthesized_rows key). split.
  - apply synthesized_NoDup; assumption.
  - intros rec. apply synthesized_elem.
Qed.

Lemma synthesis_one_row_per_jpg_witness :
  exists df : DataFrame,
    _load_metadata (secret_of_seed 0) no_file mixed_root = Return df
    /\ {| image_path := "Tomato/a.jpg"; class_name := "Tomato"; split := "train" |}
       ∈ rows df.
Proof.
  destruct (synthesis_one_row_per_jpg (secret_of_seed 0) no_file mixed_root)
    as (df & Hdf & _ & Hrows).
  - reflexivity.
  - compute_done.
  - intros e He. apply list_elem_of_In in He. cbn in He.
    destruct He as [<- | [<- | []]]; compute_done.
  - exists df. split; [exact Hdf |].
    apply Hrows. exists "Tomato", (Dir [("a.jpg", File true); ("leaf.png", File true)]),
                  "a.jpg", (File true).
    split; [left |].
    split; [reflexivity |]. split; [reflexivity |].
    split; [left |]. split; [reflexivity |].
    vm_compute. reflexivity.
Defined.

(** C6 as stated fails for an image that is not named [*.jpg]: the PNG image
    [Tomato/leaf.png] of a visible class directory, with no metadata file at
    the root, gets no row. *)
Lemma png_image_gets_no_record :
  find_in mixed_root "metadata.csv" = None
  /\ _load_metadata (secret_of_seed 0) no_file mixed_root
     = Return (DataFrame_of
                 [{| image_path := "Tomato/a.jpg"; class_name := "Tomato"; split := "train" |}])
  /\ ~ (forall (key : hash_secret) (read_csv : node -> except DataFrame)
               (root : list (string * node)) (d f : string) (ch : list (string * node)),
           find_in root "metadata.csv" = None ->
           (d, Dir ch) ∈ root ->
           startswith "." d = false ->
           (f, File true) ∈ ch ->
           exists df rec,
             _load_metadata key read_csv root = Return df
             /\ rec ∈ rows df
             /\ class_name rec = d
             /\ image_path rec = str_path [d; f]).
Proof.
  split; [reflexivity |].
  split; [vm_compute; reflexivity |].
  intros H.
  destruct (H (secret_of_seed 0) no_file mixed_root "Tomato" "leaf.png"
              [("a.jpg", File true); ("leaf.png", File true)])
    as (df & rec & Hdf & Hin & _ & Hpath).
  - reflexivity.
  - left.
  - reflexivity.
  - right. left.
  - vm_compute in Hdf. injection Hdf as <-.
    cbn [rows] in Hin. apply list_elem_of_In in Hin. cbn in Hin.
    destruct Hin as [<- | []]. vm_compute in Hpath. discriminate Hpath.
Qed.

(** * Properties of the metrics *)

Section Means.

Lemma count_true_cons (b : bool) (l : list bool) :
  count_true (b :: l) = if b then S (count_true l) else count_true l.
Proof.
  unfold count_true. rewrite filter_cons.
  destruct b; destruct (decide _) as [H | H]; cbn in *; try reflexivity; tauto.
Qed.

Lemma np_sum_of_bool (l : list bool) :
  np_sum (map of_bool l) = fin (Z.of_nat (count_true l) # 1).
Proof.
  induction l as [| b l IH]; [reflexivity |].
  cbn [map np_sum]. rewrite IH, count_true_cons. unfold of_bool.
  destruct b; unfold Qplus; cbn [Qnum Qden]; do 2 f_equal; lia.
Qed.

Lemma ratio_quotient (k n : nat) :
  (0 < n)%nat ->
  Qred ((Z.of_nat k # 1) / inject_Z (Z.of_nat n)) = Qred (Z.of_nat k # Pos.of_nat n).
Proof.
  intros Hn. apply Qred_complete.
  destruct n as [| n]; [lia |].
  unfold Qeq, Qdiv, Qmult, Qinv, inject_Z. cbn [Qnum Qden Z.of_nat].
  change (Z.of_nat (S n)) with (Z.pos (Pos.of_succ_nat n)). cbn [Qnum Qden].
  rewrite <- Pos.of_nat_succ. lia.
Qed.

(** The mean of a Boolean array is the share of its true entries. *)
Lemma np_mean_of_bool (l : list bool) :
  np_mean (map of_bool l) = ratio (count_true l) (length l).
Proof.
  destruct l as [| b l]; [reflexivity |].
  unfold np_mean. rewrite np_sum_of_bool. rewrite length_map.
  cbn [map]. unfold ratio. cbn [length].
  f_equal. apply ratio_quotient. lia.
Qed.

End Means.

Section Shapes.

Lemma same_shape_inv {A B : Type} (a : ndarray A) (b : ndarray B) :
  Is_true (same_shape a b) ->
  Forall (fun r => length r = shape1 a) (tolist a)
  /\ Forall (fun r => length r = shape1 a) (tolist b)
  /\ length (tolist b) = length (tolist a).
Proof.
  unfold same_shape, well_shaped, shape0. intros H.
  apply Is_true_true_1 in H.
  rewrite !andb_true_iff, !forallb_forall, !Nat.eqb_eq in H.
  destruct H as [[[Ha Hb] Hc] Hn].
  split; [| split].
  - apply Forall_forall. intros r Hr. apply Nat.eqb_eq, Ha, list_elem_of_In, Hr.
  - apply Forall_forall. intros r Hr. rewrite Hc.
    apply Nat.eqb_eq, Hb, list_elem_of_In, Hr.
  - symmetry. exact Hn.
Qed.

Lemma rows_eq_shape (c : nat) (ts : list (list Q)) (ps : list (list Z)) :
  Forall (fun r => length r = c) ts ->
  Forall (fun r => length r = c) ps ->
  length ps = length ts ->
  length (zip_with (zip_with label_eq) ts ps) = length ts
  /\ length (concat (zip_with (zip_with label_eq) ts ps)) = (length ts * c)%nat.
Proof.
  intros Ht. revert ps. induction Ht as [| t ts Hlt Ht IH]; intros ps Hp Hn.
  - destruct ps; [split; reflexivity | discriminate Hn].
  - destruct ps as [| p ps]; [discriminate Hn |].
    apply Forall_cons in Hp as [Hlp Hp]. injection Hn as Hn.
    destruct (IH ps Hp Hn) as [IH1 IH2].
    cbn [zip_with length concat]. split.
    + rewrite IH1. reflexivity.
    + rewrite length_app, IH2, length_zip_with. lia.
Qed.

Lemma array_map_shape {A B : Type} (f : A -> B) (a : ndarray A) (b : ndarray A) :
  Is_true (same_shape a b) -> Is_true (same_shape a (array_map f b)).
Proof.
  unfold same_shape, well_shaped, array_map, shape0. cbn [shape1 tolist].
  intros H. apply Is_true_true_1 in H. apply Is_true_true_2.
  rewrite !andb_true_iff in *. destruct H as [[[Ha Hb] Hc] Hn].
  rewrite length_map. repeat split; try assumption.
  rewrite forallb_forall in *. intros r Hr.
  apply in_map_iff in Hr as [r' [<- Hr']]. rewrite length_map. auto.
Qed.

End Shapes.

Section AucLoop.

Variable roc_auc_score : list Q -> list Q -> except npfloat.

Lemma auc_loop_outcome (y_true y_pred : ndarray Q) (cols : list nat) (scores : list npfloat) :
  Sklearn.raises_only_ValueError roc_auc_score ->
  (exists l, auc_loop roc_auc_score y_true y_pred cols scores = Return l)
  \/ auc_loop roc_auc_score y_true y_pred cols scores = Raise ValueError.
Proof.
  intros Hroc. revert scores. induction cols as [| i cols IH]; intros scores; cbn [auc_loop].
  - left. eexists. reflexivity.
  - destruct (two_valued y_true i); [| apply IH].
    destruct (roc_auc_score _ _) as [a | e] eqn:E; cbn [mbind except_bind bind].
    + apply IH.
    + right. rewrite (Hroc _ _ _ E). reflexivity.
Qed.

Lemma mean_auc_returns (y_true y_pred : ndarray Q) :
  Sklearn.raises_only_ValueError roc_auc_score ->
  exists v, mean_auc roc_auc_score y_true y_pred = Return v.
Proof.
  intros Hroc. unfold mean_auc.
  destruct (auc_loop_outcome y_true y_pred (seq 0 (shape1 y_true)) [] Hroc) as [[l ->] | ->];
    cbn; eexists; reflexivity.
Qed.



End AucLoop.

Section Returning.

Variable precision_recall_fscore_support :
  ndarray Q -> ndarray Z -> average -> except (npfloat * npfloat * npfloat).
Variable accuracy_score : ndarray Q -> ndarray Z -> except npfloat.
Variable roc_auc_score : list Q -> list Q -> except npfloat.

Lemma calculate_metrics_returns (y_true y_pred : ndarray Q)
      (p r f pm rm fm a v : npfloat) :
  precision_recall_fscore_support y_true (array_map binarize y_pred) macro = Return (p, r, f) ->
  precision_recall_fscore_support y_true (array_map binarize y_pred) micro = Return (pm, rm, fm) ->
  accuracy_score y_true (array_map binarize y_pred) = Return a ->
  mean_auc roc_auc_score y_true y_pred = Return v ->
  calculate_metrics precision_recall_fscore_support accuracy_score roc_auc_score y_true y_pred
  = Return
      {| precision := p; recall := r; f1 := f;
         precision_micro := pm; recall_micro := rm; f1_micro := fm;
         accuracy := a;
         subset_accuracy :=
           np_mean (map (fun r => of_bool (forallb id r))
                        (rows_eq y_true (array_map binarize y_pred)));
         hamming_loss :=
           np_mean (map (fun b => of_bool (negb b))
                        (concat (rows_eq y_true (array_map binarize y_pred))));
         auc := v |}.
Proof.
  intros H1 H2 H3 H4. unfold calculate_metrics. cbv zeta.
  rewrite H1. cbn [mbind except_bind bind]. rewrite H2. cbn [mbind except_bind bind].
  rewrite H3. cbn [mbind except_bind bind]. rewrite H4. reflexivity.
Qed.

End Returning.

Section ExactMatchAndHamming.

Lemma subset_accuracy_ratio (y_true : ndarray Q) (y_pred_binary : ndarray Z) :
  Is_true (same_shape y_true y_pred_binary) ->
  np_mean (map (fun r => of_bool (forallb id r)) (rows_eq y_true y_pred_binary))
  = ratio (matching_rows y_true y_pred_binary) (shape0 y_true).
Proof.
  intros Hs. destruct (same_shape_inv _ _ Hs) as (Ht & Hp & Hn).
  destruct (rows_eq_shape _ _ _ Ht Hp Hn) as [Hlen _].
  rewrite <- (map_map (forallb id) of_bool), np_mean_of_bool, length_map.
  unfold matching_rows, shape0, rows_eq in *. rewrite Hlen. reflexivity.
Qed.

Lemma hamming_loss_ratio (y_true : ndarray Q) (y_pred_binary : ndarray Z) :
  Is_true (same_shape y_true y_pred_binary) ->
  np_mean (map (fun b => of_bool (negb b)) (concat (rows_eq y_true y_pred_binary)))
  = ratio (differing_bits y_true y_pred_binary) (shape0 y_true * shape1 y_true).
Proof.
  intros Hs. destruct (same_shape_inv _ _ Hs) as (Ht & Hp & Hn).
  destruct (rows_eq_shape _ _ _ Ht Hp Hn) as [_ Hlen].
  rewrite <- (map_map negb of_bool), np_mean_of_bool, length_map.
  unfold differing_bits, shape0, rows_eq in *. rewrite Hlen. reflexivity.
Qed.

End ExactMatchAndHamming.

(** C4. For arrays of one shape N x C on which the scikit-learn calls
    return, [calculate_metrics] returns a report whose [subset_accuracy] is
    the number of rows on which the binarized prediction equals the ground
    truth in every label, out of N, and whose [hamming_loss] is the number of
    single label bits on which they differ, out of N * C.  For
    [y_true = [[1,0],[0,1]]] and a prediction that binarizes to
    [[0,0],[0,1]] the Hamming loss is 1/4. *)
Theorem subset_accuracy_and_hamming_loss
        (precision_recall_fscore_support :
           ndarray Q -> ndarray Z -> average -> except (npfloat * npfloat * npfloat))
        (accuracy_score : ndarray Q -> ndarray Z -> except npfloat)
        (roc_auc_score : list Q -> list Q -> except npfloat)
        (y_true y_pred : ndarray Q) (p r f pm rm fm a : npfloat) :
  Is_true (same_shape y_true y_pred) ->
  precision_recall_fscore_support y_true (array_map binarize y_pred) macro = Return (p, r, f) ->
  precision_recall_fscore_support y_true (array_map binarize y_pred) micro = Return (pm, rm, fm) ->
  accuracy_score y_true (array_map binarize y_pred) = Return a ->
  Sklearn.raises_only_ValueError roc_auc_score ->
  exists rep : MetricsReport,
    calculate_metrics precision_recall_fscore_support accuracy_score roc_auc_score
                      y_true y_pred = Return rep
    /\ subset_accuracy rep
       = ratio (matching_rows y_true (array_map binarize y_pred)) (shape0 y_true)
    /\ hamming_loss rep
       = ratio (differing_bits y_true (array_map binarize y_pred))
               (shape0 y_true * shape1 y_true)
    /\ (tolist y_true = [[1; 0]; [0; 1]]%Q ->
        map (map binarize) (tolist y_pred) = [[0; 0]; [0; 1]] ->
        hamming_loss rep = fin (1 # 4)).
Proof.
  intros Hs H1 H2 H3 Hroc.
  destruct (mean_auc_returns roc_auc_score y_true y_pred Hroc) as [v Hv].
  eexists. split; [apply calculate_metrics_returns; eassumption |].
  cbn [subset_accuracy hamming_loss].
  pose proof (array_map_shape binarize _ _ Hs) as Hs'.
  split; [apply subset_accuracy_ratio; exact Hs' |].
  split; [apply hamming_loss_ratio; exact Hs' |].
  intros Ht Hp. unfold rows_eq, array_map. cbn [tolist]. rewrite Ht, Hp.
  vm_compute. reflexivity.
Qed.

(** ** Distinct values *)

Section Unique.





End Unique.

(** ** The AUC stage *)

Section MeanAuc.

Variable roc_auc_score : list Q -> list Q -> except npfloat.





End MeanAuc.

Section ReportFields.

Variable precision_recall_fscore_support :
  ndarray Q -> ndarray Z -> average -> except (npfloat * npfloat * npfloat).
Variable accuracy_score : ndarray Q -> ndarray Z -> except npfloat.
Variable roc_auc_score : list Q -> list Q -> except npfloat.

(** What a returned report holds in the fields the function computes
    itself. *)
Lemma calculate_metrics_fields (y_true y_pred : ndarray Q) (rep : MetricsReport) :
  calculate_metrics precision_recall_fscore_support accuracy_score roc_auc_score
                    y_true y_pred = Return rep ->
  subset_accuracy rep
  = np_mean (map (fun r => of_bool (forallb id r))
                 (rows_eq y_true (array_map binarize y_pred)))
  /\ hamming_loss rep
     = np_mean (map (fun b => of_bool (negb b))
                    (concat (rows_eq y_true (array_map binarize y_pred))))
  /\ accuracy_score y_true (array_map binarize y_pred) = Return (accuracy rep)
  /\ mean_auc roc_auc_score y_true y_pred = Return (auc rep).
Proof.
  unfold calculate_metrics. cbv zeta.
  destruct (precision_recall_fscore_support y_true (array_map binarize y_pred) macro)
    as [[[p r] f] | e]; [| discriminate].
  cbn [mbind except_bind bind].
  destruct (precision_recall_fscore_support y_true (array_map binarize y_pred) micro)
    as [[[pm rm] fm] | e]; [| discriminate].
  cbn [mbind except_bind bind].
  destruct (accuracy_score y_true (array_map binarize y_pred)) as [a | e];
    [| discriminate].
  cbn [mbind except_bind bind].
  destruct (mean_auc roc_auc_score y_true y_pred) as [v | e]; [| discriminate].
  cbn [mbind except_bind bind]. intros [= <-]. cbn. auto.
Qed.

End ReportFields.

Section ZeroedAuc.

Variable roc_auc_score : list Q -> list Q -> except npfloat.

Lemma auc_loop_raises (y_true y_pred : ndarray Q) (cols : list nat)
      (scores : list npfloat) (i : nat) (e : exn) :
  In i cols ->
  two_valued y_true i = true ->
  roc_auc_score (column 0%Q y_true i) (column 0%Q y_pred i) = Raise e ->
  exists e', auc_loop roc_auc_score y_true y_pred cols scores = Raise e'.
Proof.
  intros Hin Htv Hraise. revert scores.
  induction cols as [| j cols IH]; intros scores; [destruct Hin |].
  cbn [auc_loop]. destruct Hin as [-> | Hin].
  - rewrite Htv, Hraise. cbn. eauto.
  - destruct (two_valued y_true j); [| apply IH; exact Hin].
    clear Hraise.
    destruct (roc_auc_score (column 0%Q y_true j) (column 0%Q y_pred j)) as [a | e0];
      cbn [mbind except_bind bind]; [apply IH; exact Hin | eauto].
Qed.

End ZeroedAuc.

(** ** The reference definitions meet the documentation *)

Section Reference.







Lemma reference_roc_auc_score_raises :
  Sklearn.raises_only_ValueError Sklearn.roc_auc_score.
Proof.
  intros y_true y_score e. unfold Sklearn.roc_auc_score.
  destruct (np_unique y_true) as [| a [| b [| c u]]]; intros [=]; congruence.
Qed.

End Reference.

Lemma subset_accuracy_and_hamming_loss_witness :
  exists rep : MetricsReport,
    calculate_metrics Sklearn.precision_recall_fscore_support Sklearn.accuracy_score
                      Sklearn.roc_auc_score y_true_2x2 y_pred_2x2 = Return rep
    /\ subset_accuracy rep = fin (1 # 2)
    /\ hamming_loss rep = fin (1 # 4).
Proof.
  destruct (subset_accuracy_and_hamming_loss
              Sklearn.precision_recall_fscore_support Sklearn.accuracy_score
              Sklearn.roc_auc_score y_true_2x2 y_pred_2x2
              (fin (1 # 2)) (fin (1 # 2)) (fin (1 # 2))
              (fin 1) (fin (1 # 2)) (fin (2 # 3)) (fin (1 # 2)))
    as (rep & Hrep & Hsub & _ & Hham).
  - vm_compute. exact I.
  - vm_compute. reflexivity.
  - vm_compute. reflexivity.
  - vm_compute. reflexivity.
  - exact reference_roc_auc_score_raises.
  - exists rep. split; [exact Hrep |]. split.
    + rewrite Hsub. vm_compute. reflexivity.
    + apply Hham; vm_compute; reflexivity.
Defined.

(** ** The AUC stage *)

Section AucStage.





End AucStage.




(** ** Accuracy *)

Section Accuracy.








End Accuracy.




(** ** The threshold *)

Section Threshold.

Lemma binarize_one (p : Q) : binarize p = 1 <-> (1 # 2 < p)%Q.
Proof.
  unfold binarize. destruct (Qle_bool p (1 # 2)) eqn:E.
  - apply Qle_bool_iff in E. split; [discriminate |].
    intros H. exfalso. exact (Qlt_not_le _ _ H E).
  - split; [intros _ | reflexivity].
    apply Qnot_le_lt. intros H. apply Qle_bool_iff in H. congruence.
Qed.

Lemma binarize_zero (p : Q) : binarize p = 0 <-> (p <= 1 # 2)%Q.
Proof.
  unfold binarize. destruct (Qle_bool p (1 # 2)) eqn:E.
  - apply Qle_bool_iff in E. split; [intros _; exact E | reflexivity].
  - split; [discriminate |]. intros H. apply Qle_bool_iff in H. congruence.
Qed.

Lemma binarize_replace_half (q p : Q) :
  (q <= 1 # 2)%Q -> binarize (if Qeq_bool p (1 # 2) then q else p) = binarize p.
Proof.
  intros Hq. destruct (Qeq_bool p (1 # 2)) eqn:E; [| reflexivity].
  apply Qeq_bool_iff in E.
  transitivity 0; [| symmetry]; apply binarize_zero; [exact Hq |].
  rewrite E. apply Qle_refl.
Qed.

Lemma array_map_replace_half (q : Q) (y_pred : ndarray Q) :
  (q <= 1 # 2)%Q ->
  array_map binarize (replace_half q y_pred) = array_map binarize y_pred.
Proof.
  intros Hq. unfold replace_half, array_map. cbn [shape1 tolist]. f_equal.
  rewrite map_map. apply map_ext. intros r. rewrite map_map.
  apply map_ext. intros p. apply binarize_replace_half. exact Hq.
Qed.

End Threshold.

(** C10, as the code has it.  A label is predicted exactly when its score is
    strictly above 0.5; a score of 0.5 is a negative prediction.  Every
    metric computed from the binarized prediction (precision, recall and F1,
    macro and micro, accuracy, subset accuracy, Hamming loss) is the same for
    two predictions that binarize alike, so in them a score of 0.5 counts as
    any other score of at most 0.5. *)
Theorem binarize_strict_threshold
        (precision_recall_fscore_support :
           ndarray Q -> ndarray Z -> average -> except (npfloat * npfloat * npfloat))
        (accuracy_score : ndarray Q -> ndarray Z -> except npfloat)
        (roc_auc_score : list Q -> list Q -> except npfloat) :
  (forall p : Q, binarize p = 1 <-> (1 # 2 < p)%Q)
  /\ (forall p : Q, binarize p = 0 <-> (p <= 1 # 2)%Q)
  /\ (forall p : Q, (p == 1 # 2)%Q -> binarize p = 0)
  /\ (forall (y_true y_pred y_pred' : ndarray Q),
         array_map binarize y_pred = array_map binarize y_pred' ->
         Sklearn.raises_only_ValueError roc_auc_score ->
         except_map thresholded
           (calculate_metrics precision_recall_fscore_support accuracy_score
                              roc_auc_score y_true y_pred)
         = except_map thresholded
             (calculate_metrics precision_recall_fscore_support accuracy_score
                                roc_auc_score y_true y_pred'))
  /\ (forall (q : Q) (y_true y_pred : ndarray Q),
         (q <= 1 # 2)%Q ->
         Sklearn.raises_only_ValueError roc_auc_score ->
         except_map thresholded
           (calculate_metrics precision_recall_fscore_support accuracy_score
                              roc_auc_score y_true y_pred)
         = except_map thresholded
             (calculate_metrics precision_recall_fscore_support accuracy_score
                                roc_auc_score y_true (replace_half q y_pred))).
Proof.
  split; [exact binarize_one |].
  split; [exact binarize_zero |].
  split.
  { intros p E. apply binarize_zero. rewrite E. apply Qle_refl. }
  assert (Hsame : forall y_true y_pred y_pred' : ndarray Q,
             array_map binarize y_pred = array_map binarize y_pred' ->
             Sklearn.raises_only_ValueError roc_auc_score ->
             except_map thresholded
               (calculate_metrics precision_recall_fscore_support accuracy_score
                                  roc_auc_score y_true y_pred)
             = except_map thresholded
                 (calculate_metrics precision_recall_fscore_support accuracy_score
                                    roc_auc_score y_true y_pred')).
  { intros y_true y_pred y_pred' Hbin Hroc.
    destruct (mean_auc_returns roc_auc_score y_true y_pred Hroc) as [v Hv].
    destruct (mean_auc_returns roc_auc_score y_true y_pred' Hroc) as [v' Hv'].
    unfold calculate_metrics. cbv zeta. rewrite Hv, Hv', Hbin.
    destruct (precision_recall_fscore_support y_true (array_map binarize y_pred') macro)
      as [[[p r] f] | e]; [| reflexivity].
    cbn [mbind except_bind bind].
    destruct (precision_recall_fscore_support y_true (array_map binarize y_pred') micro)
      as [[[pm rm] fm] | e]; [| reflexivity].
    cbn [mbind except_bind bind].
    destruct (accuracy_score y_true (array_map binarize y_pred')) as [a | e];
      reflexivity. }
  split; [exact Hsame |].
  intros q y_true y_pred Hq Hroc. apply Hsame; [| exact Hroc].
  symmetry. apply array_map_replace_half. exact Hq.
Qed.

Lemma binarize_strict_threshold_witness :
  binarize (1 # 2) = 0
  /\ binarize (51 # 100) = 1
  /\ except_map thresholded
       (calculate_metrics Sklearn.precision_recall_fscore_support Sklearn.accuracy_score
                          Sklearn.roc_auc_score y_true_2x2 y_pred_half)
     = except_map thresholded
         (calculate_metrics Sklearn.precision_recall_fscore_support Sklearn.accuracy_score
                            Sklearn.roc_auc_score y_true_2x2 (replace_half 0 y_pred_half)).
Proof.
  destruct (binarize_strict_threshold
              Sklearn.precision_recall_fscore_support Sklearn.accuracy_score
              Sklearn.roc_auc_score)
    as (Hone & _ & Hhalf & _ & Hrep).
  split; [apply Hhalf; reflexivity |].
  split; [apply Hone; reflexivity |].
  apply Hrep; [discriminate | exact reference_roc_auc_score_raises].
Defined.

(** C10 as stated fails for [auc], which is computed from the scores and not
    from the binarized prediction: a score of 0.5 on a positive sample ranks
    above the 0.3 of a negative one (AUC 1 for that class), a score of 0
    ranks below it (AUC 0 for that class), although both binarize to 0. *)
Lemma auc_ranks_a_half_score :
  array_map binarize y_pred_half = array_map binarize (replace_half 0 y_pred_half)
  /\ (exists rep rep' : MetricsReport,
         calculate_metrics Sklearn.precision_recall_fscore_support Sklearn.accuracy_score
                           Sklearn.roc_auc_score y_true_2x2 y_pred_half = Return rep
         /\ calculate_metrics Sklearn.precision_recall_fscore_support Sklearn.accuracy_score
                              Sklearn.roc_auc_score y_true_2x2 (replace_half 0 y_pred_half)
            = Return rep'
         /\ auc rep = fin 1
         /\ auc rep' = fin (1 # 2))
  /\ ~ (forall (y_true y_pred : ndarray Q),
           calculate_metrics Sklearn.precision_recall_fscore_support Sklearn.accuracy_score
                             Sklearn.roc_auc_score y_true y_pred
           = calculate_metrics Sklearn.precision_recall_fscore_support Sklearn.accuracy_score
                               Sklearn.roc_auc_score y_true (replace_half 0 y_pred)).
Proof.
  split; [vm_compute; reflexivity |].
  split.
  - eexists. eexists. split; [vm_compute; reflexivity |].
    split; [vm_compute; reflexivity |]. split; reflexivity.
  - intros H. specialize (H y_true_2x2 y_pred_half). vm_compute in H. discriminate H.
Qed.

(** * Further properties of the dataset pipeline *)

(** ** The class vocabulary *)

Section Vocabulary.

Lemma unique_from_elem (seen l : list string) (x : string) :
  x ∈ unique_from seen l <-> x ∈ l /\ x ∉ seen.
Proof.
  revert seen. induction l as [| y l IH]; intros seen; cbn [unique_from].
  - split; [intros H; inversion H | intros [H _]; inversion H].
  - destruct (existsb (String.eqb y) seen) eqn:E.
    + apply existsb_exists in E as [z [Hz Ez]]. apply String.eqb_eq in Ez. subst z.
      apply list_elem_of_In in Hz.
      rewrite IH, elem_of_cons. split; [tauto |].
      intros [[-> | H] Hn]; [contradiction | auto].
    + assert (Hy : y ∉ seen).
      { intros Hy. apply list_elem_of_In in Hy.
        assert (existsb (String.eqb y) seen = true); [| congruence].
        apply existsb_exists. exists y. split; [exact Hy | apply String.eqb_refl]. }
      rewrite !elem_of_cons, IH, elem_of_cons. split.
      * intros [-> | [H Hn]]; [tauto |]. split; [tauto |]. tauto.
      * intros [[-> | H] Hn]; [tauto |].
        destruct (String.eqb_spec x y) as [-> | Hxy]; [tauto |]. right. tauto.
Qed.

Lemma unique_from_NoDup (seen l : list string) : NoDup (unique_from seen l).
Proof.
  revert seen. induction l as [| y l IH]; intros seen; cbn [unique_from].
  - constructor.
  - destruct (existsb (String.eqb y) seen); [apply IH |].
    apply NoDup_cons. split; [| apply IH].
    rewrite unique_from_elem, elem_of_cons. tauto.
Qed.

Lemma insert_sorted_perm (x : string) (l : list string) :
  insert_sorted x l ≡ₚ x :: l.
Proof.
  induction l as [| y l IH]; cbn [insert_sorted]; [reflexivity |].
  destruct (String.ltb x y); [reflexivity |].
  rewrite IH. apply Permutation_swap.
Qed.

Lemma fold_insert_sorted_perm (r : list string) :
  fold_right insert_sorted [] r ≡ₚ r.
Proof.
  induction r as [| x r IH]; cbn [fold_right]; [reflexivity |].
  rewrite insert_sorted_perm, IH. reflexivity.
Qed.

Lemma sorted_perm (l : list string) : sorted l ≡ₚ l.
Proof.
  unfold sorted. rewrite fold_insert_sorted_perm.
  symmetry. apply Permutation_rev.
Qed.

End Vocabulary.

Section StringOrder.

Lemma ascii_compare_lt_trans (a b c : ascii) :
  Ascii.compare a b = Lt -> Ascii.compare b c = Lt -> Ascii.compare a c = Lt.
Proof.
  unfold Ascii.compare. rewrite !N.compare_lt_iff. apply N.lt_trans.
Qed.

Lemma string_compare_lt_trans (s1 s2 s3 : string) :
  String.compare s1 s2 = Lt -> String.compare s2 s3 = Lt -> String.compare s1 s3 = Lt.
Proof.
  revert s2 s3. induction s1 as [| a s1 IH]; intros [| b s2] [| c s3];
    cbn [String.compare]; try discriminate; try reflexivity.
  destruct (Ascii.compare a b) eqn:Eab; try discriminate;
    destruct (Ascii.compare b c) eqn:Ebc; try discriminate; intros H1 H2.
  - apply Ascii.compare_eq_iff in Eab, Ebc. subst.
    replace (Ascii.compare c c) with Eq; [eauto |].
    symmetry. unfold Ascii.compare. apply N.compare_refl.
  - apply Ascii.compare_eq_iff in Eab. subst. rewrite Ebc. reflexivity.
  - apply Ascii.compare_eq_iff in Ebc. subst. rewrite Eab. reflexivity.
  - rewrite (ascii_compare_lt_trans _ _ _ Eab Ebc). reflexivity.
Qed.

Lemma ltb_trans (s1 s2 s3 : string) :
  String.ltb s1 s2 = true -> String.ltb s2 s3 = true -> String.ltb s1 s3 = true.
Proof.
  unfold String.ltb.
  destruct (String.compare s1 s2) eqn:E12; try discriminate.
  destruct (String.compare s2 s3) eqn:E23; try discriminate.
  rewrite (string_compare_lt_trans _ _ _ E12 E23). reflexivity.
Qed.

Lemma not_ltb_leb (x y : string) : String.ltb x y = false -> String.leb y x = true.
Proof.
  unfold String.ltb, String.leb. rewrite (String.compare_antisym x y).
  destruct (String.compare y x); cbn; congruence.
Qed.

Lemma ltb_leb (x y : string) : String.ltb x y = true -> String.leb x y = true.
Proof.
  unfold String.ltb, String.leb. destruct (String.compare x y); congruence.
Qed.

Lemma leb_neq_ltb (x y : string) :
  String.leb x y = true -> x <> y -> String.ltb x y = true.
Proof.
  unfold String.ltb, String.leb. intros H Hn.
  destruct (String.compare x y) eqn:E; try congruence.
  apply String.compare_eq_iff in E. contradiction.
Qed.

Lemma insert_sorted_Sorted (x : string) (l : list string) :
  Sorted (fun a b => String.leb a b = true) l ->
  Sorted (fun a b => String.leb a b = true) (insert_sorted x l).
Proof.
  induction l as [| y l IH]; intros Hs; cbn [insert_sorted].
  - repeat constructor.
  - destruct (String.ltb x y) eqn:E.
    + constructor; [exact Hs |]. constructor. apply ltb_leb. exact E.
    + apply Sorted_inv in Hs as [Hs Hhd]. constructor; [apply IH; exact Hs |].
      destruct l as [| z l]; cbn [insert_sorted].
      * constructor. apply not_ltb_leb. exact E.
      * destruct (String.ltb x z); constructor.
        -- apply not_ltb_leb. exact E.
        -- apply HdRel_inv in Hhd. exact Hhd.
Qed.

Lemma sorted_Sorted (l : list string) :
  Sorted (fun a b => String.leb a b = true) (sorted l).
Proof.
  unfold sorted. induction (rev l) as [| x r IH]; cbn [fold_right].
  - constructor.
  - apply insert_sorted_Sorted. exact IH.
Qed.

(** A list without duplicates that ascends weakly ascends strictly, between
    any two positions. *)
Lemma Sorted_NoDup_strict (l : list string) :
  Sorted (fun a b => String.leb a b = true) l ->
  NoDup l ->
  StronglySorted (fun a b => String.ltb a b = true) l.
Proof.
  intros Hs Hn. apply Sorted_StronglySorted.
  - intros a b c. apply ltb_trans.
  - induction Hs as [| a l Hs IH Hhd]; [constructor |].
    apply NoDup_cons in Hn as [Ha Hn]. constructor; [apply IH; exact Hn |].
    destruct Hhd as [| b l Hab]; constructor.
    apply leb_neq_ltb; [exact Hab |]. intros ->. apply Ha. left.
Qed.

End StringOrder.

Section DerivedRegistry.

Lemma created_classes (metadata : DataFrame) (ci : ClassInfo) :
  _create_class_info metadata = Return ci
  \/ PlantVillage_create_class_info metadata = Return ci ->
  In "class_name" (columns metadata)
  /\ classes ci = sorted (unique (map class_name (rows metadata)))
  /\ class_to_idx ci = dict_of_enumerate (classes ci)
  /\ num_classes ci = Z.of_nat (length (classes ci)).
Proof.
  unfold _create_class_info, PlantVillage_create_class_info, getcol.
  destruct (existsb (String.eqb "class_name") (columns metadata)) eqn:E;
    cbn [mbind except_bind bind]; intros [H | H]; try discriminate H.
  all: apply existsb_exists in E as [c [Hc Ec]]; apply String.eqb_eq in Ec; subst c.
  all: injection H as <-; cbn; auto.
Qed.

Lemma create_class_info_KeyError (metadata : DataFrame) :
  ~ In "class_name" (columns metadata) ->
  _create_class_info metadata = Raise KeyError
  /\ PlantVillage_create_class_info metadata = Raise KeyError.
Proof.
  intros Hn. unfold _create_class_info, PlantVillage_create_class_info, getcol.
  destruct (existsb (String.eqb "class_name") (columns metadata)) eqn:E.
  - apply existsb_exists in E as [c [Hc Ec]]. apply String.eqb_eq in Ec. subst c.
    contradiction.
  - split; reflexivity.
Qed.

Lemma create_class_info_returns (metadata : DataFrame) :
  In "class_name" (columns metadata) ->
  exists ci, _create_class_info metadata = Return ci.
Proof.
  intros Hc. unfold _create_class_info, getcol.
  replace (existsb (String.eqb "class_name") (columns metadata)) with true.
  - cbn [mbind except_bind bind]. eexists. reflexivity.
  - symmetry. apply existsb_exists. exists "class_name".
    split; [exact Hc | apply String.eqb_refl].
Qed.

Lemma derived_classes_elem (metadata : DataFrame) (c : string) :
  c ∈ sorted (unique (map class_name (rows metadata)))
  <-> exists r, r ∈ rows metadata /\ class_name r = c.
Proof.
  rewrite sorted_perm. unfold unique. rewrite unique_from_elem.
  change (map class_name ?l) with (class_name <$> l). rewrite list_elem_of_fmap.
  split.
  - intros [[r [-> Hr]] _]. eauto.
  - intros [r [Hr <-]]. split; [eauto |]. intros H. inversion H.
Qed.

Lemma derived_classes_NoDup (metadata : DataFrame) :
  NoDup (sorted (unique (map class_name (rows metadata)))).
Proof. rewrite sorted_perm. apply unique_from_NoDup. Qed.

(** Every name of the list is a key of the dict comprehension. *)
Lemma enumerate_fold_key (l : list string) (s : Z) (m : gmap string Z) (c : string) :
  c ∈ l \/ is_Some (m !! c) ->
  is_Some (fold_left (fun (m : gmap string Z) (p : Z * string) => <[snd p := fst p]> m)
                     (enumerate_from s l) m !! c).
Proof.
  revert s m. induction l as [| x l IH]; intros s m; cbn [enumerate_from fold_left].
  - intros [H | H]; [inversion H | exact H].
  - intros H. apply IH. cbn [fst snd].
    destruct (decide (x = c)) as [-> | Hx].
    + right. rewrite lookup_insert_eq. eauto.
    + rewrite lookup_insert_ne by exact Hx.
      destruct H as [H | H]; [| auto].
      apply elem_of_cons in H as [-> | H]; [contradiction | auto].
Qed.

Lemma dict_of_enumerate_key (l : list string) (c : string) :
  c ∈ l -> is_Some (dict_of_enumerate l !! c).
Proof. intros H. apply enumerate_fold_key. left. exact H. Qed.

Lemma dict_of_enumerate_position (l : list string) (c : string) (i : Z) :
  NoDup l ->
  (dict_of_enumerate l !! c = Some i <-> 0 <= i /\ l !! Z.to_nat i = Some c).
Proof.
  intros Hn. split.
  - intros H. apply dict_of_enumerate_lookup in H. split; [lia | tauto].
  - intros [Hi Hl].
    destruct (dict_of_enumerate_key l c (list_elem_of_lookup_2 _ _ _ Hl)) as [j Hj].
    pose proof (dict_of_enumerate_lookup _ _ _ Hj) as [Hr Hpos].
    pose proof (NoDup_lookup _ _ _ _ Hn Hl Hpos) as E.
    rewrite Hj. f_equal. lia.
Qed.

End DerivedRegistry.

(** X1. The vocabulary [_create_class_info] derives: the call returns exactly
    when the metadata has a [class_name] column and raises [KeyError]
    otherwise; the classes are the class names of the rows, each once, in
    strictly ascending order, and [num_classes] is their number. *)
Theorem create_class_info_vocabulary (metadata : DataFrame) :
  (~ In "class_name" (columns metadata) ->
   _create_class_info metadata = Raise KeyError)
  /\ (In "class_name" (columns metadata) ->
      exists ci : ClassInfo,
        _create_class_info metadata = Return ci
        /\ StronglySorted (fun a b => String.ltb a b = true) (classes ci)
        /\ NoDup (classes ci)
        /\ (forall c : string,
               c ∈ classes ci <-> exists r, r ∈ rows metadata /\ class_name r = c)
        /\ num_classes ci = Z.of_nat (length (classes ci))).
Proof.
  split; [intros H; apply (create_class_info_KeyError metadata H) |].
  intros Hc. destruct (create_class_info_returns metadata Hc) as [ci Hci].
  exists ci. split; [exact Hci |].
  destruct (created_classes metadata ci (or_introl Hci)) as (_ & Hcl & _ & Hn).
  rewrite Hcl.
  split; [apply Sorted_NoDup_strict; [apply sorted_Sorted | apply derived_classes_NoDup] |].
  split; [apply derived_classes_NoDup |].
  split; [apply derived_classes_elem |].
  rewrite <- Hcl. exact Hn.
Qed.

Lemma create_class_info_vocabulary_witness :
  exists ci : ClassInfo,
    _create_class_info two_rows = Return ci
    /\ classes ci = ["Apple_rust"; "Tomato_healthy"]
    /\ NoDup (classes ci).
Proof.
  destruct (create_class_info_vocabulary two_rows) as [_ H].
  destruct H as (ci & Hci & _ & Hnd & _).
  - cbn. auto.
  - exists ci. split; [exact Hci |]. split; [| exact Hnd].
    vm_compute in Hci. injection Hci as <-. reflexivity.
Defined.

(** X2. In a registry derived from the metadata, [class_to_idx] and the
    class list are inverse to each other: a class has index [i] exactly when
    it stands at position [i] of the sorted class list.  So the indices of
    the keys are the numbers 0 .. num_classes - 1, each used once. *)
Theorem class_to_idx_is_position (metadata : DataFrame) (ci : ClassInfo)
        (c : string) (i : Z) :
  _create_class_info metadata = Return ci
  \/ PlantVillage_create_class_info metadata = Return ci ->
  (class_to_idx ci !! c = Some i
   <-> 0 <= i < num_classes ci /\ classes ci !! Z.to_nat i = Some c).
Proof.
  intros Hci. destruct (created_classes metadata ci Hci) as (_ & Hcl & Hidx & Hn).
  rewrite Hidx, Hn.
  assert (Hnd : NoDup (classes ci)) by (rewrite Hcl; apply derived_classes_NoDup).
  rewrite (dict_of_enumerate_position _ _ _ Hnd). split.
  - intros [Hi Hl]. split; [| exact Hl].
    apply lookup_lt_Some in Hl. lia.
  - intros [Hi Hl]. split; [lia | exact Hl].
Qed.

Lemma class_to_idx_is_position_witness :
  exists ci : ClassInfo,
    _create_class_info two_rows = Return ci
    /\ class_to_idx ci !! "Tomato_healthy" = Some 1.
Proof.
  destruct (_create_class_info two_rows) as [ci | e] eqn:E;
    [| vm_compute in E; discriminate E].
  exists ci. split; [reflexivity |].
  apply (class_to_idx_is_position two_rows ci "Tomato_healthy" 1 (or_introl E)).
  injection E as <-. vm_compute. split; [split; discriminate + reflexivity | reflexivity].
Defined.

(** X3. With the registry derived from the metadata, every row of the
    metadata (so every sample of every split) has a label: its class name is
    a key, and [_create_label] returns the one-hot vector of length
    [num_classes] for it, raising neither [KeyError] nor [IndexError]. *)
Theorem every_row_has_a_label (metadata : DataFrame) (ci : ClassInfo)
        (row : SampleRecord) :
  _create_class_info metadata = Return ci
  \/ PlantVillage_create_class_info metadata = Return ci ->
  row ∈ rows metadata ->
  exists (i : Z) (v : tensor),
    class_to_idx ci !! class_name row = Some i
    /\ _create_label ci (class_name row) = Return v
    /\ Z.of_nat (length v) = num_classes ci
    /\ v !! Z.to_nat i = Some 1%Q
    /\ (forall j : nat, j <> Z.to_nat i -> (j < length v)%nat -> v !! j = Some 0%Q).
Proof.
  intros Hci Hrow. destruct (created_classes metadata ci Hci) as (_ & Hcl & Hidx & Hn).
  assert (Hin : class_name row ∈ classes ci).
  { rewrite Hcl. apply derived_classes_elem. eauto. }
  destruct (dict_of_enumerate_key _ _ Hin) as [i Hi]. rewrite <- Hidx in Hi.
  pose proof Hi as Hi'. rewrite Hidx in Hi'.
  apply dict_of_enumerate_lookup in Hi' as [Hr _]. rewrite <- Hn in Hr.
  destruct (create_label_in_range ci (class_name row) i Hi Hr) as (v & Hv).
  exists i, v. split; [exact Hi | exact Hv].
Qed.

Lemma every_row_has_a_label_witness :
  exists (ci : ClassInfo) (v : tensor),
    _create_class_info two_rows = Return ci
    /\ _create_label ci "Apple_rust" = Return v
    /\ v !! 0%nat = Some 1%Q.
Proof.
  destruct (_create_class_info two_rows) as [ci | e] eqn:E;
    [| vm_compute in E; discriminate E].
  destruct (every_row_has_a_label two_rows ci
              {| image_path := "Apple_rust/b.jpg"; class_name := "Apple_rust"; split := "val" |}
              (or_introl E))
    as (i & v & Hi & Hv & _ & H1 & _).
  - cbn. right. left.
  - exists ci, v. split; [reflexivity |]. split; [exact Hv |].
    injection E as <-. vm_compute in Hi. injection Hi as <-. exact H1.
Defined.

(** ** Partitions by a key *)

Section Partition.

Context {A : Type} (f : A -> string).

Lemma filters_skip (ks : list string) (x : A) (l : list A) :
  f x ∉ ks ->
  concat (map (fun k => filter (fun y => f y = k) (x :: l)) ks)
  = concat (map (fun k => filter (fun y => f y = k) l) ks).
Proof.
  induction ks as [| k ks IH]; intros Hn; cbn [map concat]; [reflexivity |].
  rewrite not_elem_of_cons in Hn. destruct Hn as [Hk Hn].
  rewrite filter_cons_False by exact Hk. rewrite IH by exact Hn. reflexivity.
Qed.

Lemma filters_cons (ks : list string) (x : A) (l : list A) :
  NoDup ks ->
  f x ∈ ks ->
  concat (map (fun k => filter (fun y => f y = k) (x :: l)) ks)
  ≡ₚ x :: concat (map (fun k => filter (fun y => f y = k) l) ks).
Proof.
  induction ks as [| k ks IH]; intros Hn Hin; [inversion Hin |].
  apply NoDup_cons in Hn as [Hk Hn]. cbn [map concat].
  destruct (decide (f x = k)) as [E | E].
  - rewrite filter_cons_True by exact E.
    rewrite filters_skip by (rewrite E; exact Hk). reflexivity.
  - rewrite filter_cons_False by exact E.
    apply elem_of_cons in Hin as [Hin | Hin]; [contradiction |].
    rewrite (IH Hn Hin). symmetry. apply Permutation_middle.
Qed.

(** The sublists of the entries with each key, put together, are the list
    again, up to order. *)
Lemma filters_partition (ks : list string) (l : list A) :
  NoDup ks ->
  (forall x, x ∈ l -> f x ∈ ks) ->
  concat (map (fun k => filter (fun y => f y = k) l) ks) ≡ₚ l.
Proof.
  intros Hn. induction l as [| x l IH]; intros Hin.
  - clear Hn Hin. induction ks as [| k ks IHk]; cbn [map concat]; [reflexivity |].
    rewrite filter_nil. exact IHk.
  - rewrite filters_cons; [| exact Hn | apply Hin; left].
    rewrite IH; [reflexivity |]. intros y Hy. apply Hin. right. exact Hy.
Qed.

End Partition.

(** ** Splits *)

Section Splits.

Lemma filter_split_rows (metadata : DataFrame) (s : string) :
  In "split" (columns metadata) ->
  _filter_split_data metadata s
  = Return {| columns := columns metadata;
              rows := filter (fun r => split r = s) (rows metadata) |}.
Proof.
  intros Hc. unfold _filter_split_data, getcol.
  replace (existsb (String.eqb "split") (columns metadata)) with true.
  - cbn [mbind except_bind bind]. do 2 f_equal.
    apply list_filter_iff. intros r. split.
    + intros H. apply Is_true_true_1, String.eqb_eq in H. exact H.
    + intros ->. rewrite String.eqb_refl. exact I.
  - symmetry. apply existsb_exists. exists "split".
    split; [exact Hc | apply String.eqb_refl].
Qed.

Lemma filter_split_KeyError (metadata : DataFrame) (s : string) :
  ~ In "split" (columns metadata) -> _filter_split_data metadata s = Raise KeyError.
Proof.
  intros Hn. unfold _filter_split_data, getcol.
  destruct (existsb (String.eqb "split") (columns metadata)) eqn:E; [| reflexivity].
  apply existsb_exists in E as [c [Hc Ec]]. apply String.eqb_eq in Ec. subst c.
  contradiction.
Qed.

Lemma synthesized_split_name (key : hash_secret) (root : list (string * node))
      (r : SampleRecord) :
  r ∈ rows (_create_metadata_from_structure key root) ->
  split r ∈ ["train"; "val"; "test"].
Proof.
  intros H. apply list_elem_of_In in H.
  destruct (synthesized_row key root r H) as (d & f & _ & _ & ->).
  destruct (assign_split_cases key [d; f]) as [[_ E] | [[_ E] | [_ E]]];
    rewrite E; set_solver.
Qed.

Lemma synthesized_columns (key : hash_secret) (root : list (string * node)) :
  rows (_create_metadata_from_structure key root) <> [] ->
  columns (_create_metadata_from_structure key root)
  = ["image_path"; "class_name"; "split"].
Proof.
  unfold _create_metadata_from_structure, DataFrame_of. cbn [rows columns].
  destruct (flat_map _ root); [congruence | reflexivity].
Qed.

End Splits.

(** X4. On synthesized metadata that has at least one row the three split
    views exist and partition it: every row is in exactly one of the views
    for [train], [val] and [test], so the three lengths add up to the number
    of rows, and each view holds the rows of its split in metadata order. *)
Theorem split_views_partition (key : hash_secret) (root : list (string * node)) :
  let metadata := _create_metadata_from_structure key root in
  rows metadata <> [] ->
  exists train val test : DataFrame,
    _filter_split_data metadata "train" = Return train
    /\ _filter_split_data metadata "val" = Return val
    /\ _filter_split_data metadata "test" = Return test
    /\ rows train = filter (fun r => split r = "train") (rows metadata)
    /\ rows val = filter (fun r => split r = "val") (rows metadata)
    /\ rows test = filter (fun r => split r = "test") (rows metadata)
    /\ rows train ++ rows val ++ rows test ≡ₚ rows metadata
    /\ (length (rows train) + length (rows val) + length (rows test)
        = length (rows metadata))%nat.
Proof.
  cbv zeta. intros Hne.
  assert (Hc : In "split" (columns (_create_metadata_from_structure key root))).
  { rewrite (synthesized_columns key root Hne). cbn. auto. }
  do 3 eexists.
  split; [apply filter_split_rows; exact Hc |].
  split; [apply filter_split_rows; exact Hc |].
  split; [apply filter_split_rows; exact Hc |].
  cbn [rows]. split; [reflexivity |]. split; [reflexivity |]. split; [reflexivity |].
  assert (Hp : filter (fun r => split r = "train")
                      (rows (_create_metadata_from_structure key root))
               ++ filter (fun r => split r = "val")
                         (rows (_create_metadata_from_structure key root))
               ++ filter (fun r => split r = "test")
                         (rows (_create_metadata_from_structure key root))
               ≡ₚ rows (_create_metadata_from_structure key root)).
  { pose proof (filters_partition split ["train"; "val"; "test"]
                  (rows (_create_metadata_from_structure key root))) as H.
    cbn [map concat] in H. rewrite app_nil_r in H. apply H.
    - compute_done.
    - intros r Hr. apply (synthesized_split_name key root r Hr). }
  split; [exact Hp |].
  rewrite <- (Permutation_length Hp), !length_app. lia.
Qed.

Lemma split_views_partition_witness :
  exists train val test : DataFrame,
    _filter_split_data (_create_metadata_from_structure (secret_of_seed 0) mixed_root) "train"
    = Return train
    /\ _filter_split_data (_create_metadata_from_structure (secret_of_seed 0) mixed_root) "val"
       = Return val
    /\ _filter_split_data (_create_metadata_from_structure (secret_of_seed 0) mixed_root) "test"
       = Return test
    /\ (length (rows train) + length (rows val) + length (rows test) = 1)%nat.
Proof.
  destruct (split_views_partition (secret_of_seed 0) mixed_root)
    as (tr & va & te & H1 & H2 & H3 & _ & _ & _ & _ & Hlen).
  - vm_compute. discriminate.
  - exists tr, va, te. split; [exact H1 |]. split; [exact H2 |]. split; [exact H3 |].
    rewrite Hlen. vm_compute. reflexivity.
Defined.

(** X5. A data set over a root that has no [metadata.csv] and no entry named
    [*.jpg] in any visible class directory (an empty directory, say) cannot
    be constructed: the synthesized table has no columns, so [__init__]
    raises [KeyError], from [_create_class_info] when there is no
    [class_info.json] and from [_filter_split_data] when there is one; only
    an error of reading [class_info.json] comes first. *)
Theorem init_without_images_raises
        (key : hash_secret) (read_csv : node -> except DataFrame)
        (json_load : node -> except ClassInfo)
        (root : list (string * node)) (split_ : string) :
  find_in root "metadata.csv" = None ->
  (forall d n f nd,
      (d, n) ∈ root -> is_dir n = true -> startswith "." d = false ->
      (f, nd) ∈ children_of n -> endswith ".jpg" f = false) ->
  (forall ds, __init__ key read_csv json_load root split_ <> Return ds)
  /\ (find_in root "class_info.json" = None ->
      __init__ key read_csv json_load root split_ = Raise KeyError)
  /\ (forall f ci,
         find_in root "class_info.json" = Some f -> json_load f = Return ci ->
         __init__ key read_csv json_load root split_ = Raise KeyError)
  /\ (forall f e,
         find_in root "class_info.json" = Some f -> json_load f = Raise e ->
         __init__ key read_csv json_load root split_ = Raise e).
Proof.
  intros Hmeta Hjpg.
  assert (Hrows : rows (_create_metadata_from_structure key root) = []).
  { rewrite (synthesized_rows key).
    destruct (flat_map (rows_of_entry key) root) as [| r l] eqn:E; [reflexivity |].
    assert (Hr : r ∈ flat_map (rows_of_entry key) root) by (rewrite E; left).
    apply synthesized_elem in Hr as (d & n & f & nd & H1 & H2 & H3 & H4 & H5 & _).
    rewrite (Hjpg d n f nd H1 H2 H3 H4) in H5. discriminate H5. }
  assert (Hmd : _create_metadata_from_structure key root = {| columns := []; rows := [] |}).
  { unfold _create_metadata_from_structure, DataFrame_of in *. cbn [rows] in Hrows.
    rewrite Hrows. reflexivity. }
  assert (H1 : find_in root "class_info.json" = None ->
               __init__ key read_csv json_load root split_ = Raise KeyError).
  { intros Hci. unfold __init__, _load_metadata, _load_class_info.
    rewrite Hmeta. cbn [mbind except_bind bind]. rewrite Hci, Hmd. reflexivity. }
  assert (H2 : forall f ci,
             find_in root "class_info.json" = Some f -> json_load f = Return ci ->
             __init__ key read_csv json_load root split_ = Raise KeyError).
  { intros f ci Hci Hload. unfold __init__, _load_metadata, _load_class_info.
    rewrite Hmeta. cbn [mbind except_bind bind]. rewrite Hci, Hload, Hmd. reflexivity. }
  assert (H3 : forall f e,
             find_in root "class_info.json" = Some f -> json_load f = Raise e ->
             __init__ key read_csv json_load root split_ = Raise e).
  { intros f e Hci Hload. unfold __init__, _load_metadata, _load_class_info.
    rewrite Hmeta. cbn [mbind except_bind bind]. rewrite Hci, Hload. reflexivity. }
  split; [| auto].
  intros ds Hds.
  destruct (find_in root "class_info.json") as [f |] eqn:Hci.
  - destruct (json_load f) as [ci | e] eqn:Hload.
    + rewrite (H2 f ci eq_refl Hload) in Hds. discriminate Hds.
    + rewrite (H3 f e eq_refl Hload) in Hds. discriminate Hds.
  - rewrite (H1 eq_refl) in Hds. discriminate Hds.
Qed.

Lemma init_without_images_raises_witness :
  __init__ (secret_of_seed 0) no_file no_file [] "train" = Raise KeyError
  /\ __init__ (secret_of_seed 0) no_file no_file
              [("Tomato", Dir [("leaf.png", File true)])] "train" = Raise KeyError.
Proof.
  split.
  - destruct (init_without_images_raises (secret_of_seed 0) no_file no_file [] "train")
      as (_ & H & _).
    + reflexivity.
    + intros d n f nd H. inversion H.
    + apply H. reflexivity.
  - destruct (init_without_images_raises (secret_of_seed 0) no_file no_file
                [("Tomato", Dir [("leaf.png", File true)])] "train")
      as (_ & H & _).
    + reflexivity.
    + intros d n f nd H _ _ Hf. apply list_elem_of_In in H. cbn in H.
      destruct H as [[= <- <-] | []]. apply list_elem_of_In in Hf. cbn in Hf.
      destruct Hf as [[= <- <-] | []]. vm_compute. reflexivity.
    + apply H. reflexivity.
Defined.

(** X6. The metadata and the class registry of a data set do not depend on
    the split it is opened for: if [__init__] returns for one split it
    returns for every split, with the same metadata and the same registry,
    and with the rows of the requested split as data.  So a class keeps its
    index across train, val and test. *)
Theorem init_registry_independent_of_split
        (key : hash_secret) (read_csv : node -> except DataFrame)
        (json_load : node -> except ClassInfo)
        (root : list (string * node)) (s1 s2 : string) (a : PlantDiseaseDataset) :
  __init__ key read_csv json_load root s1 = Return a ->
  exists b : PlantDiseaseDataset,
    __init__ key read_csv json_load root s2 = Return b
    /\ metadata b = metadata a
    /\ class_info b = class_info a
    /\ rows (data a) = filter (fun r => split r = s1) (rows (metadata a))
    /\ rows (data b) = filter (fun r => split r = s2) (rows (metadata a)).
Proof.
  unfold __init__.
  destruct (_load_metadata key read_csv root) as [md | e]; [| discriminate].
  cbn [mbind except_bind bind].
  destruct (_load_class_info json_load root md) as [ci | e]; [| discriminate].
  cbn [mbind except_bind bind].
  destruct (in_dec string_dec "split" (columns md)) as [Hc | Hn].
  - rewrite !(filter_split_rows md _ Hc). cbn [mbind except_bind bind].
    intros [= <-]. eexists. split; [reflexivity |]. cbn. auto.
  - rewrite (filter_split_KeyError md s1 Hn). discriminate.
Qed.

Lemma init_registry_independent_of_split_witness :
  exists b : PlantDiseaseDataset,
    __init__ (secret_of_seed 0) no_file no_file one_image_root "val" = Return b
    /\ class_info b = class_info one_sample_dataset
    /\ rows (data b) = [].
Proof.
  destruct (init_registry_independent_of_split
              (secret_of_seed 0) no_file no_file one_image_root "train" "val"
              one_sample_dataset init_one_image_root)
    as (b & Hb & _ & Hci & _ & Hrows).
  exists b. split; [exact Hb |]. split; [exact Hci |].
  rewrite Hrows. vm_compute. reflexivity.
Defined.

(** X7. [__getitem__] never returns a sample.  Its conversion step calls
    [np.array], and the module binds no name [np]: for a row that is found
    and an image that opens the call raises [NameError], whatever the
    transform; otherwise it raises the error of the row lookup or of opening
    the image. *)
Theorem getitem_never_returns
        (Image_open : string -> except image)
        (transform : option (image -> except tensor))
        (self : PlantDiseaseDataset) (idx : Z) :
  (forall sample, __getitem__ Image_open transform self idx <> Return sample)
  /\ (forall row img,
         iloc (data self) idx = Return row ->
         Image_open (image_path row) = Return img ->
         __getitem__ Image_open transform self idx = Raise NameError)
  /\ (forall row e,
         iloc (data self) idx = Return row ->
         Image_open (image_path row) = Raise e ->
         __getitem__ Image_open transform self idx = Raise e).
Proof.
  unfold __getitem__. split; [| split].
  - intros sample.
    destruct (iloc (data self) idx) as [row | e]; [| discriminate].
    cbn [mbind except_bind bind].
    destruct (Image_open (image_path row)) as [img | e]; discriminate.
  - intros row img -> . cbn [mbind except_bind bind]. intros ->. reflexivity.
  - intros row e ->. cbn [mbind except_bind bind]. intros ->. reflexivity.
Qed.

Lemma getitem_never_returns_witness :
  __getitem__ blank_image None one_sample_dataset 0 = Raise NameError.
Proof.
  destruct (getitem_never_returns blank_image None one_sample_dataset 0) as (_ & H & _).
  apply (H one_sample [[(0, 0, 0)]]); reflexivity.
Defined.

(** * Further properties of the metrics *)

Section Ratios.

Lemma count_true_le (l : list bool) : (count_true l <= length l)%nat.
Proof.
  induction l as [| b l IH]; [cbn; lia |].
  rewrite count_true_cons. cbn [length]. destruct b; lia.
Qed.

Lemma count_true_none (l : list bool) :
  count_true l = 0%nat <-> forall b, In b l -> b = false.
Proof.
  induction l as [| b l IH]; [split; [intros _ ? [] | reflexivity] |].
  rewrite count_true_cons. destruct b.
  - split; [discriminate |]. intros H. specialize (H true (or_introl eq_refl)).
    discriminate H.
  - rewrite IH. split.
    + intros H b [<- | Hb]; [reflexivity | apply H; exact Hb].
    + intros H b Hb. apply H. right. exact Hb.
Qed.

Lemma count_true_all (l : list bool) :
  count_true l = length l <-> forall b, In b l -> b = true.
Proof.
  induction l as [| b l IH]; [split; [intros _ ? [] | reflexivity] |].
  rewrite count_true_cons. cbn [length]. pose proof (count_true_le l) as Hle.
  destruct b.
  - split.
    + intros H b [<- | Hb]; [reflexivity |]. apply IH; [lia | exact Hb].
    + intros H. f_equal. apply IH. intros b Hb. apply H. right. exact Hb.
  - split; [lia |]. intros H. specialize (H false (or_introl eq_refl)).
    discriminate H.
Qed.

Lemma ratio_zero (k n : nat) : (0 < n)%nat -> (ratio k n = fin 0 <-> k = 0%nat).
Proof.
  intros Hn. destruct n as [| n]; [lia |]. unfold ratio. split.
  - intros [= H]. pose proof (Qred_correct (Z.of_nat k # Pos.of_nat (S n))) as Hq.
    rewrite H in Hq. unfold Qeq in Hq. cbn [Qnum Qden] in Hq. lia.
  - intros ->. reflexivity.
Qed.

Lemma ratio_one (k n : nat) : (0 < n)%nat -> (ratio k n = fin 1 <-> k = n).
Proof.
  intros Hn. destruct n as [| n]; [lia |]. unfold ratio. split.
  - intros [= H]. pose proof (Qred_correct (Z.of_nat k # Pos.of_nat (S n))) as Hq.
    rewrite H in Hq. unfold Qeq in Hq. cbn [Qnum Qden] in Hq.
    rewrite Pos2Z.inj_mul in Hq || idtac.
    assert (Z.pos (Pos.of_nat (S n)) = Z.of_nat (S n)) as E
      by (rewrite <- Pos.of_nat_succ; apply Zpos_P_of_succ_nat || lia).
    lia.
  - intros ->. f_equal. change 1%Q with (Qred 1). apply Qred_complete.
    unfold Qeq. cbn [Qnum Qden]. rewrite <- Pos.of_nat_succ. lia.
Qed.

Lemma ratio_unit_interval (k n : nat) :
  (0 < n)%nat -> (k <= n)%nat ->
  exists q : Q, ratio k n = fin q /\ (0 <= q)%Q /\ (q <= 1)%Q.
Proof.
  intros Hn Hk. destruct n as [| n]; [lia |]. unfold ratio.
  eexists. split; [reflexivity |].
  rewrite (Qred_correct (Z.of_nat k # Pos.of_nat (S n))).
  unfold Qle. cbn [Qnum Qden]. rewrite <- Pos.of_nat_succ. split; lia.
Qed.

End Ratios.

Section PerfectPrediction.

Lemma no_differing_bit_iff_all_rows_match (rs : list (list bool)) :
  count_true (map negb (concat rs)) = 0%nat
  <-> count_true (map (forallb id) rs) = length rs.
Proof.
  rewrite count_true_none. rewrite <- (length_map (forallb id) rs), count_true_all.
  split.
  - intros H b Hb. apply in_map_iff in Hb as [r [<- Hr]].
    apply forallb_forall. intros x Hx. unfold id.
    destruct x; [reflexivity |].
    assert (true = false); [| discriminate].
    apply H. apply in_map_iff. exists false. split; [reflexivity |].
    apply in_concat. eauto.
  - intros H b Hb. apply in_map_iff in Hb as [x [<- Hx]].
    apply in_concat in Hx as [r [Hr Hx]].
    assert (Hall : forallb id r = true) by (apply H, in_map, Hr).
    rewrite forallb_forall in Hall. specialize (Hall x Hx). unfold id in Hall.
    rewrite Hall. reflexivity.
Qed.

End PerfectPrediction.

(** X9. In a report for arrays of one shape N x C with N and C at least 1,
    [subset_accuracy] and [hamming_loss] are numbers between 0 and 1, and
    the Hamming loss is 0 exactly when the subset accuracy is 1: no label
    bit differs exactly when every row matches. *)
Theorem hamming_zero_iff_exact_match
        (precision_recall_fscore_support :
           ndarray Q -> ndarray Z -> average -> except (npfloat * npfloat * npfloat))
        (accuracy_score : ndarray Q -> ndarray Z -> except npfloat)
        (roc_auc_score : list Q -> list Q -> except npfloat)
        (y_true y_pred : ndarray Q) (rep : MetricsReport) :
  Is_true (same_shape y_true y_pred) ->
  (1 <= shape0 y_true)%nat ->
  (1 <= shape1 y_true)%nat ->
  calculate_metrics precision_recall_fscore_support accuracy_score roc_auc_score
                    y_true y_pred = Return rep ->
  (hamming_loss rep = fin 0 <-> subset_accuracy rep = fin 1)
  /\ (exists h s : Q,
         hamming_loss rep = fin h /\ subset_accuracy rep = fin s
         /\ (0 <= h)%Q /\ (h <= 1)%Q /\ (0 <= s)%Q /\ (s <= 1)%Q).
Proof.
  intros Hs Hn Hc Hrep.
  destruct (calculate_metrics_fields _ _ _ _ _ _ Hrep) as (Hsub & Hham & _).
  pose proof (array_map_shape binarize _ _ Hs) as Hs'.
  rewrite (subset_accuracy_ratio _ _ Hs') in Hsub.
  rewrite (hamming_loss_ratio _ _ Hs') in Hham.
  destruct (same_shape_inv _ _ Hs') as (Ht & Hp & Hlen).
  destruct (rows_eq_shape _ _ _ Ht Hp Hlen) as [Hrows Hbits].
  assert (Hpos : (0 < shape0 y_true * shape1 y_true)%nat) by nia.
  split.
  - rewrite Hsub, Hham, ratio_zero by exact Hpos. rewrite ratio_one by lia.
    unfold differing_bits, matching_rows.
    rewrite no_differing_bit_iff_all_rows_match. unfold rows_eq, shape0 in *.
    rewrite Hrows. reflexivity.
  - destruct (ratio_unit_interval
                (differing_bits y_true (array_map binarize y_pred))
                (shape0 y_true * shape1 y_true) Hpos) as (h & Hh & Hh0 & Hh1).
    { unfold differing_bits.
      pose proof (count_true_le
                    (map negb (concat (rows_eq y_true (array_map binarize y_pred))))) as H.
      rewrite length_map in H. unfold rows_eq, shape0 in *. rewrite Hbits in H. exact H. }
    destruct (ratio_unit_interval
                (matching_rows y_true (array_map binarize y_pred))
                (shape0 y_true)) as (s & Hs1 & Hs0 & Hs2); [lia | |].
    { unfold matching_rows.
      pose proof (count_true_le
                    (map (forallb id) (rows_eq y_true (array_map binarize y_pred)))) as H.
      rewrite length_map in H. unfold rows_eq, shape0 in *. rewrite Hrows in H. exact H. }
    exists h, s. rewrite Hham, Hsub. auto 10.
Qed.

Lemma hamming_zero_iff_exact_match_witness :
  exists rep : MetricsReport,
    calculate_metrics Sklearn.precision_recall_fscore_support Sklearn.accuracy_score
                      Sklearn.roc_auc_score y_true_2x2 y_pred_2x2 = Return rep
    /\ hamming_loss rep <> fin 0
    /\ subset_accuracy rep <> fin 1.
Proof.
  destruct (calculate_metrics Sklearn.precision_recall_fscore_support
              Sklearn.accuracy_score Sklearn.roc_auc_score y_true_2x2 y_pred_2x2)
    as [rep | e] eqn:E; [| vm_compute in E; discriminate E].
  exists rep. split; [reflexivity |].
  destruct (hamming_zero_iff_exact_match
              Sklearn.precision_recall_fscore_support Sklearn.accuracy_score
              Sklearn.roc_auc_score y_true_2x2 y_pred_2x2 rep) as [Hiff _];
    [vm_compute; exact I | cbn; lia | cbn; lia | exact E |].
  assert (Hh : hamming_loss rep <> fin 0).
  { vm_compute in E. injection E as <-. cbn. discriminate. }
  split; [exact Hh |]. intros Hs. apply Hh, Hiff, Hs.
Defined.

(** X10. One class that cannot be scored zeroes the AUC of all: when
    [roc_auc_score] raises [ValueError] for a class with two ground-truth
    values or more, the handler around the whole loop sets the mean AUC to
    0.0, whatever the scores of the other classes are. *)
Theorem one_unscorable_class_zeroes_auc
        (roc_auc_score : list Q -> list Q -> except npfloat)
        (y_true y_pred : ndarray Q) (i : nat) :
  Sklearn.raises_only_ValueError roc_auc_score ->
  (i < shape1 y_true)%nat ->
  two_valued y_true i = true ->
  roc_auc_score (column 0%Q y_true i) (column 0%Q y_pred i) = Raise ValueError ->
  mean_auc roc_auc_score y_true y_pred = Return (fin 0).
Proof.
  intros Hroc Hi Htv Hraise. unfold mean_auc.
  destruct (auc_loop_raises roc_auc_score y_true y_pred (seq 0 (shape1 y_true)) [] i
              ValueError) as [e' He']; [apply in_seq; lia | exact Htv | exact Hraise |].
  destruct (auc_loop_outcome roc_auc_score y_true y_pred (seq 0 (shape1 y_true)) [] Hroc)
    as [[l Hl] | Hl]; [congruence |].
  rewrite Hl. reflexivity.
Qed.

Lemma one_unscorable_class_zeroes_auc_witness :
  mean_auc Sklearn.roc_auc_score y_true_three_valued y_pred_three_rows = Return (fin 0)
  /\ Sklearn.roc_auc_score (column 0%Q y_true_three_valued 0)
                           (column 0%Q y_pred_three_rows 0) = Return (fin 1).
Proof.
  split; [| vm_compute; reflexivity].
  apply (one_unscorable_class_zeroes_auc Sklearn.roc_auc_score
           y_true_three_valued y_pred_three_rows 1).
  - exact reference_roc_auc_score_raises.
  - cbn. lia.
  - vm_compute. reflexivity.
  - vm_compute. reflexivity.
Defined.

(** * Properties of the other functions of [utils.py] *)

Section WrittenRegistry.

(** Where the dict comprehension over [enumerate] leaves a key that occurs
    several times: at its last position. *)
Lemma enumerate_fold_last (l : list string) (s : Z) (m : gmap string Z) (c : string) (i : Z) :
  fold_left (fun (m : gmap string Z) (p : Z * string) => <[snd p := fst p]> m)
            (enumerate_from s l) m !! c = Some i ->
  (m !! c = Some i /\ c ∉ l)
  \/ (s <= i < s + Z.of_nat (length l)
      /\ l !! Z.to_nat (i - s) = Some c
      /\ forall j : nat, (Z.to_nat (i - s) < j)%nat -> l !! j <> Some c).
Proof.
  revert s m. induction l as [| x l IH]; intros s m; cbn [enumerate_from fold_left].
  - intros H. left. split; [exact H | intros Hc; inversion Hc].
  - intros H. apply IH in H. cbn [fst snd] in H.
    destruct H as [[H Hn] | (Hr & Hl & Hlast)].
    + rewrite lookup_insert in H. case_decide as Hx.
      * injection H as <-. subst c. right. split; [cbn [length]; lia |].
        rewrite Z.sub_diag. split; [reflexivity |].
        intros j Hj Hc. destruct j as [| j]; [cbn in Hj; lia |]. cbn in Hc.
        apply Hn. apply list_elem_of_lookup_2 in Hc. exact Hc.
      * left. split; [exact H |]. rewrite not_elem_of_cons. split; [auto | exact Hn].
    + right. split; [cbn [length]; lia |].
      replace (Z.to_nat (i - s)) with (S (Z.to_nat (i - (s + 1)))) by lia.
      split; [exact Hl |].
      intros j Hj. destruct j as [| j]; [lia |]. cbn. apply Hlast. lia.
Qed.

End WrittenRegistry.

(** X11. The registry [create_class_info_json] writes keeps the names as
    given.  Its keys are the listed names; the index of a name is its last
    position in the list, so it lies in [0, num_classes), and [_create_label]
    returns for every listed name the one-hot vector of length
    [len(class_names)] with the 1.0 at that position. *)
Theorem written_registry_labels (class_names : list string) (c : string) :
  (is_Some (class_to_idx (Utils.create_class_info_json class_names) !! c)
   <-> c ∈ class_names)
  /\ (c ∈ class_names ->
      exists (i : Z) (v : tensor),
        class_to_idx (Utils.create_class_info_json class_names) !! c = Some i
        /\ 0 <= i < Z.of_nat (length class_names)
        /\ class_names !! Z.to_nat i = Some c
        /\ (forall j : nat, (Z.to_nat i < j)%nat -> class_names !! j <> Some c)
        /\ _create_label (Utils.create_class_info_json class_names) c = Return v
        /\ length v = length class_names
        /\ v !! Z.to_nat i = Some 1%Q
        /\ (forall j : nat, j <> Z.to_nat i -> (j < length v)%nat -> v !! j = Some 0%Q)).
Proof.
  assert (Hkey : c ∈ class_names ->
                 exists i, dict_of_enumerate class_names !! c = Some i
                           /\ 0 <= i < Z.of_nat (length class_names)
                           /\ class_names !! Z.to_nat i = Some c
                           /\ forall j : nat, (Z.to_nat i < j)%nat ->
                                              class_names !! j <> Some c).
  { intros Hc. destruct (dict_of_enumerate_key _ _ Hc) as [i Hi].
    exists i. split; [exact Hi |].
    unfold dict_of_enumerate, enumerate in Hi. apply enumerate_fold_last in Hi.
    destruct Hi as [[Hi _] | (Hr & Hl & Hlast)].
    - rewrite lookup_empty in Hi. discriminate Hi.
    - rewrite Z.sub_0_r in Hl, Hlast. split; [lia |]. split; [exact Hl | exact Hlast]. }
  split.
  - cbn [Utils.create_class_info_json class_to_idx]. split.
    + intros [i Hi]. apply dict_of_enumerate_lookup in Hi as [_ Hl].
      apply list_elem_of_lookup_2 in Hl. exact Hl.
    + apply dict_of_enumerate_key.
  - intros Hc. destruct (Hkey Hc) as (i & Hi & Hr & Hl & Hlast).
    destruct (create_label_in_range (Utils.create_class_info_json class_names) c i)
      as (v & Hv & Hlen & H1 & H0); [exact Hi | exact Hr |].
    exists i, v. cbn [Utils.create_class_info_json class_to_idx num_classes] in *.
    split; [exact Hi |]. split; [exact Hr |]. split; [exact Hl |].
    split; [exact Hlast |]. split; [exact Hv |]. split; [lia |]. auto.
Qed.

Lemma written_registry_labels_witness :
  exists v : tensor,
    _create_label (Utils.create_class_info_json ["rust"; "healthy"; "rust"]) "rust"
    = Return v
    /\ v !! 2%nat = Some 1%Q.
Proof.
  destruct (written_registry_labels ["rust"; "healthy"; "rust"] "rust") as [_ H].
  destruct H as (i & v & Hi & _ & _ & _ & Hv & _ & H1 & _).
  - set_solver.
  - exists v. split; [exact Hv |].
    vm_compute in Hi. injection Hi as <-. exact H1.
Defined.

(** X12. A checkpoint round trip: loading a file that [save_model_checkpoint]
    wrote returns the epoch and the metrics that were saved and puts the
    saved state back into the model, and into the optimizer and the
    scheduler when they are passed; an object that is not passed keeps its
    state, and no file changes.  Loading a path that holds no checkpoint
    raises an [OSError]. *)
Theorem checkpoint_round_trip {state_dict metrics : Type}
        (w w' : Utils.World state_dict metrics) (epoch : Z) (m : metrics)
        (filepath : string) (optimizer scheduler : bool) :
  Utils.files w' = Utils.files (Utils.save_model_checkpoint w epoch m filepath) ->
  (exists w'' : Utils.World state_dict metrics,
      Utils.load_model_checkpoint w' filepath optimizer scheduler
      = Return (w'', (epoch, m))
      /\ Utils.model_state w'' = Utils.model_state w
      /\ Utils.optimizer_state w''
         = (if optimizer then Utils.optimizer_state w else Utils.optimizer_state w')
      /\ Utils.scheduler_state w''
         = (if scheduler then Utils.scheduler_state w else Utils.scheduler_state w')
      /\ Utils.files w'' = Utils.files w')
  /\ (forall other : string,
         other <> filepath ->
         Utils.files w !! other = None ->
         Utils.load_model_checkpoint w' other optimizer scheduler = Raise OSError).
Proof.
  intros Hfiles. split.
  - unfold Utils.load_model_checkpoint. rewrite Hfiles.
    cbn [Utils.save_model_checkpoint Utils.files]. rewrite lookup_insert_eq.
    cbn [mbind except_bind bind]. eexists. split; [reflexivity |].
    destruct optimizer, scheduler; cbn; auto.
  - intros other Hne Hnone. unfold Utils.load_model_checkpoint. rewrite Hfiles.
    cbn [Utils.save_model_checkpoint Utils.files].
    rewrite lookup_insert_ne by congruence. rewrite Hnone. reflexivity.
Qed.

Lemma checkpoint_round_trip_witness :
  exists w'' : Utils.World nat nat,
    Utils.load_model_checkpoint
      (Utils.save_model_checkpoint checkpoint_world 3 90%nat "best_model.pth")
      "best_model.pth" true false
    = Return (w'', (3, 90%nat))
    /\ Utils.model_state w'' = 11%nat.
Proof.
  destruct (checkpoint_round_trip
              checkpoint_world
              (Utils.save_model_checkpoint checkpoint_world 3 90%nat "best_model.pth")
              3 90%nat "best_model.pth" true false eq_refl)
    as [(w'' & Hload & Hmodel & _) _].
  exists w''. split; [exact Hload | exact Hmodel].
Defined.

Section ConfusionPlot.

Variable confusion_matrix : list Q -> list Z -> except (list (list Z)).
Variables (y_true : ndarray Q) (y_pred_binary : ndarray Z) (class_names : list string).

(** What the first loop has drawn when it returns, for the classes
    [s], ..., [s + k - 1]. *)
Lemma draw_classes_returns (k s : nat) (axes axes' : list Utils.Axes) :
  Utils.draw_classes confusion_matrix y_true y_pred_binary class_names (seq s k) axes
  = Return axes' ->
  length axes' = length axes
  /\ (forall i : nat,
         (s <= i < s + k)%nat ->
         (i < shape1 y_true)%nat /\ (i < shape1 y_pred_binary)%nat
         /\ exists (cm : list (list Z)) (c : string),
             confusion_matrix (column 0%Q y_true i) (column 0 y_pred_binary i) = Return cm
             /\ class_names !! i = Some c
             /\ ((i < length axes)%nat ->
                 axes' !! i
                 = Some {| Utils.heatmap := Some cm;
                           Utils.title := Some (String.append "Confusion Matrix - " c);
                           Utils.visible := true |}))
  /\ (forall i : nat, ~ (s <= i < s + k)%nat -> axes' !! i = axes !! i).
Proof.
  revert s axes. induction k as [| k IH]; intros s axes; cbn [seq Utils.draw_classes].
  - intros [= <-]. split; [reflexivity |]. split; [intros i Hi; lia | reflexivity].
  - unfold Utils.column_checked.
    destruct (Nat.ltb_spec s (shape1 y_true)) as [Ht | Ht]; [| discriminate].
    destruct (Nat.ltb_spec s (shape1 y_pred_binary)) as [Hp | Hp]; [| discriminate].
    cbn [mbind except_bind bind].
    destruct (confusion_matrix (column 0%Q y_true s) (column 0 y_pred_binary s))
      as [cm | e] eqn:Hcm; [| discriminate].
    cbn [mbind except_bind bind].
    destruct (class_names !! s) as [c |] eqn:Hc; [| discriminate].
    cbn [mbind except_bind bind].
    intros H. apply IH in H as (Hlen & Hin & Hout).
    rewrite length_insert in Hlen. split; [exact Hlen |]. split.
    + intros i Hi. destruct (decide (i = s)) as [-> | Hne].
      * split; [exact Ht |]. split; [exact Hp |]. exists cm, c.
        split; [exact Hcm |]. split; [exact Hc |]. intros Hs.
        rewrite Hout by lia. apply list_lookup_insert_eq. exact Hs.
      * destruct (Hin i) as (Hti & Hpi & cm' & c' & Hcm' & Hc' & Hax); [lia |].
        split; [exact Hti |]. split; [exact Hpi |]. exists cm', c'.
        split; [exact Hcm' |]. split; [exact Hc' |].
        intros Hi'. apply Hax. rewrite length_insert. exact Hi'.
    + intros i Hi. rewrite Hout by lia. apply list_lookup_insert_ne. lia.
Qed.

(** When the first loop returns. *)
Lemma draw_classes_defined (k s : nat) (axes : list Utils.Axes) :
  (forall i : nat,
      (s <= i < s + k)%nat ->
      (i < shape1 y_true)%nat /\ (i < shape1 y_pred_binary)%nat
      /\ (i < length class_names)%nat
      /\ exists cm : list (list Z),
          confusion_matrix (column 0%Q y_true i) (column 0 y_pred_binary i) = Return cm) ->
  exists axes' : list Utils.Axes,
    Utils.draw_classes confusion_matrix y_true y_pred_binary class_names (seq s k) axes
    = Return axes'.
Proof.
  revert s axes. induction k as [| k IH]; intros s axes H; cbn [seq Utils.draw_classes].
  - eexists. reflexivity.
  - destruct (H s) as (Ht & Hp & Hn & cm & Hcm); [lia |].
    unfold Utils.column_checked.
    destruct (Nat.ltb_spec s (shape1 y_true)) as [_ | ?]; [| lia].
    destruct (Nat.ltb_spec s (shape1 y_pred_binary)) as [_ | ?]; [| lia].
    cbn [mbind except_bind bind]. rewrite Hcm. cbn [mbind except_bind bind].
    destruct (lookup_lt_is_Some_2 class_names s Hn) as [c Hc]. rewrite Hc.
    cbn [mbind except_bind bind]. apply IH. intros i Hi. apply H. lia.
Qed.

End ConfusionPlot.

(** X13. [plot_confusion_matrix] returns exactly when the first
    [min(4, len(class_names))] columns exist in both arrays and
    [confusion_matrix] returns for each of them.  The figure it then saves
    has four subplots, all of them visible: the loop meant to hide the unused
    subplots starts at index 4 and hides none.  Subplot [i] carries the matrix
    and the title of class [i] for [i < min(4, len(class_names))] and is left
    blank otherwise. *)
Theorem confusion_plot_hides_nothing
        (confusion_matrix : list Q -> list Z -> except (list (list Z)))
        (y_true y_pred : ndarray Q) (class_names : list string) :
  let shown := Nat.min 4 (length class_names) in
  ((exists axes, Utils.plot_confusion_matrix confusion_matrix y_true y_pred class_names
                 = Return axes)
   <-> ((shown <= shape1 y_true)%nat /\ (shown <= shape1 y_pred)%nat
        /\ forall i : nat,
            (i < shown)%nat ->
            exists cm, confusion_matrix (column 0%Q y_true i)
                                        (column 0 (array_map binarize y_pred) i)
                       = Return cm))
  /\ forall axes : list Utils.Axes,
      Utils.plot_confusion_matrix confusion_matrix y_true y_pred class_names
      = Return axes ->
      length axes = 4%nat
      /\ Forall (fun a => Utils.visible a = true) axes
      /\ (forall i : nat,
             (i < shown)%nat ->
             exists (cm : list (list Z)) (c : string),
               confusion_matrix (column 0%Q y_true i)
                                (column 0 (array_map binarize y_pred) i) = Return cm
               /\ class_names !! i = Some c
               /\ axes !! i
                  = Some {| Utils.heatmap := Some cm;
                            Utils.title := Some (String.append "Confusion Matrix - " c);
                            Utils.visible := true |})
      /\ (forall i : nat,
             (shown <= i < 4)%nat ->
             axes !! i = Some {| Utils.heatmap := None;
                                 Utils.title := None;
                                 Utils.visible := true |}).
Proof.
  intros shown.
  assert (Hshape : shape1 (array_map binarize y_pred) = shape1 y_pred) by reflexivity.
  assert (Hshown : (shown <= 4)%nat /\ (shown <= length class_names)%nat)
    by (unfold shown; lia).
  assert (Hret : forall axes,
             Utils.plot_confusion_matrix confusion_matrix y_true y_pred class_names
             = Return axes ->
             exists axes0,
               Utils.draw_classes confusion_matrix y_true (array_map binarize y_pred)
                                  class_names (seq 0 shown)
                                  (replicate 4 {| Utils.heatmap := None;
                                                  Utils.title := None;
                                                  Utils.visible := true |})
               = Return axes0
               /\ length axes0 = 4%nat /\ axes = axes0).
  { intros axes. unfold Utils.plot_confusion_matrix. fold shown.
    destruct (Utils.draw_classes _ _ _ _ _ _) as [axes0 | e] eqn:Hdraw; [| discriminate].
    cbn [mbind except_bind bind]. intros [= <-].
    pose proof (draw_classes_returns _ _ _ _ _ _ _ _ Hdraw) as (Hlen & _).
    rewrite length_replicate in Hlen. exists axes0. split; [reflexivity |].
    split; [exact Hlen |]. rewrite Hlen. reflexivity. }
  split.
  - split.
    + intros [axes H]. apply Hret in H as (axes0 & Hdraw & _ & _).
      apply draw_classes_returns in Hdraw as (_ & Hin & _).
      split; [| split].
      * destruct shown as [| n] eqn:E; [lia |]. destruct (Hin n) as (Ht & _); lia.
      * destruct shown as [| n] eqn:E; [lia |]. destruct (Hin n) as (_ & Hp & _); [lia |].
        rewrite Hshape in Hp. lia.
      * intros i Hi. destruct (Hin i) as (_ & _ & cm & c & Hcm & _); [lia |].
        exists cm. exact Hcm.
    + intros (Ht & Hp & Hcm).
      destruct (draw_classes_defined confusion_matrix y_true (array_map binarize y_pred)
                  class_names shown 0
                  (replicate 4 {| Utils.heatmap := None; Utils.title := None;
                                  Utils.visible := true |})) as [axes0 Hdraw].
      { intros i Hi. rewrite Hshape. split; [lia |]. split; [lia |]. split; [lia |].
        apply Hcm. lia. }
      unfold Utils.plot_confusion_matrix. fold shown. rewrite Hdraw.
      cbn [mbind except_bind bind]. eexists. reflexivity.
  - intros axes H. apply Hret in H as (axes0 & Hdraw & Hlen & ->).
    apply draw_classes_returns in Hdraw as (_ & Hin & Hout).
    rewrite length_replicate in Hin.
    assert (Hdrawn : forall i : nat,
               (i < shown)%nat ->
               exists (cm : list (list Z)) (c : string),
                 confusion_matrix (column 0%Q y_true i)
                                  (column 0 (array_map binarize y_pred) i) = Return cm
                 /\ class_names !! i = Some c
                 /\ axes0 !! i
                    = Some {| Utils.heatmap := Some cm;
                              Utils.title := Some (String.append "Confusion Matrix - " c);
                              Utils.visible := true |}).
    { intros i Hi. destruct (Hin i) as (_ & _ & cm & c & Hcm & Hc & Hax); [lia |].
      exists cm, c. split; [exact Hcm |]. split; [exact Hc |]. apply Hax. lia. }
    assert (Hblank : forall i : nat,
               (shown <= i < 4)%nat ->
               axes0 !! i = Some {| Utils.heatmap := None; Utils.title := None;
                                    Utils.visible := true |}).
    { intros i Hi. rewrite Hout by lia. apply lookup_replicate_2. lia. }
    split; [exact Hlen |]. split; [| split; [exact Hdrawn | exact Hblank]].
    apply Forall_lookup_2. intros i a Ha.
    assert (Hi : (i < 4)%nat) by (rewrite <- Hlen; eapply lookup_lt_Some; exact Ha).
    destruct (Nat.lt_ge_cases i shown) as [Hlt | Hge].
    + destruct (Hdrawn i Hlt) as (cm & c & _ & _ & Hax).
      rewrite Hax in Ha. injection Ha as <-. reflexivity.
    + rewrite Hblank in Ha by lia. injection Ha as <-. reflexivity.
Qed.

Lemma confusion_plot_hides_nothing_witness :
  exists axes : list Utils.Axes,
    Utils.plot_confusion_matrix counts_2x2 y_true_2x2 y_pred_2x2 ["healthy"; "rust"]
    = Return axes
    /\ Forall (fun a => Utils.visible a = true) axes
    /\ axes !! 3%nat = Some {| Utils.heatmap := None;
                               Utils.title := None;
                               Utils.visible := true |}.
Proof.
  pose proof (confusion_plot_hides_nothing
                counts_2x2 y_true_2x2 y_pred_2x2 ["healthy"; "rust"]) as H.
  cbv zeta in H. destruct H as [[_ Hex] Hall].
  destruct Hex as [axes Haxes].
  - split; [cbn; lia |]. split; [cbn; lia |].
    intros i Hi. eexists. reflexivity.
  - exists axes. split; [exact Haxes |].
    destruct (Hall axes Haxes) as (_ & Hvisible & _ & Hblank).
    split; [exact Hvisible |]. apply Hblank. cbn. lia.
Defined.

(** * Properties of the training driver *)

Section Stacking.

Lemma forallb_map_shape {A B : Type} (f : A -> B) (n : nat) (l : list (ndarray A)) :
  forallb (fun b => (shape1 b =? n)%nat) (map (array_map f) l)
  = forallb (fun b => (shape1 b =? n)%nat) l.
Proof. induction l as [| a l IH]; cbn; [reflexivity | rewrite IH; reflexivity]. Qed.

(** Stacking commutes with an elementwise map. *)
Lemma np_vstack_map {A B : Type} (f : A -> B) (l : list (ndarray A)) :
  Train.np_vstack (map (array_map f) l) = except_map (array_map f) (Train.np_vstack l).
Proof.
  destruct l as [| a l]; [reflexivity |].
  cbn [map Train.np_vstack]. rewrite forallb_map_shape. cbn [array_map shape1].
  destruct (forallb _ l); [| reflexivity].
  cbn [except_map]. unfold array_map. cbn [shape1 tolist]. f_equal. f_equal.
  rewrite (concat_map (map f)). cbn [map]. f_equal. f_equal.
  rewrite !map_map. reflexivity.
Qed.

Lemma np_vstack_nonempty {A : Type} (l : list (ndarray A)) (a : ndarray A) :
  Train.np_vstack l = Return a -> l <> [].
Proof. destruct l; [discriminate | discriminate]. Qed.

(** Thresholding a 0/1 prediction again changes nothing. *)
Lemma binarize_idempotent (p : Q) : binarize (inject_Z (binarize p)) = binarize p.
Proof. unfold binarize. destruct (Qle_bool p (1 # 2)); reflexivity. Qed.

Lemma binarize_predictions (P : ndarray Q) :
  array_map binarize (Train.predictions_of P) = array_map binarize P.
Proof.
  unfold Train.predictions_of, array_map. cbn [shape1 tolist]. f_equal.
  rewrite map_map. apply map_ext. intros r. rewrite map_map.
  apply map_ext. intros p. apply binarize_idempotent.
Qed.

End Stacking.

Section SameBinarization.

Variable precision_recall_fscore_support :
  ndarray Q -> ndarray Z -> average -> except (npfloat * npfloat * npfloat).
Variable accuracy_score : ndarray Q -> ndarray Z -> except npfloat.
Variable roc_auc_score : list Q -> list Q -> except npfloat.

(** Two predictions that binarize alike get the same thresholded metrics. *)
Lemma thresholded_same_binarization (y_true y_pred y_pred' : ndarray Q) :
  array_map binarize y_pred = array_map binarize y_pred' ->
  Sklearn.raises_only_ValueError roc_auc_score ->
  except_map thresholded
    (calculate_metrics precision_recall_fscore_support accuracy_score
                       roc_auc_score y_true y_pred)
  = except_map thresholded
      (calculate_metrics precision_recall_fscore_support accuracy_score
                         roc_auc_score y_true y_pred').
Proof.
  intros Hbin Hroc.
  destruct (mean_auc_returns roc_auc_score y_true y_pred Hroc) as [v Hv].
  destruct (mean_auc_returns roc_auc_score y_true y_pred' Hroc) as [v' Hv'].
  unfold calculate_metrics. cbv zeta. rewrite Hv, Hv', Hbin.
  destruct (precision_recall_fscore_support y_true (array_map binarize y_pred') macro)
    as [[[p r] f] | e]; [| reflexivity].
  cbn [mbind except_bind bind].
  destruct (precision_recall_fscore_support y_true (array_map binarize y_pred') micro)
    as [[[pm rm] fm] | e]; [| reflexivity].
  cbn [mbind except_bind bind].
  destruct (accuracy_score y_true (array_map binarize y_pred')) as [a | e];
    reflexivity.
Qed.

End SameBinarization.

Section EpochLemmas.

Context {Images Parameters : Type}.

Variable precision_recall_fscore_support :
  ndarray Q -> ndarray Z -> average -> except (npfloat * npfloat * npfloat).
Variable accuracy_score : ndarray Q -> ndarray Z -> except npfloat.
Variable roc_auc_score : list Q -> list Q -> except npfloat.

(** When the code after the loop over the batches returns. *)
Lemma epoch_metrics_done (n : nat) (total_loss : Q) (ps ts : list (ndarray Q))
      (m : Train.EpochMetrics) :
  Train.epoch_metrics precision_recall_fscore_support accuracy_score roc_auc_score
                      n total_loss ps ts = Train.Done m
  <-> exists P T : ndarray Q,
      Train.np_vstack ps = Return P
      /\ Train.np_vstack ts = Return T
      /\ calculate_metrics precision_recall_fscore_support accuracy_score roc_auc_score
                           T P = Return (Train.report m)
      /\ n <> 0%nat
      /\ Train.loss m = (total_loss / inject_Z (Z.of_nat n))%Q.
Proof.
  unfold Train.epoch_metrics. split.
  - destruct (Train.np_vstack ps) as [P | e]; [| discriminate].
    destruct (Train.np_vstack ts) as [T | e]; [| discriminate].
    cbn [Train.lift Train.and_then].
    destruct (calculate_metrics _ _ _ T P) as [r | e] eqn:Hr; [| discriminate].
    cbn [Train.lift Train.and_then].
    destruct n as [| n]; [discriminate |]. intros [= <-].
    exists P, T. cbn [Train.report Train.loss].
    split; [reflexivity |]. split; [reflexivity |]. split; [exact Hr |].
    split; [discriminate | reflexivity].
  - intros (P & T & -> & -> & Hr & Hn & Hl). cbn [Train.lift Train.and_then].
    rewrite Hr. cbn [Train.lift Train.and_then].
    destruct n as [| n]; [congruence |]. destruct m as [r l].
    cbn [Train.report Train.loss] in *. subst l. reflexivity.
Qed.

(** The division by the number of batches comes after the stacking, which
    has failed by then when there is no batch. *)
Lemma epoch_metrics_divides (n : nat) (total_loss : Q) (ps ts : list (ndarray Q)) :
  n <> 0%nat \/ ps = [] ->
  Train.epoch_metrics precision_recall_fscore_support accuracy_score roc_auc_score
                      n total_loss ps ts <> Train.Failed Train.ZeroDivisionError.
Proof.
  intros H. unfold Train.epoch_metrics.
  destruct ps as [| p ps].
  - discriminate.
  - destruct H as [H | H]; [| discriminate].
    destruct (Train.np_vstack (p :: ps)) as [P | e]; [| discriminate].
    destruct (Train.np_vstack ts) as [T | e]; [| discriminate].
    cbn [Train.lift Train.and_then].
    destruct (calculate_metrics _ _ _ T P) as [r | e]; [| discriminate].
    cbn [Train.lift Train.and_then].
    destruct n as [| n]; [congruence | discriminate].
Qed.

Variable probabilities : Parameters -> Images -> ndarray Q.
Variable criterion : Parameters -> Images -> ndarray Q -> Q.

(** The loop of [validate_epoch], in closed form. *)
Lemma validate_batches_spec (theta : Parameters) (loader : list (Images * ndarray Q))
      (total_loss : Q) (ps ts : list (ndarray Q)) :
  Train.validate_batches probabilities criterion theta loader total_loss ps ts
  = (fold_left Qplus (map (fun b => criterion theta (fst b) (snd b)) loader) total_loss,
     ps ++ map (fun b => Train.predictions_of (probabilities theta (fst b))) loader,
     ts ++ map snd loader).
Proof.
  revert total_loss ps ts.
  induction loader as [| [images targets] loader IH]; intros total_loss ps ts;
    cbn [Train.validate_batches map fold_left fst snd].
  - rewrite !app_nil_r. reflexivity.
  - rewrite IH, <- !app_assoc. reflexivity.
Qed.

Variable optimizer_step : Parameters -> Images -> ndarray Q -> Parameters.

(** The loop of [train_epoch], in closed form. *)
Lemma train_batches_spec (theta : Parameters) (loader : list (Images * ndarray Q))
      (total_loss : Q) (ps ts : list (ndarray Q)) :
  Train.train_batches probabilities criterion optimizer_step theta loader total_loss ps ts
  = (Train.parameters_after optimizer_step theta loader,
     fold_left Qplus
               (zip_with (fun th b => criterion th (fst b) (snd b))
                         (Train.parameters_at optimizer_step theta loader) loader)
               total_loss,
     ps ++ zip_with (fun th b => Train.predictions_of (probabilities th (fst b)))
                    (Train.parameters_at optimizer_step theta loader) loader,
     ts ++ map snd loader).
Proof.
  revert theta total_loss ps ts.
  induction loader as [| [images targets] loader IH]; intros theta total_loss ps ts;
    cbn [Train.train_batches Train.parameters_at Train.parameters_after
         zip_with map fold_left fst snd].
  - rewrite !app_nil_r. reflexivity.
  - rewrite IH, <- !app_assoc. reflexivity.
Qed.

Lemma parameters_at_length (theta : Parameters) (loader : list (Images * ndarray Q)) :
  length (Train.parameters_at optimizer_step theta loader) = length loader.
Proof.
  revert theta. induction loader as [| [images targets] loader IH]; intros theta;
    cbn [Train.parameters_at length]; [reflexivity | rewrite IH; reflexivity].
Qed.

End EpochLemmas.

(** X14. An epoch over a loader without batches raises the [ValueError] of
    [np.vstack]: both [validate_epoch] and [train_epoch] stack the collected
    predictions before they divide the loss by [len(loader)], so neither of
    them ever raises a [ZeroDivisionError], whatever the loader. *)
Theorem epoch_without_batches_raises {Images Parameters : Type}
        (precision_recall_fscore_support :
           ndarray Q -> ndarray Z -> average -> except (npfloat * npfloat * npfloat))
        (accuracy_score : ndarray Q -> ndarray Z -> except npfloat)
        (roc_auc_score : list Q -> list Q -> except npfloat)
        (probabilities : Parameters -> Images -> ndarray Q)
        (criterion : Parameters -> Images -> ndarray Q -> Q)
        (optimizer_step : Parameters -> Images -> ndarray Q -> Parameters)
        (theta : Parameters) :
  Train.validate_epoch precision_recall_fscore_support accuracy_score roc_auc_score
                       probabilities criterion theta []
  = Train.Failed (Train.PyError ValueError)
  /\ Train.train_epoch precision_recall_fscore_support accuracy_score roc_auc_score
                       probabilities criterion optimizer_step theta []
     = Train.Failed (Train.PyError ValueError)
  /\ forall loader : list (Images * ndarray Q),
      Train.validate_epoch precision_recall_fscore_support accuracy_score roc_auc_score
                           probabilities criterion theta loader
      <> Train.Failed Train.ZeroDivisionError
      /\ Train.train_epoch precision_recall_fscore_support accuracy_score roc_auc_score
                           probabilities criterion optimizer_step theta loader
         <> Train.Failed Train.ZeroDivisionError.
Proof.
  split; [reflexivity |]. split; [reflexivity |].
  intros loader. split.
  - unfold Train.validate_epoch. rewrite validate_batches_spec.
    apply epoch_metrics_divides.
    destruct loader; [right; reflexivity | left; discriminate].
  - unfold Train.train_epoch. rewrite train_batches_spec.
    destruct (Train.epoch_metrics _ _ _ _ _ _ _) as [m | e] eqn:E;
      cbn [Train.and_then]; [discriminate |].
    intros [= ->]. revert E. apply epoch_metrics_divides.
    destruct loader as [| [images targets] loader]; [right; reflexivity | left; discriminate].
Qed.

Lemma epoch_without_batches_raises_witness :
  Train.validate_epoch Sklearn.precision_recall_fscore_support Sklearn.accuracy_score
                       Sklearn.roc_auc_score
                       (fun (_ : unit) (images : ndarray Q) => images)
                       (fun _ _ _ => 1%Q) tt []
  = Train.Failed (Train.PyError ValueError)
  /\ Train.validate_epoch Sklearn.precision_recall_fscore_support Sklearn.accuracy_score
                          Sklearn.roc_auc_score
                          (fun (_ : unit) (images : ndarray Q) => images)
                          (fun _ _ _ => 1%Q) tt [(y_pred_2x2, y_true_2x2)]
     <> Train.Failed Train.ZeroDivisionError.
Proof.
  destruct (epoch_without_batches_raises
              Sklearn.precision_recall_fscore_support Sklearn.accuracy_score
              Sklearn.roc_auc_score
              (fun (_ : unit) (images : ndarray Q) => images)
              (fun _ _ _ => 1%Q) (fun _ _ _ => tt) tt) as (Hempty & _ & Hany).
  split; [exact Hempty |]. exact (proj1 (Hany [(y_pred_2x2, y_true_2x2)])).
Defined.

(** X15. What [validate_epoch] reports.  It returns exactly when the
    probabilities of the batches stack, the targets stack, and
    [calculate_metrics] returns on the stacked targets and the stacked
    predictions, which are the probabilities thresholded at 0.5; the loss is
    the sum of the batch losses over the number of batches.
    [calculate_metrics] thresholds once more, which changes nothing: the
    thresholded metrics of the report are those of the probabilities.  The
    [auc] of the report, however, ranks the 0/1 predictions and not the
    probabilities. *)
Theorem validate_epoch_scores_predictions {Images Parameters : Type}
        (precision_recall_fscore_support :
           ndarray Q -> ndarray Z -> average -> except (npfloat * npfloat * npfloat))
        (accuracy_score : ndarray Q -> ndarray Z -> except npfloat)
        (roc_auc_score : list Q -> list Q -> except npfloat)
        (probabilities : Parameters -> Images -> ndarray Q)
        (criterion : Parameters -> Images -> ndarray Q -> Q)
        (theta : Parameters) (val_loader : list (Images * ndarray Q))
        (m : Train.EpochMetrics) :
  (Train.validate_epoch precision_recall_fscore_support accuracy_score roc_auc_score
                        probabilities criterion theta val_loader = Train.Done m
   <-> exists P T : ndarray Q,
       Train.np_vstack (map (fun b => probabilities theta (fst b)) val_loader) = Return P
       /\ Train.np_vstack (map snd val_loader) = Return T
       /\ calculate_metrics precision_recall_fscore_support accuracy_score roc_auc_score
                            T (Train.predictions_of P) = Return (Train.report m)
       /\ Train.loss m
          = (fold_left Qplus
                       (map (fun b => criterion theta (fst b) (snd b)) val_loader) 0
             / inject_Z (Z.of_nat (length val_loader)))%Q)
  /\ (Train.validate_epoch precision_recall_fscore_support accuracy_score roc_auc_score
                           probabilities criterion theta val_loader = Train.Done m ->
      forall P T : ndarray Q,
        Train.np_vstack (map (fun b => probabilities theta (fst b)) val_loader) = Return P ->
        Train.np_vstack (map snd val_loader) = Return T ->
        mean_auc roc_auc_score T (Train.predictions_of P) = Return (auc (Train.report m))
        /\ (Sklearn.raises_only_ValueError roc_auc_score ->
            except_map thresholded
              (calculate_metrics precision_recall_fscore_support accuracy_score
                                 roc_auc_score T P)
            = Return (thresholded (Train.report m)))).
Proof.
  assert (Hiff :
            Train.validate_epoch precision_recall_fscore_support accuracy_score
                                 roc_auc_score probabilities criterion theta val_loader
            = Train.Done m
            <-> exists P T : ndarray Q,
              Train.np_vstack (map (fun b => probabilities theta (fst b)) val_loader)
              = Return P
              /\ Train.np_vstack (map snd val_loader) = Return T
              /\ calculate_metrics precision_recall_fscore_support accuracy_score
                                   roc_auc_score T (Train.predictions_of P)
                 = Return (Train.report m)
              /\ Train.loss m
                 = (fold_left Qplus
                              (map (fun b => criterion theta (fst b) (snd b)) val_loader) 0
                    / inject_Z (Z.of_nat (length val_loader)))%Q).
  { unfold Train.validate_epoch. rewrite validate_batches_spec.
    rewrite epoch_metrics_done. rewrite !app_nil_l.
    rewrite <- (map_map (fun b => probabilities theta (fst b)) Train.predictions_of).
    unfold Train.predictions_of at 1. rewrite np_vstack_map.
    split.
    - intros (P' & T & HP & HT & Hr & _ & Hl).
      destruct (Train.np_vstack (map _ val_loader)) as [P | e]; [| discriminate].
      cbn [except_map] in HP. injection HP as <-.
      exists P, T. split; [reflexivity |]. split; [exact HT |].
      split; [exact Hr | exact Hl].
    - intros (P & T & HP & HT & Hr & Hl). rewrite HP. cbn [except_map].
      exists (Train.predictions_of P), T. split; [reflexivity |].
      split; [exact HT |]. split; [exact Hr |]. split; [| exact Hl].
      apply np_vstack_nonempty in HT. destruct val_loader; [exfalso; apply HT; reflexivity | discriminate]. }
  split; [exact Hiff |].
  intros H P T HP HT. apply Hiff in H as (P' & T' & HP' & HT' & Hr & _).
  assert (P' = P) by congruence. assert (T' = T) by congruence. subst P' T'.
  split.
  - apply (calculate_metrics_fields _ _ _ _ _ _ Hr).
  - intros Hroc.
    rewrite (thresholded_same_binarization _ _ _ T P (Train.predictions_of P)
               (eq_sym (binarize_predictions P)) Hroc).
    rewrite Hr. reflexivity.
Qed.

Lemma validate_epoch_scores_predictions_witness :
  exists m : Train.EpochMetrics,
    Train.validate_epoch Sklearn.precision_recall_fscore_support Sklearn.accuracy_score
                         Sklearn.roc_auc_score
                         (fun (_ : unit) (images : ndarray Q) => images)
                         (fun _ _ _ => 1%Q) tt [(y_pred_2x2, y_true_2x2)]
    = Train.Done m
    /\ except_map thresholded
         (calculate_metrics Sklearn.precision_recall_fscore_support Sklearn.accuracy_score
                            Sklearn.roc_auc_score y_true_2x2 y_pred_2x2)
       = Return (thresholded (Train.report m)).
Proof.
  destruct (Train.validate_epoch
              Sklearn.precision_recall_fscore_support Sklearn.accuracy_score
              Sklearn.roc_auc_score
              (fun (_ : unit) (images : ndarray Q) => images)
              (fun _ _ _ => 1%Q) tt [(y_pred_2x2, y_true_2x2)]) as [m | e] eqn:E;
    [| vm_compute in E; discriminate E].
  exists m. split; [reflexivity |].
  destruct (validate_epoch_scores_predictions
              Sklearn.precision_recall_fscore_support Sklearn.accuracy_score
              Sklearn.roc_auc_score
              (fun (_ : unit) (images : ndarray Q) => images)
              (fun _ _ _ => 1%Q) tt [(y_pred_2x2, y_true_2x2)] m) as [_ H].
  destruct (H E y_pred_2x2 y_true_2x2 eq_refl eq_refl) as [_ Hthr].
  apply Hthr. exact reference_roc_auc_score_raises.
Defined.

(** X16. What [train_epoch] reports.  Batch [k] is scored with the
    parameters left by the optimizer steps on the batches before it: the
    prediction is taken before the step on the batch itself.  The epoch
    returns exactly when these probabilities and the targets stack and
    [calculate_metrics] returns on the thresholded stack; the model is then
    left with the parameters after all steps, and the loss is the sum of the
    batch losses, each taken before its step, over the number of batches. *)
Theorem train_epoch_scores_before_step {Images Parameters : Type}
        (precision_recall_fscore_support :
           ndarray Q -> ndarray Z -> average -> except (npfloat * npfloat * npfloat))
        (accuracy_score : ndarray Q -> ndarray Z -> except npfloat)
        (roc_auc_score : list Q -> list Q -> except npfloat)
        (probabilities : Parameters -> Images -> ndarray Q)
        (criterion : Parameters -> Images -> ndarray Q -> Q)
        (optimizer_step : Parameters -> Images -> ndarray Q -> Parameters)
        (theta theta' : Parameters) (train_loader : list (Images * ndarray Q))
        (m : Train.EpochMetrics) :
  Train.train_epoch precision_recall_fscore_support accuracy_score roc_auc_score
                    probabilities criterion optimizer_step theta train_loader
  = Train.Done (theta', m)
  <-> theta' = Train.parameters_after optimizer_step theta train_loader
       /\ exists P T : ndarray Q,
           Train.np_vstack
             (zip_with (fun th b => probabilities th (fst b))
                       (Train.parameters_at optimizer_step theta train_loader)
                       train_loader) = Return P
           /\ Train.np_vstack (map snd train_loader) = Return T
           /\ calculate_metrics precision_recall_fscore_support accuracy_score
                                roc_auc_score T (Train.predictions_of P)
              = Return (Train.report m)
           /\ Train.loss m
              = (fold_left Qplus
                           (zip_with (fun th b => criterion th (fst b) (snd b))
                                     (Train.parameters_at optimizer_step theta train_loader)
                                     train_loader) 0
                 / inject_Z (Z.of_nat (length train_loader)))%Q.
Proof.
  - unfold Train.train_epoch. rewrite train_batches_spec. rewrite !app_nil_l.
    assert (Hzip : zip_with (fun th b => Train.predictions_of (probabilities th (fst b)))
                            (Train.parameters_at optimizer_step theta train_loader)
                            train_loader
                   = map (array_map (fun p => inject_Z (binarize p)))
                         (zip_with (fun th b => probabilities th (fst b))
                                   (Train.parameters_at optimizer_step theta train_loader)
                                   train_loader)).
    { generalize (Train.parameters_at optimizer_step theta train_loader) as ths.
      induction train_loader as [| b l IH]; intros [| th ths]; cbn; try reflexivity.
      rewrite IH. reflexivity. }
    rewrite Hzip. split.
    + destruct (Train.epoch_metrics _ _ _ _ _ _ _) as [m' | e] eqn:E;
        cbn [Train.and_then]; [| discriminate].
      intros [= <- <-]. split; [reflexivity |].
      apply epoch_metrics_done in E as (P' & T & HP & HT & Hr & _ & Hl).
      rewrite np_vstack_map in HP.
      destruct (Train.np_vstack (zip_with _ _ _)) as [P | e]; [| discriminate].
      cbn [except_map] in HP. injection HP as <-.
      exists P, T. split; [reflexivity |]. split; [exact HT |].
      split; [exact Hr | exact Hl].
    + intros (-> & P & T & HP & HT & Hr & Hl).
      assert (E : Train.epoch_metrics
                    precision_recall_fscore_support accuracy_score roc_auc_score
                    (length train_loader)
                    (fold_left Qplus
                               (zip_with (fun th b => criterion th (fst b) (snd b))
                                         (Train.parameters_at optimizer_step theta
                                                              train_loader)
                                         train_loader) 0%Q)
                    (map (array_map (fun p => inject_Z (binarize p)))
                         (zip_with (fun th b => probabilities th (fst b))
                                   (Train.parameters_at optimizer_step theta train_loader)
                                   train_loader))
                    (map snd train_loader) = Train.Done m).
      { apply epoch_metrics_done. rewrite np_vstack_map, HP. cbn [except_map].
        exists (Train.predictions_of P), T. split; [reflexivity |].
        split; [exact HT |]. split; [exact Hr |]. split; [| exact Hl].
        apply np_vstack_nonempty in HT. destruct train_loader; [exfalso; apply HT; reflexivity | discriminate]. }
      rewrite E. reflexivity.
Qed.

Lemma train_epoch_scores_before_step_witness :
  exists m : Train.EpochMetrics,
    Train.train_epoch Sklearn.precision_recall_fscore_support Sklearn.accuracy_score
                      Sklearn.roc_auc_score
                      (fun (scale : Q) (images : ndarray Q) =>
                         array_map (Qmult scale) images)
                      (fun _ _ _ => 1%Q) (fun _ _ _ => 0%Q) 1%Q
                      [(y_pred_2x2, y_true_2x2); (y_pred_2x2, y_true_2x2)]
    = Train.Done (0%Q, m)
    /\ Train.loss m = (2 / 2)%Q.
Proof.
  destruct (Train.train_epoch
              Sklearn.precision_recall_fscore_support Sklearn.accuracy_score
              Sklearn.roc_auc_score
              (fun (scale : Q) (images : ndarray Q) => array_map (Qmult scale) images)
              (fun _ _ _ => 1%Q) (fun _ _ _ => 0%Q) 1%Q
              [(y_pred_2x2, y_true_2x2); (y_pred_2x2, y_true_2x2)])
    as [[theta' m] | e] eqn:E; [| vm_compute in E; discriminate E].
  destruct (proj1 (train_epoch_scores_before_step
                     Sklearn.precision_recall_fscore_support Sklearn.accuracy_score
                     Sklearn.roc_auc_score
                     (fun (scale : Q) (images : ndarray Q) =>
                        array_map (Qmult scale) images)
                     (fun _ _ _ => 1%Q) (fun _ _ _ => 0%Q) 1%Q theta'
                     [(y_pred_2x2, y_true_2x2); (y_pred_2x2, y_true_2x2)] m) E)
    as (Htheta & P & T & _ & _ & _ & Hloss).
  exists m. split; [rewrite Htheta; reflexivity | exact Hloss].
Defined.

Section EpochLoop.

Lemma written_app (f : Train.checkpoint_file) (l : list Train.Saved) (s : Train.Saved) :
  Train.written f (l ++ [s])
  = if Train.checkpoint_file_eqb (Train.saved_file s) f then Some s else Train.written f l.
Proof. unfold Train.written. rewrite fold_left_app. reflexivity. Qed.

Lemma float_gt_spec (a b : npfloat) :
  Train.float_gt a b = true <-> exists x y : Q, a = fin x /\ b = fin y /\ (y < x)%Q.
Proof.
  destruct a as [| x], b as [| y]; cbn [Train.float_gt].
  - split; [discriminate | intros (x & y & [=] & _)].
  - split; [discriminate | intros (x & y' & [=] & _)].
  - split; [discriminate | intros (x' & y & _ & [=] & _)].
  - rewrite negb_true_iff. split.
    + intros H. exists x, y. split; [reflexivity |]. split; [reflexivity |].
      apply Qnot_le_lt. intros Hle. apply Qle_bool_iff in Hle. congruence.
    + intros (x' & y' & [= <-] & [= <-] & Hlt).
      destruct (Qle_bool x y) eqn:E; [| reflexivity].
      apply Qle_bool_iff in E. exfalso. exact (Qlt_not_le _ _ Hlt E).
Qed.

Lemma float_gt_false (x y : Q) :
  Train.float_gt (fin x) (fin y) = false -> (x <= y)%Q.
Proof.
  cbn [Train.float_gt]. rewrite negb_false_iff. apply Qle_bool_iff.
Qed.

Lemma lookup_snoc_Some {A : Type} (l : list A) (x y : A) (i : nat) :
  (l ++ [x]) !! i = Some y ->
  ((i < length l)%nat /\ l !! i = Some y) \/ (i = length l /\ y = x).
Proof.
  intros H. apply lookup_app_Some in H as [H | [Hi H]].
  - left. split; [eapply lookup_lt_Some; exact H | exact H].
  - right. destruct (i - length l)%nat as [| n] eqn:E; cbn in H; [| discriminate].
    injection H as <-. split; [lia | reflexivity].
Qed.

(** One pass through the body keeps the first invariant. *)
Lemma epoch_body_best (save_interval : Z)
      (done : list (Train.EpochMetrics * Train.EpochMetrics))
      (st st1 : Train.LoopState) (tm vm : Train.EpochMetrics) :
  Train.best_tracked done st ->
  Train.epoch_body save_interval st (Z.of_nat (length done)) tm vm = Train.Done st1 ->
  Train.best_tracked (done ++ [(tm, vm)]) st1.
Proof.
  intros (b & Hb & H0 & Hle & Hfile). unfold Train.epoch_body.
  destruct (Train.float_gt (f1 (Train.report vm)) (Train.best_val_f1 st)) eqn:Hgt.
  - apply float_gt_spec in Hgt as (x & y & Hx & Hy & Hlt).
    rewrite Hb in Hy. injection Hy as <-.
    destruct (save_interval =? 0); [discriminate |]. intros [= <-].
    exists x. cbn [Train.best_val_f1 Train.saves].
    split; [exact Hx |].
    split; [apply Qlt_le_weak; eapply Qle_lt_trans; eassumption |].
    split.
    + intros i tr v q Hi Hq. apply lookup_snoc_Some in Hi as [[_ Hi] | [_ [= -> ->]]].
      * apply Qlt_le_weak. eapply Qle_lt_trans; [| exact Hlt]. eapply Hle; eassumption.
      * rewrite Hx in Hq. injection Hq as <-. apply Qle_refl.
    + assert (Hw : Train.written Train.best_model
                     (if (Z.of_nat (length done) + 1) mod save_interval =? 0
                      then (Train.saves st
                              ++ [{| Train.saved_file := Train.best_model;
                                     Train.saved_epoch := Z.of_nat (length done);
                                     Train.saved_metrics := vm |}])
                             ++ [{| Train.saved_file :=
                                      Train.checkpoint_epoch (Z.of_nat (length done) + 1);
                                    Train.saved_epoch := Z.of_nat (length done);
                                    Train.saved_metrics := vm |}]
                      else Train.saves st
                             ++ [{| Train.saved_file := Train.best_model;
                                    Train.saved_epoch := Z.of_nat (length done);
                                    Train.saved_metrics := vm |}])
                   = Some {| Train.saved_file := Train.best_model;
                             Train.saved_epoch := Z.of_nat (length done);
                             Train.saved_metrics := vm |}).
      { destruct (_ =? 0); rewrite !written_app; reflexivity. }
      rewrite Hw. exists (length done), tm. cbn [Train.saved_epoch Train.saved_metrics].
      split; [reflexivity |].
      split; [rewrite lookup_app_r, Nat.sub_diag by lia; reflexivity |].
      split; [exact Hx |].
      split; [eapply Qle_lt_trans; eassumption |].
      intros j tr' v q Hj Hv Hq. rewrite lookup_app_l in Hv by exact Hj.
      eapply Qle_lt_trans; [| exact Hlt]. eapply Hle; eassumption.
  - destruct (save_interval =? 0); [discriminate |]. intros [= <-].
    exists b. cbn [Train.best_val_f1 Train.saves].
    split; [exact Hb |]. split; [exact H0 |]. split.
    + intros i tr v q Hi Hq. apply lookup_snoc_Some in Hi as [[_ Hi] | [_ [= -> ->]]].
      * eapply Hle; eassumption.
      * rewrite Hq, Hb in Hgt. apply float_gt_false. exact Hgt.
    + assert (Hw : Train.written Train.best_model
                     (if (Z.of_nat (length done) + 1) mod save_interval =? 0
                      then Train.saves st
                             ++ [{| Train.saved_file :=
                                      Train.checkpoint_epoch (Z.of_nat (length done) + 1);
                                    Train.saved_epoch := Z.of_nat (length done);
                                    Train.saved_metrics := vm |}]
                      else Train.saves st)
                   = Train.written Train.best_model (Train.saves st)).
      { destruct (_ =? 0); [rewrite written_app |]; reflexivity. }
      rewrite Hw. destruct (Train.written Train.best_model (Train.saves st)) as [s |];
        [| exact Hfile].
      destruct Hfile as (e & tr & He & Hdone & Hf & Hpos & Hfirst).
      assert (Hlt : (e < length done)%nat) by (eapply lookup_lt_Some; exact Hdone).
      exists e, tr. split; [exact He |].
      split; [rewrite lookup_app_l by exact Hlt; exact Hdone |].
      split; [exact Hf |]. split; [exact Hpos |].
      intros j tr' v q Hj Hv Hq. rewrite lookup_app_l in Hv by lia.
      eapply Hfirst; eassumption.
Qed.

(** One pass through the body keeps the second invariant. *)
Lemma epoch_body_periodic (save_interval : Z)
      (done : list (Train.EpochMetrics * Train.EpochMetrics))
      (st st1 : Train.LoopState) (tm vm : Train.EpochMetrics) :
  Train.periodic_saved save_interval done st ->
  Train.epoch_body save_interval st (Z.of_nat (length done)) tm vm = Train.Done st1 ->
  Train.periodic_saved save_interval (done ++ [(tm, vm)]) st1.
Proof.
  intros (Htrain & Hval & Hfiles). unfold Train.epoch_body.
  set (best := if Train.float_gt _ _ then _ else _).
  assert (Hbest : forall n, Train.written (Train.checkpoint_epoch n) (snd best)
                            = Train.written (Train.checkpoint_epoch n) (Train.saves st)).
  { intros n. unfold best. destruct (Train.float_gt _ _); cbn [snd]; [| reflexivity].
    rewrite written_app. reflexivity. }
  destruct best as [bst saves1]. cbn [snd] in Hbest.
  destruct (save_interval =? 0); [discriminate |]. intros [= <-].
  unfold Train.periodic_saved.
  cbn [Train.train_history Train.val_history Train.saves].
  split; [| split].
  - rewrite Htrain. unfold Train.history_append, Train.history_of.
    cbn [Train.h_loss Train.h_f1 Train.h_precision Train.h_recall].
    rewrite !map_app. reflexivity.
  - rewrite Hval. unfold Train.history_append, Train.history_of.
    cbn [Train.h_loss Train.h_f1 Train.h_precision Train.h_recall].
    rewrite !map_app. reflexivity.
  - intros n. specialize (Hfiles n). rewrite length_app. cbn [length].
    destruct (Z.eqb_spec ((Z.of_nat (length done) + 1) mod save_interval) 0) as [Hm | Hm].
    + rewrite written_app. cbn [Train.saved_file Train.checkpoint_file_eqb].
      destruct (Z.eqb_spec (Z.of_nat (length done) + 1) n) as [<- | Hn].
      * cbn [Train.saved_epoch Train.saved_metrics].
        split; [lia |]. split; [exact Hm |]. split; [lia |]. exists tm.
        replace (Z.to_nat (Z.of_nat (length done) + 1 - 1)) with (length done) by lia.
        rewrite lookup_app_r, Nat.sub_diag by lia. reflexivity.
      * rewrite Hbest.
        destruct (Train.written (Train.checkpoint_epoch n) (Train.saves st)) as [s |].
        -- destruct Hfiles as (Hr & Hmod & He & tr & Hd).
           split; [lia |]. split; [exact Hmod |]. split; [exact He |]. exists tr.
           rewrite lookup_app_l by lia. exact Hd.
        -- intros [Hr Hmod]. apply Hfiles. split; [lia | exact Hmod].
    + rewrite Hbest.
      destruct (Train.written (Train.checkpoint_epoch n) (Train.saves st)) as [s |].
      * destruct Hfiles as (Hr & Hmod & He & tr & Hd).
        split; [lia |]. split; [exact Hmod |]. split; [exact He |]. exists tr.
        rewrite lookup_app_l by lia. exact Hd.
      * intros [Hr Hmod]. apply Hfiles. split; [| exact Hmod].
        destruct (Z.eq_dec n (Z.of_nat (length done) + 1)) as [-> | Hn]; [tauto | lia].
Qed.

(** The loop keeps what its body keeps. *)
Lemma training_loop_keeps (inv : list (Train.EpochMetrics * Train.EpochMetrics)
                                 -> Train.LoopState -> Prop)
      (save_interval : Z) :
  (forall done st st1 tm vm,
      inv done st ->
      Train.epoch_body save_interval st (Z.of_nat (length done)) tm vm = Train.Done st1 ->
      inv (done ++ [(tm, vm)]) st1) ->
  forall results done st st',
    inv done st ->
    Train.training_loop save_interval st (Z.of_nat (length done)) results = Train.Done st' ->
    inv (done ++ results) st'.
Proof.
  intros Hstep results.
  induction results as [| [tm vm] results IH]; intros done st st' Hinv;
    cbn [Train.training_loop].
  - intros [= <-]. rewrite app_nil_r. exact Hinv.
  - destruct (Train.epoch_body _ _ _ _ _) as [st1 | e] eqn:E; cbn [Train.and_then];
      [| discriminate].
    intros H. replace (done ++ (tm, vm) :: results) with ((done ++ [(tm, vm)]) ++ results)
      by (rewrite <- app_assoc; reflexivity).
    apply (IH _ st1); [eapply Hstep; eassumption |].
    rewrite length_app. cbn [length].
    replace (Z.of_nat (length done + 1)) with (Z.of_nat (length done) + 1) by lia.
    exact H.
Qed.

(** The loop fails only by the division in its body. *)
Lemma training_loop_returns (save_interval : Z)
      (results : list (Train.EpochMetrics * Train.EpochMetrics))
      (st : Train.LoopState) (epoch : Z) :
  save_interval <> 0 ->
  exists st', Train.training_loop save_interval st epoch results = Train.Done st'.
Proof.
  intros Hk. revert st epoch.
  induction results as [| [tm vm] results IH]; intros st epoch; cbn [Train.training_loop].
  - eexists. reflexivity.
  - unfold Train.epoch_body.
    destruct (if Train.float_gt _ _ then _ else _) as [bst saves1].
    destruct (Z.eqb_spec save_interval 0) as [? | _]; [contradiction |].
    cbn [Train.and_then]. apply IH.
Qed.

End EpochLoop.

(** X17. After the epoch loop of [main], [best_val_f1] is a number [b >= 0]
    that no validation F1 of the run exceeds.  [best_model.pth] is written
    only on a strict improvement: it holds the metrics of the first epoch
    whose validation F1 reached [b], every earlier epoch having a smaller
    one, and it does not exist when no validation F1 exceeded 0. *)
Theorem best_model_is_first_maximum (save_interval : Z)
        (results : list (Train.EpochMetrics * Train.EpochMetrics))
        (st : Train.LoopState) :
  Train.training_loop save_interval Train.initial_state 0 results = Train.Done st ->
  exists b : Q,
    Train.best_val_f1 st = fin b
    /\ (0 <= b)%Q
    /\ (forall (i : nat) (tr v : Train.EpochMetrics) (q : Q),
           results !! i = Some (tr, v) -> f1 (Train.report v) = fin q -> (q <= b)%Q)
    /\ match Train.written Train.best_model (Train.saves st) with
       | None => b = 0%Q
       | Some s =>
           exists (e : nat) (tr : Train.EpochMetrics),
             Train.saved_epoch s = Z.of_nat e
             /\ results !! e = Some (tr, Train.saved_metrics s)
             /\ f1 (Train.report (Train.saved_metrics s)) = fin b
             /\ (0 < b)%Q
             /\ forall (j : nat) (tr' v : Train.EpochMetrics) (q : Q),
                 (j < e)%nat -> results !! j = Some (tr', v) ->
                 f1 (Train.report v) = fin q -> (q < b)%Q
       end.
Proof.
  intros H. change (Train.best_tracked ([] ++ results) st).
  apply (training_loop_keeps Train.best_tracked save_interval
           (epoch_body_best save_interval) results [] Train.initial_state st);
    [| exact H].
  exists 0%Q. cbn. split; [reflexivity |]. split; [apply Qle_refl |].
  split; [| reflexivity]. intros i tr v q Hi. discriminate Hi.
Qed.

Lemma best_model_is_first_maximum_witness :
  exists (st : Train.LoopState) (b : Q),
    Train.training_loop 2 Train.initial_state 0 three_epochs = Train.Done st
    /\ Train.best_val_f1 st = fin b
    /\ (0 <= b)%Q.
Proof.
  destruct (Train.training_loop 2 Train.initial_state 0 three_epochs) as [st | e] eqn:E;
    [| vm_compute in E; discriminate E].
  destruct (best_model_is_first_maximum 2 three_epochs st E) as (b & Hb & H0 & _).
  exists st, b. split; [reflexivity |]. split; [exact Hb | exact H0].
Defined.

(** X18. The epoch loop of [main] with [save_interval] 0 raises
    [ZeroDivisionError] in its first epoch.  With any other value it runs
    through: each history then holds one entry per epoch, in order, and
    [checkpoint_epoch_n.pth] exists exactly for the multiples [n] of
    [save_interval] among 1, ..., [epochs]; the file numbered [n] stores the
    epoch number [n - 1] and the validation metrics of that epoch. *)
Theorem checkpoints_every_save_interval (save_interval : Z)
        (results : list (Train.EpochMetrics * Train.EpochMetrics)) :
  (save_interval = 0 -> results <> [] ->
   forall (st : Train.LoopState) (epoch : Z),
     Train.training_loop save_interval st epoch results
     = Train.Failed Train.ZeroDivisionError)
  /\ (save_interval <> 0 ->
      exists st : Train.LoopState,
        Train.training_loop save_interval Train.initial_state 0 results = Train.Done st
        /\ Train.train_history st = Train.history_of (map fst results)
        /\ Train.val_history st = Train.history_of (map snd results)
        /\ forall n : Z,
            match Train.written (Train.checkpoint_epoch n) (Train.saves st) with
            | None =>
                ~ (1 <= n <= Z.of_nat (length results) /\ n mod save_interval = 0)
            | Some s =>
                1 <= n <= Z.of_nat (length results) /\ n mod save_interval = 0
                /\ Train.saved_epoch s = n - 1
                /\ exists tr : Train.EpochMetrics,
                    results !! Z.to_nat (n - 1) = Some (tr, Train.saved_metrics s)
            end).
Proof.
  split.
  - intros -> Hne st epoch. destruct results as [| [tm vm] results]; [congruence |].
    cbn [Train.training_loop]. unfold Train.epoch_body.
    destruct (if Train.float_gt _ _ then _ else _) as [bst saves1]. reflexivity.
  - intros Hk.
    destruct (training_loop_returns save_interval results Train.initial_state 0 Hk)
      as [st Hst].
    exists st. split; [exact Hst |].
    change (Train.periodic_saved save_interval ([] ++ results) st).
    apply (training_loop_keeps (Train.periodic_saved save_interval) save_interval
             (epoch_body_periodic save_interval) results [] Train.initial_state st);
      [| exact Hst].
    split; [reflexivity |]. split; [reflexivity |].
    intros n. cbn. lia.
Qed.

Lemma checkpoints_every_save_interval_witness :
  exists (st : Train.LoopState) (s : Train.Saved),
    Train.training_loop 2 Train.initial_state 0 three_epochs = Train.Done st
    /\ Train.written (Train.checkpoint_epoch 2) (Train.saves st) = Some s
    /\ Train.saved_epoch s = 1.
Proof.
  destruct (checkpoints_every_save_interval 2 three_epochs) as [_ H].
  destruct H as (st & Hst & _ & _ & Hfiles); [discriminate |].
  specialize (Hfiles 2).
  destruct (Train.written (Train.checkpoint_epoch 2) (Train.saves st)) as [s |] eqn:Hs.
  - exists st, s. split; [exact Hst |]. split; [exact Hs |].
    destruct Hfiles as (_ & _ & He & _). exact He.
  - exfalso. apply Hfiles. split; [cbn; lia | reflexivity].
Defined.

(** * Properties of the models *)

Section Heads.

Ltac run_layers :=
  cbn [Model.sequential Model.layer_forward mbind except_bind bind];
  repeat (rewrite Nat.eqb_refl;
          cbn [Model.sequential Model.layer_forward mbind except_bind bind]).

(** The classification head maps features of its width to one logit per
    class. *)
Lemma head_forward (dropout_rate : Q) (feature_dim num_classes : nat)
      (classifier : list Model.layer) :
  Model.head dropout_rate feature_dim num_classes = Return classifier ->
  Model.sequential classifier feature_dim = Return num_classes.
Proof.
  unfold Model.head, Model.nn_Dropout.
  destruct (Qle_bool 0 dropout_rate && Qle_bool dropout_rate 1); [| discriminate].
  cbn [mbind except_bind bind]. intros [= <-]. run_layers. reflexivity.
Qed.

(** The head is built exactly for a dropout rate in [0, 1]. *)
Lemma head_returns (dropout_rate : Q) (feature_dim num_classes : nat) :
  (0 <= dropout_rate)%Q /\ (dropout_rate <= 1)%Q ->
  exists classifier : list Model.layer,
    Model.head dropout_rate feature_dim num_classes = Return classifier.
Proof.
  intros [H0 H1]. apply Qle_bool_iff in H0, H1.
  unfold Model.head, Model.nn_Dropout. rewrite H0, H1.
  eexists. reflexivity.
Qed.

Lemma head_raises (dropout_rate : Q) (feature_dim num_classes : nat) :
  ~ ((0 <= dropout_rate)%Q /\ (dropout_rate <= 1)%Q) ->
  Model.head dropout_rate feature_dim num_classes = Raise ValueError.
Proof.
  intros Hn. unfold Model.head, Model.nn_Dropout.
  destruct (Qle_bool 0 dropout_rate) eqn:H0; [| reflexivity].
  destruct (Qle_bool dropout_rate 1) eqn:H1; [| reflexivity].
  exfalso. apply Hn. split; apply Qle_bool_iff; assumption.
Qed.



(** The loop over the scales with the one backbone it accepts. *)
Lemma multiscale_backbones_b0 (scales : list nat) (backbones : list nat)
      (feature_dim : option nat) :
  Model.multiscale_backbones "efficientnet_b0" scales backbones feature_dim
  = Return (backbones ++ replicate (length scales) 1280%nat,
            match scales with [] => feature_dim | _ => Some 1280%nat end).
Proof.
  revert backbones feature_dim.
  induction scales as [| s scales IH]; intros backbones feature_dim;
    cbn [Model.multiscale_backbones length replicate].
  - rewrite app_nil_r. reflexivity.
  - rewrite String.eqb_refl, IH, <- app_assoc. cbn [app].
    destruct scales; reflexivity.
Qed.

(** With any other backbone it fails in its first pass. *)
Lemma multiscale_backbones_other (model_name : string) (scales : list nat)
      (backbones : list nat) (feature_dim : option nat) :
  model_name <> "efficientnet_b0" -> scales <> [] ->
  Model.multiscale_backbones model_name scales backbones feature_dim = Raise ValueError.
Proof.
  intros Hname Hscales. destruct scales as [| s scales]; [congruence |].
  cbn [Model.multiscale_backbones].
  destruct (String.eqb_spec model_name "efficientnet_b0"); [contradiction | reflexivity].
Qed.



(** The multi-scale classifier built over the accepted backbone. *)
Lemma multiscale_init_b0 (num_classes : nat) (scales : list nat) :
  scales <> [] ->
  Model.MultiScalePlantClassifier_init num_classes "efficientnet_b0" scales
  = Return (Model.MultiScalePlantClassifier
              num_classes scales (replicate (length scales) 1280%nat)
              [Model.Linear (1280 * length scales) 1024; Model.ReLU; Model.Dropout 0.3;
               Model.Linear 1024 512; Model.ReLU; Model.Dropout 0.3]
              (Model.Linear 512 num_classes)).
Proof.
  intros Hscales. unfold Model.MultiScalePlantClassifier_init.
  rewrite multiscale_backbones_b0. destruct scales as [| s scales]; [congruence |].
  reflexivity.
Qed.


End Heads.



(** X20. Which configurations [create_model] accepts.  A configuration
    without [num_classes] raises [KeyError] before the model type is looked
    at.  Otherwise, with the defaults [efficientnet], [efficientnet_b0] and
    0.3 for absent keys: an unknown type raises [ValueError]; the plain
    classifier takes the backbones b0, b1 and b2, the attention and the
    multi-scale classifier only b0, and any other backbone raises
    [ValueError]; the plain and the attention classifier pass the dropout
    rate to [nn.Dropout], which raises [ValueError] for a rate outside
    [0, 1]; the multi-scale classifier does not read the rate, and with an
    empty list of scales it raises [NameError] (its [feature_dim] is bound
    only inside the loop over the scales), whatever the backbone.  Every
    other configuration gives a model. *)
Theorem create_model_accepts (config : Model.ModelConfig) :
  let model_type := default "efficientnet" (Model.cfg_type config) in
  let model_name := default "efficientnet_b0" (Model.cfg_backbone config) in
  let dropout_rate := default 0.3%Q (Model.cfg_dropout_rate config) in
  let scales := default [224; 256; 288]%nat (Model.cfg_scales config) in
  let valid_rate := (0 <= dropout_rate)%Q /\ (dropout_rate <= 1)%Q in
  (Model.cfg_num_classes config = None -> Model.create_model config = Raise KeyError)
  /\ (Model.cfg_num_classes config <> None ->
      (model_type ∉ ["efficientnet"; "efficientnet_attention"; "multiscale"] ->
       Model.create_model config = Raise ValueError)
      /\ (model_type = "efficientnet" ->
          model_name ∉ ["efficientnet_b0"; "efficientnet_b1"; "efficientnet_b2"] ->
          Model.create_model config = Raise ValueError)
      /\ (model_type = "efficientnet_attention" ->
          model_name <> "efficientnet_b0" ->
          Model.create_model config = Raise ValueError)
      /\ (model_type = "efficientnet" \/ model_type = "efficientnet_attention" ->
          ~ valid_rate ->
          Model.create_model config = Raise ValueError)
      /\ (model_type = "multiscale" -> scales = [] ->
          Model.create_model config = Raise NameError)
      /\ (model_type = "multiscale" -> scales <> [] ->
          model_name <> "efficientnet_b0" ->
          Model.create_model config = Raise ValueError)
      /\ ((exists m : Model.model, Model.create_model config = Return m)
          <-> (model_type = "efficientnet"
               /\ model_name ∈ ["efficientnet_b0"; "efficientnet_b1"; "efficientnet_b2"]
               /\ valid_rate)
              \/ (model_type = "efficientnet_attention"
                  /\ model_name = "efficientnet_b0" /\ valid_rate)
              \/ (model_type = "multiscale" /\ scales <> []
                  /\ model_name = "efficientnet_b0"))).
Proof.
  intros model_type model_name dropout_rate scales valid_rate.
  unfold Model.create_model.
  fold model_type model_name dropout_rate scales.
  destruct (Model.cfg_num_classes config) as [n |]; cbn [mbind except_bind bind].
  2: { split; [reflexivity | intros H; congruence]. }
  split; [discriminate |]. intros _.
  assert (Hplain : forall name,
             name ∉ ["efficientnet_b0"; "efficientnet_b1"; "efficientnet_b2"] ->
             Model.PlantDiseaseClassifier_init n name dropout_rate = Raise ValueError).
  { intros name Hnot. rewrite !not_elem_of_cons in Hnot.
    destruct Hnot as (H1 & H2 & H3 & _). apply String.eqb_neq in H1, H2, H3.
    unfold Model.PlantDiseaseClassifier_init. rewrite H1, H2, H3. reflexivity. }
  assert (Hplain_ok : forall name,
             name ∈ ["efficientnet_b0"; "efficientnet_b1"; "efficientnet_b2"] ->
             Model.PlantDiseaseClassifier_init n name dropout_rate
             = (classifier ← Model.head dropout_rate
                                        (if String.eqb name "efficientnet_b2"
                                         then 1408 else 1280)%nat n;
                Return (Model.PlantDiseaseClassifier
                          n name
                          (if String.eqb name "efficientnet_b2" then 1408 else 1280)%nat
                          classifier))).
  { intros name Hin. rewrite !elem_of_cons in Hin.
    destruct Hin as [-> | [-> | [-> | Hnil]]]; [reflexivity .. | inversion Hnil]. }
  assert (Hatt : forall name,
             name <> "efficientnet_b0" ->
             Model.PlantDiseaseClassifierWithAttention_init n name dropout_rate
             = Raise ValueError).
  { intros name Hname. apply String.eqb_neq in Hname.
    unfold Model.PlantDiseaseClassifierWithAttention_init. rewrite Hname. reflexivity. }
  assert (Hbind : forall (A : Type) (k : list Model.layer -> A) (fd : nat),
             ~ valid_rate ->
             (classifier ← Model.head dropout_rate fd n; Return (k classifier))
             = Raise ValueError).
  { intros A k fd Hr. rewrite (head_raises dropout_rate fd n Hr). reflexivity. }
  assert (Hbind_ok : forall (A : Type) (k : list Model.layer -> A) (fd : nat),
             valid_rate ->
             exists a, (classifier ← Model.head dropout_rate fd n; Return (k classifier))
                       = Return a).
  { intros A k fd Hr. destruct (head_returns dropout_rate fd n Hr) as [c ->].
    eexists. reflexivity. }
  assert (Hrate_dec : valid_rate \/ ~ valid_rate).
  { unfold valid_rate.
    destruct (Qle_bool 0 dropout_rate) eqn:H0; [| right; intros [H _];
                                                  apply Qle_bool_iff in H; congruence].
    destruct (Qle_bool dropout_rate 1) eqn:H1; [| right; intros [_ H];
                                                  apply Qle_bool_iff in H; congruence].
    left. split; apply Qle_bool_iff; assumption. }
  destruct (String.eqb_spec model_type "efficientnet") as [Et | Et].
  { (* the plain classifier *)
    rewrite Et.
    split; [intros Hnot; exfalso; apply Hnot; rewrite !elem_of_cons; auto |].
    split; [intros _ Hnot; apply Hplain; exact Hnot |].
    split; [intros [=] |].
    split.
    { intros _ Hr.
      destruct (decide (model_name ∈ ["efficientnet_b0"; "efficientnet_b1";
                                      "efficientnet_b2"])) as [Hin | Hnot].
      - rewrite (Hplain_ok _ Hin). apply Hbind. exact Hr.
      - apply Hplain. exact Hnot. }
    split; [intros [=] |]. split; [intros [=] |].
    split.
    - intros [m Hm].
      destruct (decide (model_name ∈ ["efficientnet_b0"; "efficientnet_b1";
                                      "efficientnet_b2"])) as [Hin | Hnot];
        [| rewrite (Hplain _ Hnot) in Hm; discriminate Hm].
      pose proof Hrate_dec as [Hr | Hr].
      + left. split; [reflexivity |]. split; [exact Hin | exact Hr].
      + rewrite (Hplain_ok _ Hin), (Hbind _ _ _ Hr) in Hm. discriminate Hm.
    - intros [(_ & Hin & Hr) | [([=] & _) | ([=] & _)]].
      rewrite (Hplain_ok _ Hin). apply Hbind_ok. exact Hr. }
  destruct (String.eqb_spec model_type "efficientnet_attention") as [Ea | Ea].
  { (* the attention classifier *)
    rewrite Ea.
    split; [intros Hnot; exfalso; apply Hnot; rewrite !elem_of_cons; auto |].
    split; [intros [=] |].
    split; [intros _ Hname; apply Hatt; exact Hname |].
    split.
    { intros _ Hr. destruct (String.eqb_spec model_name "efficientnet_b0") as [-> | Hname].
      - unfold Model.PlantDiseaseClassifierWithAttention_init.
        cbn [String.eqb Ascii.eqb Bool.eqb mbind except_bind bind]. cbv zeta.
        apply Hbind. exact Hr.
      - apply Hatt. exact Hname. }
    split; [intros [=] |]. split; [intros [=] |].
    split.
    - intros [m Hm].
      destruct (String.eqb_spec model_name "efficientnet_b0") as [En | Hname];
        [| rewrite (Hatt _ Hname) in Hm; discriminate Hm].
      pose proof Hrate_dec as [Hr | Hr].
      + right; left. split; [reflexivity |]. split; [exact En | exact Hr].
      + rewrite En in Hm. unfold Model.PlantDiseaseClassifierWithAttention_init in Hm.
        cbn [String.eqb Ascii.eqb Bool.eqb mbind except_bind bind] in Hm. cbv zeta in Hm.
        rewrite (Hbind _ _ _ Hr) in Hm. discriminate Hm.
    - intros [([=] & _) | [(_ & -> & Hr) | ([=] & _)]].
      unfold Model.PlantDiseaseClassifierWithAttention_init.
      cbn [String.eqb Ascii.eqb Bool.eqb mbind except_bind bind]. cbv zeta.
      apply Hbind_ok. exact Hr. }
  destruct (String.eqb_spec model_type "multiscale") as [Em | Em].
  { (* the multi-scale classifier *)
    rewrite Em.
    split; [intros Hnot; exfalso; apply Hnot; rewrite !elem_of_cons; auto |].
    split; [intros [=] |]. split; [intros [=] |].
    split; [intros [[=] | [=]] |].
    split; [intros _ ->; reflexivity |].
    split.
    { intros _ Hscales Hname. unfold Model.MultiScalePlantClassifier_init.
      rewrite multiscale_backbones_other by assumption. reflexivity. }
    split.
    - intros [m Hm].
      destruct scales as [| sc scales'] eqn:Hsc; [discriminate Hm |].
      destruct (String.eqb_spec model_name "efficientnet_b0") as [En | Hname].
      + right; right. split; [reflexivity |]. split; [discriminate | exact En].
      + unfold Model.MultiScalePlantClassifier_init in Hm.
        rewrite multiscale_backbones_other in Hm by (exact Hname || discriminate).
        discriminate Hm.
    - intros [([=] & _) | [([=] & _) | (_ & Hscales & ->)]].
      rewrite multiscale_init_b0 by exact Hscales. eexists. reflexivity. }
  (* an unknown type *)
  split; [reflexivity |].
  split; [intros E; contradiction |]. split; [intros E; contradiction |].
  split; [intros [E | E]; contradiction |].
  split; [intros E; contradiction |]. split; [intros E; contradiction |].
  split; [intros [m Hm]; discriminate Hm |].
  intros [(E & _) | [(E & _) | (E & _)]]; contradiction.
Qed.

Lemma create_model_accepts_witness :
  Model.create_model {| Model.cfg_type := Some "multiscale";
                        Model.cfg_num_classes := Some 38%nat;
                        Model.cfg_backbone := Some "efficientnet_b2";
                        Model.cfg_dropout_rate := None;
                        Model.cfg_scales := Some [] |}
  = Raise NameError
  /\ Model.create_model {| Model.cfg_type := None;
                           Model.cfg_num_classes := Some 38%nat;
                           Model.cfg_backbone := None;
                           Model.cfg_dropout_rate := Some (3 # 2);
                           Model.cfg_scales := None |}
     = Raise ValueError.
Proof.
  split.
  - pose proof (create_model_accepts
                  {| Model.cfg_type := Some "multiscale";
                     Model.cfg_num_classes := Some 38%nat;
                     Model.cfg_backbone := Some "efficientnet_b2";
                     Model.cfg_dropout_rate := None;
                     Model.cfg_scales := Some [] |}) as H.
    cbv zeta in H. destruct H as [_ H].
    destruct H as (_ & _ & _ & _ & H & _); [discriminate |].
    apply H; reflexivity.
  - pose proof (create_model_accepts
                  {| Model.cfg_type := None;
                     Model.cfg_num_classes := Some 38%nat;
                     Model.cfg_backbone := None;
                     Model.cfg_dropout_rate := Some (3 # 2);
                     Model.cfg_scales := None |}) as H.
    cbv zeta in H. destruct H as [_ H].
    destruct H as (_ & _ & _ & H & _); [discriminate |].
    apply H; [left; reflexivity |].
    intros [_ Hle]. cbn in Hle. revert Hle. apply Qlt_not_le. reflexivity.
Defined.

(** * Properties of the set-up of [main] *)

Section MainSetup.

Variable key : hash_secret.
Variable read_csv : node -> except DataFrame.
Variable json_load : node -> except ClassInfo.

(** The registry of a data set that was built. *)
Lemma init_class_info (root : list (string * node)) (split_ : string)
      (ds : PlantDiseaseDataset) :
  __init__ key read_csv json_load root split_ = Return ds ->
  exists md : DataFrame,
    _load_class_info json_load root md = Return (class_info ds).
Proof.
  unfold __init__.
  destruct (_load_metadata key read_csv root) as [md | e]; [| discriminate].
  cbn [mbind except_bind bind].
  destruct (_load_class_info json_load root md) as [ci | e] eqn:Hci; [| discriminate].
  cbn [mbind except_bind bind].
  destruct (_filter_split_data md split_) as [d | e]; [| discriminate].
  cbn [mbind except_bind bind]. intros [= <-]. exists md. exact Hci.
Qed.

End MainSetup.

Section Widths.

(** A label has as many entries as the registry says there are classes. *)
Lemma create_label_length (info : ClassInfo) (c : string) (label : tensor) :
  _create_label info c = Return label ->
  Z.of_nat (length label) = num_classes info.
Proof.
  unfold _create_label.
  destruct (class_to_idx info !! c) as [i |]; [| discriminate].
  cbn [mbind except_bind bind]. unfold torch_zeros.
  destruct (Z.ltb_spec (num_classes info) 0) as [Hn | Hn]; [discriminate |].
  cbn [mbind except_bind bind]. unfold tensor_setitem.
  destruct (norm_index _ i) as [k |]; [| discriminate].
  intros [= <-]. rewrite length_insert, length_replicate. lia.
Qed.

(** The plain classifier maps a batch to one logit per class. *)
Lemma plain_classifier_forward (num_classes : nat) (model_name : string)
      (dropout_rate : Q) (m : Model.model) :
  Model.PlantDiseaseClassifier_init num_classes model_name dropout_rate = Return m ->
  Model.forward m = Return num_classes.
Proof.
  unfold Model.PlantDiseaseClassifier_init.
  destruct (String.eqb _ "efficientnet_b0");
    [| destruct (String.eqb _ "efficientnet_b1");
       [| destruct (String.eqb _ "efficientnet_b2"); [| discriminate]]];
    cbn [mbind except_bind bind];
    (destruct (Model.head _ _ _) as [classifier | e] eqn:Hhead; [| discriminate]);
    cbn [mbind except_bind bind]; intros [= <-];
    cbn [Model.forward]; exact (head_forward _ _ _ _ Hhead).
Qed.

End Widths.

(** X21. [main] reaches its training loop only for a data directory that
    holds [class_info.json]: it opens that file itself, after the data sets
    are built, so a directory whose registry the data set would derive from
    the metadata is not enough.  When the set-up returns, the three data sets
    carry the registry read from that file, the class names are its
    [classes], the model returns [len(classes)] logits per image, and every
    label the data sets create has [num_classes] entries: outputs and
    targets have the same width only if the file agrees with itself. *)
Theorem main_needs_class_info_json
        (key : hash_secret) (read_csv : node -> except DataFrame)
        (json_load : node -> except ClassInfo)
        (root : list (string * node)) (model_name : string) :
  (find_in root "class_info.json" = None ->
   forall s : Main.Setup,
     Main.setup key read_csv json_load root model_name <> Return s)
  /\ forall s : Main.Setup,
      Main.setup key read_csv json_load root model_name = Return s ->
      exists (f : node) (info : ClassInfo),
        find_in root "class_info.json" = Some f
        /\ json_load f = Return info
        /\ class_info (Main.train_dataset s) = info
        /\ class_info (Main.val_dataset s) = info
        /\ class_info (Main.test_dataset s) = info
        /\ Main.class_names s = classes info
        /\ Model.forward (Main.model s) = Return (length (classes info))
        /\ forall (c : string) (label : tensor),
            _create_label info c = Return label ->
            Z.of_nat (length label) = num_classes info.
Proof.
  assert (Hret : forall s : Main.Setup,
             Main.setup key read_csv json_load root model_name = Return s ->
             exists (f : node) (info : ClassInfo),
               find_in root "class_info.json" = Some f
               /\ json_load f = Return info
               /\ class_info (Main.train_dataset s) = info
               /\ class_info (Main.val_dataset s) = info
               /\ class_info (Main.test_dataset s) = info
               /\ Main.class_names s = classes info
               /\ Model.forward (Main.model s) = Return (length (classes info))
               /\ forall (c : string) (label : tensor),
                   _create_label info c = Return label ->
                   Z.of_nat (length label) = num_classes info).
  { intros s. unfold Main.setup, Main.create_datasets.
    destruct (__init__ key read_csv json_load root "train") as [tr | e] eqn:Htr;
      [| discriminate].
    cbn [mbind except_bind bind].
    destruct (__init__ key read_csv json_load root "val") as [va | e] eqn:Hva;
      [| discriminate].
    cbn [mbind except_bind bind].
    destruct (__init__ key read_csv json_load root "test") as [te | e] eqn:Hte;
      [| discriminate].
    cbn [mbind except_bind bind]. unfold Main.open_class_info.
    apply init_class_info in Htr as [md1 Htr].
    apply init_class_info in Hva as [md2 Hva].
    apply init_class_info in Hte as [md3 Hte].
    unfold _load_class_info in Htr, Hva, Hte.
    destruct (find_in root "class_info.json") as [f |]; [| discriminate].
    destruct (json_load f) as [info | e] eqn:Hinfo; [| discriminate].
    cbn [mbind except_bind bind].
    destruct (Model.PlantDiseaseClassifier_init _ _ _) as [m | e] eqn:Hm;
      [| discriminate].
    cbn [mbind except_bind bind]. intros [= <-].
    cbn [Main.train_dataset Main.val_dataset Main.test_dataset Main.class_names
         Main.model].
    exists f, info. split; [reflexivity |]. split; [exact Hinfo |].
    split; [congruence |]. split; [congruence |]. split; [congruence |].
    split; [reflexivity |].
    split; [exact (plain_classifier_forward _ _ _ _ Hm) |].
    intros c label. apply create_label_length. }
  split; [| exact Hret].
  intros Hnone s Hs. destruct (Hret s Hs) as (f & info & Hf & _). congruence.
Qed.

Lemma main_needs_class_info_json_witness :
  exists s : Main.Setup,
    Main.setup (secret_of_seed 0) no_file read_registry registry_root "efficientnet_b0"
    = Return s
    /\ Model.forward (Main.model s) = Return 1%nat.
Proof.
  destruct (Main.setup (secret_of_seed 0) no_file read_registry registry_root
                       "efficientnet_b0") as [s | e] eqn:E;
    [| vm_compute in E; discriminate E].
  destruct (main_needs_class_info_json
              (secret_of_seed 0) no_file read_registry registry_root "efficientnet_b0")
    as [_ H].
  destruct (H s E) as (f & info & _ & Hinfo & _ & _ & _ & _ & Hforward & _).
  exists s. split; [reflexivity |].
  injection Hinfo as <-. exact Hforward.
Defined.

(** * Properties of the IP102 loader *)

Section Annotations.

Lemma complete_dec (ann : IP102.Annotation) :
  {IP102.complete ann} + {~ IP102.complete ann}.
Proof.
  unfold IP102.complete.
  destruct (IP102.ann_image_path ann), (IP102.ann_class_name ann), (IP102.ann_split ann);
    first [ left; repeat split; eexists; reflexivity
          | right; intros (H1 & H2 & H3);
            first [ destruct H1 as [? H1]; discriminate H1
                  | destruct H2 as [? H2]; discriminate H2
                  | destruct H3 as [? H3]; discriminate H3 ] ].
Qed.

(** One row per annotation, with the three values as annotated. *)
Lemma rows_of_annotations_complete (annotations : list (string * IP102.Annotation)) :
  Forall (fun e => IP102.complete (snd e)) annotations ->
  exists data : list SampleRecord,
    IP102.rows_of_annotations annotations = Return data
    /\ Forall2 (fun e r =>
                  IP102.ann_image_path (snd e) = Some (image_path r)
                  /\ IP102.ann_class_name (snd e) = Some (class_name r)
                  /\ IP102.ann_split (snd e) = Some (split r))
               annotations data.
Proof.
  induction 1 as [| [img_id ann] annotations Hc _ IH]; cbn [IP102.rows_of_annotations].
  - exists []. split; [reflexivity | constructor].
  - destruct IH as (data & -> & Hall).
    destruct Hc as ([p Hp] & [c Hcn] & [s Hs]). cbn [snd] in *.
    rewrite Hp, Hcn, Hs. cbn [IP102.getitem mbind except_bind bind].
    eexists. split; [reflexivity |]. constructor; [| exact Hall].
    cbn [snd image_path class_name split]. auto.
Qed.

(** A missing key is a [KeyError], wherever it is missing. *)
Lemma rows_of_annotations_incomplete (annotations : list (string * IP102.Annotation)) :
  ~ Forall (fun e => IP102.complete (snd e)) annotations ->
  IP102.rows_of_annotations annotations = Raise KeyError.
Proof.
  induction annotations as [| [img_id ann] annotations IH]; intros Hn.
  - exfalso. apply Hn. constructor.
  - cbn [IP102.rows_of_annotations].
    destruct (complete_dec ann) as [Hc | Hc].
    + rewrite IH by (intros Hall; apply Hn; constructor; [exact Hc | exact Hall]).
      destruct Hc as ([p ->] & [c ->] & [s ->]). reflexivity.
    + unfold IP102.complete in Hc.
      destruct (IP102.ann_image_path ann); [| reflexivity].
      destruct (IP102.ann_class_name ann); [| reflexivity].
      destruct (IP102.ann_split ann); [| reflexivity].
      exfalso. apply Hc. eauto.
Qed.

End Annotations.

(** X22. An IP102 data set with an [annotations.json] takes its rows from
    the annotations, one row per annotation and in their order, with path,
    class and split as annotated; a [metadata.csv] beside it is not read.  An
    annotation without one of these three keys makes the loader raise
    [KeyError]; a missing [bbox] does not.  The split of an image is the
    annotated one and does not depend on the hash key of the interpreter:
    the data set is the same in every process.  With no annotation at all
    the table has no columns and the data set cannot be constructed. *)
Theorem ip102_rows_follow_annotations
        (key : hash_secret) (read_csv : node -> except DataFrame)
        (json_load : node -> except ClassInfo)
        (load_annotations : node -> except (list (string * IP102.Annotation)))
        (root : list (string * node)) (f : node)
        (annotations : list (string * IP102.Annotation)) :
  find_in root "annotations.json" = Some f ->
  load_annotations f = Return annotations ->
  (Forall (fun e => IP102.complete (snd e)) annotations ->
   exists data : list SampleRecord,
     IP102._load_metadata key read_csv load_annotations root
     = Return (IP102.DataFrame_of data)
     /\ length data = length annotations
     /\ forall (i : nat) (img_id : string) (ann : IP102.Annotation),
         annotations !! i = Some (img_id, ann) ->
         exists r : SampleRecord,
           data !! i = Some r
           /\ IP102.ann_image_path ann = Some (image_path r)
           /\ IP102.ann_class_name ann = Some (class_name r)
           /\ IP102.ann_split ann = Some (split r))
  /\ (~ Forall (fun e => IP102.complete (snd e)) annotations ->
      IP102._load_metadata key read_csv load_annotations root = Raise KeyError)
  /\ (forall (key' : hash_secret) (split_ : string),
         IP102.__init__ key read_csv json_load load_annotations root split_
         = IP102.__init__ key' read_csv json_load load_annotations root split_)
  /\ (annotations = [] ->
      forall (split_ : string) (ds : PlantDiseaseDataset),
        IP102.__init__ key read_csv json_load load_annotations root split_ <> Return ds).
Proof.
  intros Hf Ha.
  assert (Hload : forall k,
             IP102._load_metadata k read_csv load_annotations root
             = (data ← IP102.rows_of_annotations annotations;
                Return (IP102.DataFrame_of data))).
  { intros k. unfold IP102._load_metadata. rewrite Hf, Ha. reflexivity. }
  split; [| split; [| split]].
  - intros Hall. destruct (rows_of_annotations_complete annotations Hall) as (data & Hd & H2).
    exists data. rewrite Hload, Hd. split; [reflexivity |].
    split; [symmetry; eapply Forall2_length; exact H2 |].
    intros i img_id ann Hi.
    destruct (Forall2_lookup_l _ _ _ _ _ H2 Hi) as (r & Hr & Hfields).
    exists r. split; [exact Hr | exact Hfields].
  - intros Hn. rewrite Hload, (rows_of_annotations_incomplete annotations Hn). reflexivity.
  - intros key' split_. unfold IP102.__init__. rewrite !Hload. reflexivity.
  - intros -> split_ ds. unfold IP102.__init__. rewrite Hload.
    cbn [IP102.rows_of_annotations mbind except_bind bind].
    unfold _load_class_info, _create_class_info.
    destruct (find_in root "class_info.json") as [g |].
    + destruct (json_load g) as [ci | e]; [| discriminate]. discriminate.
    + discriminate.
Qed.

Lemma ip102_rows_follow_annotations_witness :
  exists data : list SampleRecord,
    IP102._load_metadata (secret_of_seed 0) no_file ip102_annotations ip102_root
    = Return (IP102.DataFrame_of data)
    /\ length data = 2%nat.
Proof.
  destruct (ip102_rows_follow_annotations
              (secret_of_seed 0) no_file no_file ip102_annotations ip102_root
              (File false)
              [("1", {| IP102.ann_image_path := Some "images/1.jpg";
                        IP102.ann_class_name := Some "aphid";
                        IP102.ann_split := Some "train";
                        IP102.ann_bbox := Some [1; 2; 3; 4] |});
               ("2", {| IP102.ann_image_path := Some "images/2.jpg";
                        IP102.ann_class_name := Some "mite";
                        IP102.ann_split := Some "val";
                        IP102.ann_bbox := None |})]
              eq_refl eq_refl) as [H _].
  destruct H as (data & Hd & Hlen & _).
  - repeat constructor; cbn; eauto.
  - exists data. split; [exact Hd | exact Hlen].
Defined.
